(** * my_converterbot: the Markdown to DOCX converter and the archive reporter

    A shallow embedding of [md_to_docx.py] (class [MarkdownToDocxConverter])
    and of [rep_to_txt.py] (the tree and the dump of the file contents),
    with the properties of the design document checked against it.

    Conventions of the embedding.
    - A Python [str] is a [string]: the UTF-8 bytes of the text, which the
      converter reads with the strict [utf-8] codec.  [str.strip], and the
      [\s] and [\d] of [re], work on characters: they take the white
      space and the decimal digits of Unicode, in their UTF-8 form.  The
      other characters the code looks for (['#'], ['|'], list markers,
      brackets, asterisks) are ASCII.
    - The python-docx document is the list of blocks appended to it, in
      order.  A block keeps the text handed to [process_text_formatting];
      the styled runs are a function of that text alone, and the
      [AttributeError] of that function ends the conversion.  Appending
      to the document does not fail otherwise: the styles the code names
      exist after [setup_styles], and the text is taken to be free of the
      control characters XML cannot hold.
    - Python [int] is [Z]; list indices follow Python (negative indices
      count from the end, an index out of range raises [IndexError]).
      [int] of a string follows CPython 3.11: more than 4300 digits raise
      [ValueError].
    - The read cursor of [convert] is a [nat]: it starts at 0 and every
      iteration ends with [i += 1] on an index that is at least -1.  The
      [while] loops over the lines are recursive functions over the
      remaining lines. *)

From Stdlib Require Import ZArith List Bool Arith Lia.
From Stdlib Require Import Strings.Ascii Strings.String Numbers.DecimalString.
From Stdlib Require Import Sorting.Sorted Sorting.Permutation.
Import ListNotations.

Open Scope string_scope.
Open Scope list_scope.

(* ================================================================= *)
(** * Python strings *)

Module PyStr.

(** The white space of ASCII: TAB, LF, VT, FF, CR, FS, GS, RS, US, SPACE. *)
Definition is_space (c : ascii) : bool :=
  let n := nat_of_ascii c in
  ((9 <=? n)%nat && (n <=? 13)%nat) || ((28 <=? n)%nat && (n <=? 32)%nat).

(** The digits [0] to [9]. *)
Definition is_digit (c : ascii) : bool :=
  let n := nat_of_ascii c in
  (48 <=? n)%nat && (n <=? 57)%nat.

Definition LF : ascii := ascii_of_nat 10.
Definition CR : ascii := ascii_of_nat 13.

(** ** Characters *)

Definition continuation (c : ascii) : bool :=
  let n := N_of_ascii c in (128 <=? n)%N && (n <=? 191)%N.

(** The character [s] starts with: its code point and the number of bytes
    of its UTF-8 form; [None] when [s] is empty or does not start with a
    well-formed sequence. *)
Definition decode_char (s : string) : option (N * nat) :=
  match s with
  | EmptyString => None
  | String b0 r0 =>
      let n0 := N_of_ascii b0 in
      if (n0 <? 128)%N then Some (n0, 1%nat)
      else
        match r0 with
        | EmptyString => None
        | String b1 r1 =>
            let n1 := N_of_ascii b1 in
            if ((194 <=? n0) && (n0 <=? 223))%N then
              if continuation b1
              then Some (((n0 - 192) * 64 + (n1 - 128))%N, 2%nat)
              else None
            else
              match r1 with
              | EmptyString => None
              | String b2 r2 =>
                  let n2 := N_of_ascii b2 in
                  if ((224 <=? n0) && (n0 <=? 239))%N then
                    if continuation b1 && continuation b2
                       && negb ((n0 =? 224) && (n1 <? 160))%N
                       && negb ((n0 =? 237) && (159 <? n1))%N
                    then Some (((n0 - 224) * 4096 + (n1 - 128) * 64
                                + (n2 - 128))%N, 3%nat)
                    else None
                  else
                    match r2 with
                    | EmptyString => None
                    | String b3 _ =>
                        let n3 := N_of_ascii b3 in
                        if ((240 <=? n0) && (n0 <=? 244))%N
                           && continuation b1 && continuation b2
                           && continuation b3
                           && negb ((n0 =? 240) && (n1 <? 144))%N
                           && negb ((n0 =? 244) && (143 <? n1))%N
                        then Some (((n0 - 240) * 262144 + (n1 - 128) * 4096
                                    + (n2 - 128) * 64 + (n3 - 128))%N, 4%nat)
                        else None
                    end
              end
        end
  end.

(** [str.isspace] on one character, which is also [\s] of [re]: the
    white space of ASCII, U+0085, U+00A0, U+1680, U+2000 to U+200A,
    U+2028, U+2029, U+202F, U+205F and U+3000. *)
Definition space_code (cp : N) : bool :=
  (((9 <=? cp) && (cp <=? 13)) || ((28 <=? cp) && (cp <=? 32))
   || (cp =? 133) || (cp =? 160) || (cp =? 5760)
   || ((8192 <=? cp) && (cp <=? 8202))
   || (cp =? 8232) || (cp =? 8233) || (cp =? 8239) || (cp =? 8287)
   || (cp =? 12288))%N.

(** The first code point of each run of ten decimal digits (the
    characters of category Nd, Unicode 14.0 as in CPython 3.11), from
    the digit zero of the run. *)
Definition digit_zeros : list N :=
  [48; 1632; 1776; 1984; 2406; 2534; 2662; 2790; 2918; 3046; 3174; 3302;
   3430; 3558; 3664; 3792; 3872; 4160; 4240; 6112; 6160; 6470; 6608; 6784;
   6800; 6992; 7088; 7232; 7248; 42528; 43216; 43264; 43472; 43504; 43600;
   44016; 65296; 66720; 68912; 69734; 69872; 69942; 70096; 70384; 70736;
   70864; 71248; 71360; 71472; 71904; 72016; 72784; 73040; 73120; 92768;
   92864; 93008; 120782; 120792; 120802; 120812; 120822; 123200; 123632;
   125264; 130032]%N.

(** The value of a decimal digit, [None] for another character. *)
Definition digit_code (cp : N) : option Z :=
  match find (fun zero => (zero <=? cp) && (cp <? zero + 10))%N digit_zeros with
  | Some zero => Some (Z.of_N (cp - zero))
  | None => None
  end.

(** The number of bytes of the white-space character [s] starts with,
    0 when it starts with none. *)
Definition space_len (s : string) : nat :=
  match decode_char s with
  | Some (cp, k) => if space_code cp then k else 0
  | None => 0
  end.

(** The same for a decimal digit, the [\d] of [re]. *)
Definition digit_len (s : string) : nat :=
  match decode_char s with
  | Some (cp, k) => match digit_code cp with Some _ => k | None => 0 end
  | None => 0
  end.

(** The longest prefix of [s] made of characters of a class, and the
    rest: a greedy [\s*] or [\d*].  [clen] gives the length in bytes of
    the character of the class a string starts with; [skip] bytes of the
    character just found are still to be taken. *)
Fixpoint span_chars_from (clen : string -> nat) (skip : nat) (s : string)
    : string * string :=
  match s with
  | EmptyString => (EmptyString, EmptyString)
  | String c r =>
      match skip with
      | S k => let '(a, b) := span_chars_from clen k r in (String c a, b)
      | O =>
          match clen s with
          | S k => let '(a, b) := span_chars_from clen k r in (String c a, b)
          | O => (EmptyString, s)
          end
      end
  end.

Definition span_chars (clen : string -> nat) (s : string) : string * string :=
  span_chars_from clen 0 s.

(** [s.lstrip()] *)
Definition lstrip (s : string) : string := snd (span_chars space_len s).

(** [s.isspace()] or [s == ''] *)
Definition all_space (s : string) : bool :=
  match lstrip s with
  | EmptyString => true
  | _ => false
  end.

(** [s.rstrip()]: what stands before the white space [s] ends with. *)
Fixpoint rstrip (s : string) : string :=
  match s with
  | EmptyString => EmptyString
  | String c r => if all_space s then EmptyString else String c (rstrip r)
  end.

(** [s.strip()] *)
Definition strip (s : string) : string := rstrip (lstrip s).

(** [s.startswith(p)] *)
Fixpoint startswith (s p : string) {struct p} : bool :=
  match p with
  | EmptyString => true
  | String a p' =>
      match s with
      | EmptyString => false
      | String b s' => Ascii.eqb a b && startswith s' p'
      end
  end.

(** [c in s] for a one-character [c]. *)
Fixpoint contains (c : ascii) (s : string) : bool :=
  match s with
  | EmptyString => false
  | String d s' => Ascii.eqb c d || contains c s'
  end.

(** [s.split(c)] for a one-character separator: always at least one field. *)
Fixpoint split (c : ascii) (s : string) : list string :=
  match s with
  | EmptyString => [EmptyString]
  | String d s' =>
      if Ascii.eqb c d then EmptyString :: split c s'
      else match split c s' with
           | [] => [String d EmptyString]
           | f :: fs => String d f :: fs
           end
  end.

(** [sep.join(l)] *)
Fixpoint join (sep : string) (l : list string) : string :=
  match l with
  | [] => EmptyString
  | [x] => x
  | x :: rest => x ++ sep ++ join sep rest
  end.

(** [str(n)] for an [int]. *)
Definition str (n : Z) : string := NilZero.string_of_int (Z.to_int n).

(** [c * n] for a one-character string. *)
Fixpoint repeat_char (c : ascii) (n : nat) : string :=
  match n with
  | O => EmptyString
  | S n' => String c (repeat_char c n')
  end.

(** The longest prefix of [s] made of bytes satisfying [p], and the
    rest: a greedy [p*] for a class of ASCII characters or its
    complement. *)
Fixpoint span (p : ascii -> bool) (s : string) : string * string :=
  match s with
  | EmptyString => (EmptyString, EmptyString)
  | String c s' =>
      if p c then let '(a, b) := span p s' in (String c a, b)
      else (EmptyString, s)
  end.

(** [l[1:-1]] *)
Definition slice_1_m1 {A} (l : list A) : list A := removelast (tl l).

(** The values of the digits [s] is made of, [None] when a character of
    [s] is not a decimal digit; [skip] as in [span_chars_from]. *)
Fixpoint digits_from (skip : nat) (s : string) : option (list Z) :=
  match s with
  | EmptyString => Some []
  | String _ r =>
      match skip with
      | S k => digits_from k r
      | O =>
          match decode_char s with
          | Some (cp, S k) =>
              match digit_code cp, digits_from k r with
              | Some v, Some vs => Some (v :: vs)
              | _, _ => None
              end
          | _ => None
          end
      end
  end.

(** The limit CPython (3.11 and later) puts on the number of digits that
    [int] reads from a string. *)
Definition max_str_digits : nat := 4300.

(** [int(s)] for a string without sign, white space or underscore;
    [None] is [ValueError]: no digit, a character that is not a decimal
    digit, or more than 4300 digits. *)
Definition int (s : string) : option Z :=
  match digits_from 0 s with
  | Some [] => None
  | Some vs =>
      if (max_str_digits <? List.length vs)%nat then None
      else Some (fold_left (fun acc v => (10 * acc + v)%Z) vs 0%Z)
  | None => None
  end.

(** [s == t] *)
Definition eqb (s t : string) : bool := String.eqb s t.

(** [s <= t], the lexicographic order on code points (on the UTF-8 bytes
    it is the same order). *)
Definition leb (s t : string) : bool := String.leb s t.

End PyStr.

(* ================================================================= *)
(** * Python lists indexed by an [int] *)

Module PyList.

(** The position [l[i]] denotes, or [None] for [IndexError]. *)
Definition index {A} (l : list A) (i : Z) : option nat :=
  let n := Z.of_nat (List.length l) in
  if (0 <=? i)%Z && (i <? n)%Z then Some (Z.to_nat i)
  else if (- n <=? i)%Z && (i <? 0)%Z then Some (Z.to_nat (n + i))
  else None.

(** [l[i]] *)
Definition get {A} (l : list A) (i : Z) : option A :=
  match index l i with
  | Some k => nth_error l k
  | None => None
  end.

Fixpoint update {A} (l : list A) (k : nat) (x : A) : list A :=
  match l, k with
  | [], _ => []
  | _ :: t, O => x :: t
  | h :: t, S k' => h :: update t k' x
  end.

(** [l[i] = x] *)
Definition set {A} (l : list A) (i : Z) (x : A) : option (list A) :=
  match index l i with
  | Some k => Some (update l k x)
  | None => None
  end.

(** [range(a, b)] *)
Definition range (a b : Z) : list Z :=
  map (fun k => (a + Z.of_nat k)%Z) (seq 0 (Z.to_nat (b - a))).

End PyList.

(* ================================================================= *)
(** * The regular expressions of [md_to_docx.py]

    Each pattern is anchored at the start of the line ([re.match]); the
    matchers follow the backtracking order of [re] and return the groups
    the code reads, or for [re.sub(pattern, '', line)] the line without
    the match.  [\s] and [\d] are those of [re] on a [str]: the white
    space and the decimal digits of Unicode. *)

Module Re.
Import PyStr.

(** [s[n:]] for [n] bytes *)
Definition drop (n : nat) (s : string) : string :=
  String.substring n (String.length s - n) s.

(** [.+] at the start of [s], greedy: [.] is any character but LF. *)
Definition dot_run (s : string) : string :=
  fst (span (fun c => negb (Ascii.eqb c LF)) s).

(** [\s*(.+)]: [\s*] takes as much white space as leaves a character for
    [.+]; the result is group 1.  [skip] bytes of the white-space
    character just found are still to be passed. *)
Fixpoint ws_star_dot_plus_from (skip : nat) (s : string) : option string :=
  match s with
  | EmptyString => None
  | String c s' =>
      match skip with
      | S k => ws_star_dot_plus_from k s'
      | O =>
          match space_len s with
          | S k =>
              match ws_star_dot_plus_from k s' with
              | Some t => Some t
              | None => if Ascii.eqb c LF then None else Some (dot_run s)
              end
          | O => Some (dot_run s)
          end
      end
  end.

Definition ws_star_dot_plus (s : string) : option string :=
  ws_star_dot_plus_from 0 s.

(** [\s+(.+)] *)
Definition ws_plus_dot_plus (s : string) : option string :=
  match s with
  | EmptyString => None
  | String _ s' =>
      match space_len s with
      | S k => ws_star_dot_plus_from k s'
      | O => None
      end
  end.

(** [^\[\^(\d+)\]:\s*(.+)]: groups 1 and 2. *)
Definition footnote_def (s : string) : option (string * string) :=
  match s with
  | String "[" (String "^" s1) =>
      match span_chars digit_len s1 with
      | (EmptyString, _) => None
      | (num, String "]" (String ":" s2)) =>
          match ws_star_dot_plus s2 with
          | Some text => Some (num, text)
          | None => None
          end
      | _ => None
      end
  | _ => None
  end.

(** [^(#{1,6})\s+(.+)]: the length of group 1, and group 2. *)
Definition heading (s : string) : option (Z * string) :=
  let '(hashes, rest) := span (Ascii.eqb "#") s in
  let n := String.length hashes in
  if (1 <=? n)%nat && (n <=? 6)%nat then
    match ws_plus_dot_plus rest with
    | Some title => Some (Z.of_nat n, title)
    | None => None
    end
  else None.

Definition is_bullet_marker (c : ascii) : bool :=
  Ascii.eqb c "-" || Ascii.eqb c "*" || Ascii.eqb c "+".

(** [\s] at the start of [s]: the rest of [s]. *)
Definition after_space (s : string) : option string :=
  match space_len s with
  | S k => Some (drop (S k) s)
  | O => None
  end.

(** [^[-*+]\s]: the line after the match. *)
Definition bullet (s : string) : option string :=
  match s with
  | String c rest => if is_bullet_marker c then after_space rest else None
  | EmptyString => None
  end.

(** [^\d+\.\s]: the line after the match. *)
Definition numbered (s : string) : option string :=
  match span_chars digit_len s with
  | (EmptyString, _) => None
  | (_, String "." rest) => after_space rest
  | _ => None
  end.

(** [^  [-*+]\s] and [^  \d+\.\s]: two literal spaces, then the marker. *)
Definition nested (marker : string -> option string) (s : string)
  : option string :=
  match s with
  | String " " (String " " rest) => marker rest
  | _ => None
  end.

(** Case folding for [re.IGNORECASE], as far as the letters of the
    pattern below go.  An ASCII capital is taken for its small letter. *)
Definition fold_ascii (c : ascii) : ascii :=
  let n := nat_of_ascii c in
  if (65 <=? n)%nat && (n <=? 90)%nat then ascii_of_nat (n + 32) else c.

Definition char2 (a b : nat) : string :=
  String (ascii_of_nat a) (String (ascii_of_nat b) EmptyString).

(** The character [s] starts with, when it is more than one byte and
    [re] takes it for a small letter: the letter, and the number of bytes
    that follow the first one.  These are the Cyrillic capitals U+0410 to
    U+042F (D0 90 to D0 AF, for D0 B0 to D0 BF and D1 80 to D1 8F),
    U+0130 and U+0131 for [i], U+017F for [s], and U+1C82, U+1C83,
    U+1C84 and U+1C85 for the Cyrillic letters о, с and т. *)
Definition fold_at (s : string) : option (string * nat) :=
  match s with
  | String c (String d r) =>
      let n := nat_of_ascii c in
      let m := nat_of_ascii d in
      if (n =? 208)%nat && (144 <=? m)%nat && (m <=? 159)%nat
      then Some (char2 208 (m + 32), 1%nat)
      else if (n =? 208)%nat && (160 <=? m)%nat && (m <=? 175)%nat
      then Some (char2 209 (m - 32), 1%nat)
      else if (n =? 196)%nat && ((m =? 176)%nat || (m =? 177)%nat)
      then Some ("i", 1%nat)
      else if (n =? 197)%nat && (m =? 191)%nat
      then Some ("s", 1%nat)
      else if (n =? 225)%nat && (m =? 178)%nat then
        match r with
        | String e _ =>
            let k := nat_of_ascii e in
            if (k =? 130)%nat then Some (char2 208 190, 2%nat)
            else if (k =? 131)%nat then Some (char2 209 129, 2%nat)
            else if (k =? 132)%nat || (k =? 133)%nat
            then Some (char2 209 130, 2%nat)
            else None
        | EmptyString => None
        end
      else None
  | _ => None
  end.

(** The text with every character folded; [skip] bytes of the character
    just folded are still to be passed. *)
Fixpoint casefold_from (skip : nat) (s : string) : string :=
  match s with
  | EmptyString => EmptyString
  | String c s' =>
      match skip with
      | S k => casefold_from k s'
      | O =>
          match fold_at s with
          | Some (t, k) => t ++ casefold_from k s'
          | None => String (fold_ascii c) (casefold_from 0 s')
          end
      end
  end.

Definition casefold (s : string) : string := casefold_from 0 s.

(** [^#+\s*(список\s+литературы|bibliography|references)] with
    [re.IGNORECASE]. *)
Definition bibliography (s : string) : bool :=
  match span (Ascii.eqb "#") (casefold s) with
  | (EmptyString, _) => false
  | (_, rest) =>
      let t := snd (span_chars space_len rest) in
      (if startswith t "список" then
         match span_chars space_len (drop (String.length "список") t) with
         | (EmptyString, _) => false
         | (_, u) => startswith u "литературы"
         end
       else false)
      || startswith t "bibliography"
      || startswith t "references"
  end.

(** [re.sub(r'^>\s?', '', s)] *)
Definition unquote (s : string) : string :=
  match s with
  | String ">" rest => drop (space_len rest) rest
  | _ => s
  end.

End Re.

(* ================================================================= *)
(** * Inline formatting: [process_text_formatting]

    The runs the function adds to the paragraph, or [None] when it raises
    [AttributeError]. *)

Module Inline.
Import PyStr.

(** A run added by [add_text_run_with_color]; the colour is the one of
    the settings for every run. *)
Record Run : Type := {
  run_text : string;
  run_bold : bool;
  run_italic : bool;
  run_code : bool;
  run_superscript : bool
}.

Definition plain_run (t : string) : Run :=
  {| run_text := t; run_bold := false; run_italic := false;
     run_code := false; run_superscript := false |}.
Definition bold_run (t : string) : Run :=
  {| run_text := t; run_bold := true; run_italic := false;
     run_code := false; run_superscript := false |}.
Definition italic_run (t : string) : Run :=
  {| run_text := t; run_bold := false; run_italic := true;
     run_code := false; run_superscript := false |}.
Definition code_run (t : string) : Run :=
  {| run_text := t; run_bold := false; run_italic := false;
     run_code := true; run_superscript := false |}.
Definition superscript_run (t : string) : Run :=
  {| run_text := t; run_bold := false; run_italic := false;
     run_code := false; run_superscript := true |}.

(** [s.endswith(p)] *)
Definition endswith (s p : string) : bool :=
  (String.length p <=? String.length s)%nat
  && eqb (String.substring (String.length s - String.length p) (String.length p) s) p.

(** [s[a:-b]] for [a], [b] not negative. *)
Definition slice (a b : nat) (s : string) : string :=
  String.substring a (String.length s - b - a) s.

(** [\[\^(\d+)\]] at the start of [s]: group 1. *)
Definition footnote_ref_at (s : string) : option string :=
  match s with
  | String "[" (String "^" s1) =>
      match span_chars digit_len s1 with
      | (EmptyString, _) => None
      | (num, String "]" _) => Some num
      | _ => None
      end
  | _ => None
  end.

(** [re.findall(r'\[\^(\d+)\]', s)]: the matches from left to right, not
    overlapping; [skip] characters belong to the match just found. *)
Fixpoint findall_loop (skip : nat) (s : string) : list string :=
  match s with
  | EmptyString => []
  | String _ s' =>
      match skip with
      | S k => findall_loop k s'
      | O =>
          match footnote_ref_at s with
          | Some num => num :: findall_loop (String.length num + 2) s'
          | None => findall_loop 0 s'
          end
      end
  end.

Definition findall (s : string) : list string := findall_loop 0 s.

(** [re.sub(pat, rep, s)] for a pattern and a replacement without special
    characters: every occurrence of [pat], from left to right. *)
Fixpoint replace_loop (pat rep : string) (skip : nat) (s : string) : string :=
  match s with
  | EmptyString => EmptyString
  | String c s' =>
      match skip with
      | S k => replace_loop pat rep k s'
      | O =>
          if startswith s pat
          then rep ++ replace_loop pat rep (String.length pat - 1) s'
          else String c (replace_loop pat rep 0 s')
      end
  end.

Definition replace_all (pat rep s : string) : string := replace_loop pat rep 0 s.

(** The loop that puts [{FOOTNOTE_n}] in the place of every [[^n]]. *)
Definition mark_footnotes (text : string) : string :=
  fold_left
    (fun t footnote_num =>
       replace_all ("[^" ++ footnote_num ++ "]") ("{FOOTNOTE_" ++ footnote_num ++ "}") t)
    (findall text) text.

(** The lazy [.*?] followed by [close], a string of one or two asterisks
    or a backtick: the number of characters [.*?] takes, none of them a
    line feed. *)
Fixpoint lazy_until (close : string) (s : string) : option nat :=
  if startswith s close then Some 0
  else
    match s with
    | EmptyString => None
    | String c s' =>
        if Ascii.eqb c LF then None
        else match lazy_until close s' with
             | Some j => Some (S j)
             | None => None
             end
    end.

(** The pattern of [re.split] at the start of [s]: the length of the
    match of the first alternative that matches. *)
Definition match_at (s : string) : option nat :=
  match s with
  | String "*" rest =>
      match
        (match rest with
         | String "*" rest2 =>
             match lazy_until "**" rest2 with
             | Some j => Some (4 + j)
             | None => None
             end
         | _ => None
         end)
      with
      | Some m => Some m
      | None =>
          match lazy_until "*" rest with
          | Some j => Some (2 + j)
          | None => None
          end
      end
  | String "`" rest =>
      match lazy_until "`" rest with
      | Some j => Some (2 + j)
      | None => None
      end
  | String "{" _ =>
      if startswith s "{FOOTNOTE_" then
        match span_chars digit_len (Re.drop 10 s) with
        | (EmptyString, _) => None
        | (digits, String "}" _) => Some (10 + String.length digits + 1)
        | _ => None
        end
      else None
  | _ => None
  end.

(** [re.split(pattern, s)] with the pattern in one group: the text
    before each match and the match, in turn, then the text after the
    last match.  [acc] is the text since the last match. *)
Fixpoint split_loop (skip : nat) (acc : string) (s : string) : list string :=
  match s with
  | EmptyString => [acc]
  | String c s' =>
      match skip with
      | S k => split_loop k acc s'
      | O =>
          match match_at s with
          | Some m =>
              acc :: String.substring 0 m s :: split_loop (m - 1) EmptyString s'
          | None => split_loop 0 (acc ++ String c EmptyString) s'
          end
      end
  end.

Definition split_parts (s : string) : list string := split_loop 0 EmptyString s.

(** [re.search(r'FOOTNOTE_(\d+)', s)]: group 1 of the first match. *)
Fixpoint search_marker (s : string) : option string :=
  match s with
  | EmptyString => None
  | String _ s' =>
      if startswith s "FOOTNOTE_" then
        match span_chars digit_len (Re.drop 9 s) with
        | (EmptyString, _) => search_marker s'
        | (digits, _) => Some digits
        end
      else search_marker s'
  end.

(** The body of the loop over the parts: the run for one part that is
    not empty, [None] when [re.search] finds nothing and [.group] is
    called on [None]. *)
Definition format_part (part : string) : option Run :=
  if startswith part "**" && endswith part "**" then
    Some (bold_run (slice 2 2 part))
  else if startswith part "*" && endswith part "*" then
    Some (italic_run (slice 1 1 part))
  else if startswith part "`" && endswith part "`" then
    Some (code_run (slice 1 1 part))
  else if startswith part "{FOOTNOTE_" && endswith part "}" then
    match search_marker part with
    | Some footnote_num => Some (superscript_run footnote_num)
    | None => None
    end
  else Some (plain_run part).

Fixpoint format_parts (parts : list string) : option (list Run) :=
  match parts with
  | [] => Some []
  | part :: parts' =>
      if eqb part EmptyString then format_parts parts'
      else
        match format_part part with
        | Some r =>
            match format_parts parts' with
            | Some rs => Some (r :: rs)
            | None => None
            end
        | None => None
        end
  end.

(** [process_text_formatting(text, paragraph)] *)
Definition process_text_formatting (text : string) : option (list Run) :=
  format_parts (split_parts (mark_footnotes text)).

End Inline.

(* ================================================================= *)
(** * Exceptions *)

Inductive exn : Type :=
| IndexError          (* a list index out of range *)
| KeyError            (* a dictionary key without an entry *)
| ReadError           (* [Exception("Ошибка чтения файла: ...")] *)
| ValueError          (* [Path.with_suffix] on a path without a name,
                         [int] on more than 4300 digits *)
| AttributeError      (* [.group(1)] on the [None] of a failed [re.search] *)
| SaveError.          (* [Document.save] could not write *)

(** The result of running a piece of the converter: a value, an exception,
    or a loop that did not finish within its iteration budget. *)
Inductive outcome (A : Type) : Type :=
| Ok (a : A)
| Raise (e : exn)
| OutOfFuel.

Arguments Ok {A} a.
Arguments Raise {A} e.
Arguments OutOfFuel {A}.

Definition bind {A B} (m : outcome A) (k : A -> outcome B) : outcome B :=
  match m with
  | Ok a => k a
  | Raise e => Raise e
  | OutOfFuel => OutOfFuel
  end.

Notation "x <- m ;; k" := (bind m (fun x => k))
  (at level 61, m at next level, right associativity).
Notation "' p <- m ;; k" := (bind m (fun p => k))
  (at level 61, p pattern, m at next level, right associativity).

(** A list access that raises [IndexError]. *)
Definition indexed {A} (o : option A) : outcome A :=
  match o with
  | Some a => Ok a
  | None => Raise IndexError
  end.

(* ================================================================= *)
(** * The data model *)

(** The fields of [DocumentSettings] that decide which blocks are
    emitted; the other fields only set fonts, sizes and margins. *)
Record DocumentSettings : Type := {
  auto_numbering_headings : bool;
  numbering_format : string;          (* "decimal" or "simple" *)
  table_caption_position : string     (* "above" or "below" *)
}.

(** [DocumentSettings()] *)
Definition default_settings : DocumentSettings := {|
  auto_numbering_headings := false;
  numbering_format := "decimal";
  table_caption_position := "above"
|}.

(** The settings [convert_md_to_docx] of [bot.py] converts with: the
    defaults, with the numbering of headings turned on. *)
Definition numbered_settings : DocumentSettings := {|
  auto_numbering_headings := true;
  numbering_format := "decimal";
  table_caption_position := "above"
|}.

Inductive list_kind : Type := bullet | number.

(** What the converter appends to the document. *)
Inductive Block : Type :=
| PageBreak
| Heading (level : Z) (full_title : string)
| CodeBlock (text : string)
| Caption (n : Z)                         (* "Таблица n" *)
| Table (headers : list string) (rows : list (list string))
| ListItem (kind : list_kind) (level : Z) (text : string)
| BibHeading                              (* "СПИСОК ЛИТЕРАТУРЫ" *)
| BibEntry (idx : Z) (text : string)      (* "idx. text" *)
| Quote (text : string)
| Rule                                    (* centred, 50 underscores *)
| Paragraph (text : string)
| Separator                               (* 50 underscores, before the footnotes *)
| Footnote (num : string) (text : string).

(** The left indent of a list item, [Cm(level * 0.75)], in EMU
    (360000 EMU to the centimetre; exact for the levels 0 and 1). *)
Definition list_left_indent (level : Z) : Z := (level * 270000)%Z.

(** The instance state of [MarkdownToDocxConverter]. *)
Record Converter : Type := {
  settings : DocumentSettings;
  doc : list Block;
  heading_counters : list Z;
  footnote_counter : Z;
  table_counter : Z;
  figure_counter : Z
}.

(** [MarkdownToDocxConverter(settings)] *)
Definition new_converter (s : DocumentSettings) : Converter := {|
  settings := s;
  doc := [];
  heading_counters := repeat 0%Z 6;
  footnote_counter := 0;
  table_counter := 0;
  figure_counter := 0
|}.

Definition add_block (self : Converter) (b : Block) : Converter := {|
  settings := settings self;
  doc := doc self ++ [b];
  heading_counters := heading_counters self;
  footnote_counter := footnote_counter self;
  table_counter := table_counter self;
  figure_counter := figure_counter self
|}.

Definition add_blocks (self : Converter) (bs : list Block) : Converter :=
  fold_left add_block bs self.

Definition set_heading_counters (self : Converter) (hc : list Z) : Converter := {|
  settings := settings self;
  doc := doc self;
  heading_counters := hc;
  footnote_counter := footnote_counter self;
  table_counter := table_counter self;
  figure_counter := figure_counter self
|}.

Definition set_table_counter (self : Converter) (n : Z) : Converter := {|
  settings := settings self;
  doc := doc self;
  heading_counters := heading_counters self;
  footnote_counter := footnote_counter self;
  table_counter := n;
  figure_counter := figure_counter self
|}.

(* ================================================================= *)
(** * Heading numbers *)

(** [for i in range(level, 6): self.heading_counters[i] = 0] *)
Fixpoint reset_counters (hc : list Z) (range : list Z) : option (list Z) :=
  match range with
  | [] => Some hc
  | i :: range' =>
      match PyList.set hc i 0%Z with
      | Some hc' => reset_counters hc' range'
      | None => None
      end
  end.

(** [for i in range(level): if self.heading_counters[i] > 0:
    numbers.append(str(self.heading_counters[i]))] *)
Fixpoint collect_numbers (hc : list Z) (range : list Z) (numbers : list string)
  : option (list string) :=
  match range with
  | [] => Some numbers
  | i :: range' =>
      match PyList.get hc i with
      | Some v =>
          collect_numbers hc range'
            (if (0 <? v)%Z then numbers ++ [PyStr.str v] else numbers)
      | None => None
      end
  end.

Definition generate_heading_number (self : Converter) (level : Z)
  : outcome (string * Converter) :=
  if negb (auto_numbering_headings (settings self)) then Ok (EmptyString, self)
  else
    v <- indexed (PyList.get (heading_counters self) (level - 1)) ;;
    hc1 <- indexed (PyList.set (heading_counters self) (level - 1) (v + 1)%Z) ;;
    hc2 <- indexed (reset_counters hc1 (PyList.range level 6)) ;;
    let self' := set_heading_counters self hc2 in
    if PyStr.eqb (numbering_format (settings self)) "simple" then
      v' <- indexed (PyList.get hc2 (level - 1)) ;;
      Ok ((PyStr.str v' ++ ". ")%string, self')
    else
      numbers <- indexed (collect_numbers hc2 (PyList.range 0 level) []) ;;
      Ok (match numbers with
          | [] => EmptyString
          | _ => (PyStr.join "." numbers ++ ". ")%string
          end, self').

(* ================================================================= *)
(** * Sorting and dictionaries *)

Module Py.

(** [sorted(l)] for the order [leb]: a stable insertion sort (an element
    goes before the first one it is less than or equal to). *)
Fixpoint insert {A} (leb : A -> A -> bool) (x : A) (l : list A) : list A :=
  match l with
  | [] => [x]
  | y :: l' => if leb x y then x :: l else y :: insert leb x l'
  end.

Fixpoint sorted {A} (leb : A -> A -> bool) (l : list A) : list A :=
  match l with
  | [] => []
  | x :: l' => insert leb x (sorted leb l')
  end.

(** The order of [sorted(l, key=int)] on strings [int] reads. *)
Definition int_leb (a b : string) : bool :=
  match PyStr.int a, PyStr.int b with
  | Some x, Some y => (x <=? y)%Z
  | _, _ => true
  end.

(** [sorted(l, key=int)]: the keys are computed first, and [None] is the
    [ValueError] of a string [int] does not read. *)
Definition sorted_by_int (l : list string) : option (list string) :=
  if forallb (fun s => match PyStr.int s with Some _ => true | None => false end) l
  then Some (sorted int_leb l)
  else None.

(** A [dict] with string keys, in insertion order. *)
Definition dict : Type := list (string * string).

(** [d[k] = v]: an existing key keeps its place. *)
Fixpoint dict_set (d : dict) (k v : string) : dict :=
  match d with
  | [] => [(k, v)]
  | (k', v') :: d' =>
      if PyStr.eqb k' k then (k', v) :: d' else (k', v') :: dict_set d' k v
  end.

(** [d[k]], [None] for [KeyError]. *)
Fixpoint dict_get (d : dict) (k : string) : option string :=
  match d with
  | [] => None
  | (k', v') :: d' => if PyStr.eqb k' k then Some v' else dict_get d' k
  end.

(** [d.keys()] *)
Definition keys (d : dict) : list string := map fst d.

End Py.

(* ================================================================= *)
(** * The block emitters *)

Section Emitters.
Import PyStr.

Definition list_item : Type := list_kind * string * Z.

(** The [while] loop of [process_list] from line [i] on; [rest] is
    [lines[i:]]. *)
Fixpoint list_loop (rest : list string) (i : nat) (list_items : list list_item)
  : nat * list list_item :=
  match rest with
  | [] => (i, list_items)
  | l :: rest' =>
      let line := strip l in
      match Re.bullet line with
      | Some item_text =>
          list_loop rest' (S i) (list_items ++ [(bullet, item_text, 0%Z)])
      | None =>
      match Re.numbered line with
      | Some item_text =>
          list_loop rest' (S i) (list_items ++ [(number, item_text, 0%Z)])
      | None =>
      match Re.nested Re.bullet line with
      | Some item_text =>
          list_loop rest' (S i) (list_items ++ [(bullet, item_text, 1%Z)])
      | None =>
      match Re.nested Re.numbered line with
      | Some item_text =>
          list_loop rest' (S i) (list_items ++ [(number, item_text, 1%Z)])
      | None =>
          if eqb line EmptyString then list_loop rest' (S i) list_items
          else (i, list_items)
      end end end end
  end.

Definition list_block (it : list_item) : Block :=
  let '(list_type, text, level) := it in ListItem list_type level text.

(** [self.process_text_formatting(text, paragraph)] as a step of the
    conversion: the runs, or the exception. *)
Definition formatted (text : string) : outcome (list Inline.Run) :=
  match Inline.process_text_formatting text with
  | Some runs => Ok runs
  | None => Raise AttributeError
  end.

(** [for list_type, text, level in list_items]: a paragraph for each
    item, and its text formatted. *)
Fixpoint add_list_items (self : Converter) (list_items : list list_item)
  : outcome Converter :=
  match list_items with
  | [] => Ok self
  | it :: rest =>
      let self1 := add_block self (list_block it) in
      _ <- formatted (snd (fst it)) ;;
      add_list_items self1 rest
  end.

(** [process_list(lines, start_idx)]: the returned index [i - 1] and the
    new state. *)
Definition process_list (self : Converter) (lines : list string) (start_idx : nat)
  : outcome (Z * Converter) :=
  let '(i, list_items) := list_loop (skipn start_idx lines) start_idx [] in
  self' <- add_list_items self list_items ;;
  Ok ((Z.of_nat i - 1)%Z, self').

(** The [while] loop of [process_table]. *)
Fixpoint table_loop (rest : list string) (i : nat) (table_lines : list string)
  : nat * list string :=
  match rest with
  | [] => (i, table_lines)
  | l :: rest' =>
      let line := strip l in
      if contains "|" line then table_loop rest' (S i) (table_lines ++ [line])
      else if eqb line EmptyString then table_loop rest' (S i) table_lines
      else (i, table_lines)
  end.

(** [[cell.strip() for cell in line.split('|')[1:-1]]] *)
Definition cells (line : string) : list string :=
  map strip (slice_1_m1 (split "|" line)).

(** A row added by [table.add_row()] has one empty cell per column; the
    cells of [row_data] beyond the last column are dropped. *)
Definition table_row (cols : nat) (row_data : list string) : list string :=
  map (fun idx => nth idx row_data EmptyString) (seq 0 cols).

Definition table_block (table_lines : list string) : Block :=
  let headers := cells (hd EmptyString table_lines) in
  let data_lines :=
    if (2 <? List.length table_lines)%nat then skipn 2 table_lines else [] in
  Table headers
    (map (fun line => table_row (List.length headers) (cells line)) data_lines).

(** [self.table_counter += 1] and the caption paragraph. *)
Definition add_caption (self : Converter) : Converter :=
  let n := (table_counter self + 1)%Z in
  add_block (set_table_counter self n) (Caption n).

(** [process_table(lines, start_idx)]: [start_idx] when fewer than two
    lines were collected, and otherwise [i - 1], where [i] is at least
    [start_idx + 2]. *)
Definition process_table (self : Converter) (lines : list string) (start_idx : nat)
  : nat * Converter :=
  let '(i, table_lines) := table_loop (skipn start_idx lines) start_idx [] in
  if (List.length table_lines <? 2)%nat then (start_idx, self)
  else
    let self1 :=
      if eqb (table_caption_position (settings self)) "above"
      then add_caption self else self in
    let self2 := add_block self1 (table_block table_lines) in
    let self3 :=
      if eqb (table_caption_position (settings self2)) "below"
      then add_caption self2 else self2 in
    (i - 1, self3).

(** The [while] loop of [process_code_block]. *)
Fixpoint code_loop (rest : list string) (i : nat) (code_lines : list string)
  : nat * list string :=
  match rest with
  | [] => (i, code_lines)
  | line :: rest' =>
      if startswith (strip line) "```" then (i, code_lines)
      else code_loop rest' (S i) (code_lines ++ [line])
  end.

Definition process_code_block (self : Converter) (lines : list string)
    (start_idx : nat) : nat * Converter :=
  let '(i, code_lines) := code_loop (skipn (start_idx + 1) lines) (start_idx + 1) [] in
  (i, add_block self (CodeBlock (join (String LF EmptyString) code_lines))).

Definition add_footnote_definition (self : Converter)
    (footnote_num footnote_text : string) : Converter :=
  add_block self (Footnote footnote_num footnote_text).

(** The [while] loop of [process_bibliography]. *)
Fixpoint bib_loop (rest : list string) (i : nat) (bib_items : list string)
  : nat * list string :=
  match rest with
  | [] => (i, bib_items)
  | l :: rest' =>
      let line := strip l in
      match Re.numbered line with
      | Some bib_text => bib_loop rest' (S i) (bib_items ++ [bib_text])
      | None =>
          if eqb line EmptyString then bib_loop rest' (S i) bib_items
          else (i, bib_items)
      end
  end.

(** [enumerate(bib_items, 1)] *)
Fixpoint bib_entries (idx : Z) (bib_items : list string) : list Block :=
  match bib_items with
  | [] => []
  | item :: rest => BibEntry idx item :: bib_entries (idx + 1) rest
  end.

Definition process_bibliography (self : Converter) (lines : list string)
    (start_idx : nat) : Z * Converter :=
  let '(i, bib_items) := bib_loop (skipn start_idx lines) start_idx [] in
  let self' :=
    match bib_items with
    | [] => self
    | _ => add_blocks (add_block self BibHeading) (bib_entries 1 bib_items)
    end in
  ((Z.of_nat i - 1)%Z, self').

End Emitters.

(* ================================================================= *)
(** * Reading the source file *)

Module Codec.

Definition byte_in (lo hi : nat) (c : ascii) : bool :=
  let n := nat_of_ascii c in (lo <=? n)%nat && (n <=? hi)%nat.

Definition cont : ascii -> bool := byte_in 128 191.

(** The strict [utf-8] codec accepts the well-formed byte sequences of the
    Unicode standard (no overlong forms, no surrogates, at most U+10FFFF). *)
Fixpoint utf8_valid (raw : string) : bool :=
  match raw with
  | EmptyString => true
  | String b0 r0 =>
      if byte_in 0 127 b0 then utf8_valid r0
      else match r0 with
      | EmptyString => false
      | String b1 r1 =>
          if byte_in 194 223 b0 then cont b1 && utf8_valid r1
          else match r1 with
          | EmptyString => false
          | String b2 r2 =>
              if byte_in 224 239 b0 then
                (if byte_in 224 224 b0 then byte_in 160 191 b1
                 else if byte_in 237 237 b0 then byte_in 128 159 b1
                 else cont b1)
                && cont b2 && utf8_valid r2
              else match r2 with
              | EmptyString => false
              | String b3 r3 =>
                  if byte_in 240 244 b0 then
                    (if byte_in 240 240 b0 then byte_in 144 191 b1
                     else if byte_in 244 244 b0 then byte_in 128 143 b1
                     else cont b1)
                    && cont b2 && cont b3 && utf8_valid r3
                  else false
              end
          end
      end
  end.

(** Text mode with [newline=None]: CR LF and a lone CR are read as LF. *)
Fixpoint universal_newlines (s : string) : string :=
  match s with
  | EmptyString => EmptyString
  | String c s' =>
      if Ascii.eqb c PyStr.CR then
        match s' with
        | String d s'' =>
            if Ascii.eqb d PyStr.LF then String PyStr.LF (universal_newlines s'')
            else String PyStr.LF (universal_newlines s')
        | EmptyString => String PyStr.LF EmptyString
        end
      else String c (universal_newlines s')
  end.

(** The encodings [extract_text_content] of [rep_to_txt.py] tries in
    turn; [md_to_docx.py] names only the first. *)
Inductive encoding : Type := utf_8 | utf_8_sig | cp1251 | latin1 | cp1252.

Definition encodings_priority : list encoding :=
  [utf_8; utf_8_sig; cp1251; latin1; cp1252].

Fixpoint all_bytes (p : ascii -> bool) (raw : string) : bool :=
  match raw with
  | EmptyString => true
  | String c r => p c && all_bytes p r
  end.

(** Whether the codec decodes [raw] without [UnicodeDecodeError]:
    [latin1] maps every byte, [cp1251] leaves 0x98 undefined, [cp1252]
    leaves 0x81, 0x8D, 0x8F, 0x90 and 0x9D undefined. *)
Definition decodes (e : encoding) (raw : string) : bool :=
  match e with
  | utf_8 | utf_8_sig => utf8_valid raw
  | cp1251 => all_bytes (fun c => negb (byte_in 152 152 c)) raw
  | latin1 => true
  | cp1252 =>
      all_bytes (fun c => negb (byte_in 129 129 c || byte_in 141 141 c
                                || byte_in 143 143 c || byte_in 144 144 c
                                || byte_in 157 157 c)) raw
  end.

End Codec.

(** What the converter sees of the file system: the bytes of a file
    ([None] when [open] or [read] raises), whether [Document.save] can
    write a path, and [Path(p).with_suffix('.docx')] ([None] for the
    [ValueError] of a path without a name). *)
Record Env : Type := {
  read_bytes : string -> option string;
  can_save : string -> bool;
  with_suffix_docx : string -> option string
}.

(** [parse_markdown_file(file_path)]: the file is opened with
    [encoding='utf-8'] only; every exception becomes the read error. *)
Definition parse_markdown_file (env : Env) (file_path : string) : outcome string :=
  match read_bytes env file_path with
  | None => Raise ReadError
  | Some raw =>
      if Codec.utf8_valid raw then Ok (Codec.universal_newlines raw)
      else Raise ReadError
  end.

(* ================================================================= *)
(** * The main pass *)

Section Convert.
Import PyStr.

Definition horizontal_rules : list string := ["---"; "***"; "___"].

(** One iteration of the [while i < len(lines)] loop of [convert], from
    [line = lines[i]] to the final [i += 1] (or the [continue]).  The
    branches leave the index [i += 1] is applied to; it is at least -1,
    so the next cursor is not negative. *)
Definition step (lines : list string) (i : nat) (self : Converter)
    (footnote_definitions : Py.dict) : outcome (nat * Converter * Py.dict) :=
  let line := nth i lines EmptyString in
  let stripped_line := strip line in
  if eqb stripped_line EmptyString then Ok (i + 1, self, footnote_definitions)
  else
  match Re.footnote_def stripped_line with
  | Some (footnote_num, footnote_text) =>
      Ok (i + 1, self, Py.dict_set footnote_definitions footnote_num footnote_text)
  | None =>
      '(i', self') <-
        (if startswith stripped_line "#" then
           match Re.heading stripped_line with
           | Some (level, title) =>
               let self1 :=
                 if (level =? 2)%Z then add_block self PageBreak else self in
               '(heading_number, self2) <- generate_heading_number self1 level ;;
               let full_title := (heading_number ++ title)%string in
               let self3 := add_block self2 (Heading level full_title) in
               _ <- formatted full_title ;;
               Ok (Z.of_nat i, self3)
           | None => Ok (Z.of_nat i, self)
           end
         else if startswith stripped_line "```" then
           let '(j, self1) := process_code_block self lines i in
           Ok (Z.of_nat j, self1)
         else if contains "|" stripped_line then
           let '(j, self1) := process_table self lines i in
           Ok (Z.of_nat j, self1)
         else if match Re.bullet stripped_line with Some _ => true | None => false end
                 || match Re.numbered stripped_line with Some _ => true | None => false end
         then
           process_list self lines i
         else if Re.bibliography stripped_line then
           Ok (process_bibliography self lines (i + 1))
         else if startswith stripped_line ">" then
           let quote_text := Re.unquote stripped_line in
           let self1 := add_block self (Quote quote_text) in
           _ <- formatted quote_text ;;
           Ok (Z.of_nat i, self1)
         else if existsb (eqb stripped_line) horizontal_rules then
           Ok (Z.of_nat i, add_block self Rule)
         else
           let self1 := add_block self (Paragraph stripped_line) in
           _ <- formatted stripped_line ;;
           Ok (Z.of_nat i, self1)) ;;
      Ok (Z.to_nat (i' + 1), self', footnote_definitions)
  end.

(** The loop itself; [fuel] bounds the number of iterations. *)
Fixpoint main_loop (fuel : nat) (lines : list string) (i : nat)
    (self : Converter) (footnote_definitions : Py.dict) {struct fuel}
  : outcome (Converter * Py.dict) :=
  if (i <? List.length lines)%nat then
    match fuel with
    | O => OutOfFuel
    | S fuel' =>
        '(i', self', defs') <- step lines i self footnote_definitions ;;
        main_loop fuel' lines i' self' defs'
    end
  else Ok (self, footnote_definitions).

(** [for footnote_num in sorted(...)]: [None] is the [KeyError] of a key
    without a definition. *)
Fixpoint footnote_loop (self : Converter) (footnote_definitions : Py.dict)
    (nums : list string) : option Converter :=
  match nums with
  | [] => Some self
  | footnote_num :: nums' =>
      match Py.dict_get footnote_definitions footnote_num with
      | Some text =>
          footnote_loop (add_footnote_definition self footnote_num text)
            footnote_definitions nums'
      | None => None
      end
  end.

(** The end of [convert]: the separator and the footnotes, in the order
    of [sorted(footnote_definitions.keys(), key=int)]. *)
Definition add_footnotes (self : Converter) (footnote_definitions : Py.dict)
  : outcome Converter :=
  match footnote_definitions with
  | [] => Ok self
  | _ =>
      let self1 := add_block self Separator in
      match Py.sorted_by_int (Py.keys footnote_definitions) with
      | Some nums =>
          match footnote_loop self1 footnote_definitions nums with
          | Some self2 => Ok self2
          | None => Raise KeyError
          end
      | None => Raise ValueError
      end
  end.

(** The pass over the lines of the source text and the footnotes after
    it.  Every iteration moves the cursor forward, so one unit of fuel
    per line is enough. *)
Definition convert_lines (self : Converter) (lines : list string)
  : outcome Converter :=
  '(self1, footnote_definitions) <- main_loop (List.length lines) lines 0 self [] ;;
  add_footnotes self1 footnote_definitions.

(** [convert(md_file_path, output_path)]: the returned path and the state
    of the converter whose document was saved. *)
Definition convert (env : Env) (self : Converter) (md_file_path : string)
    (output_path : option string) : outcome (string * Converter) :=
  out <-
    match output_path with
    | Some p =>
        if eqb p EmptyString then
          match with_suffix_docx env md_file_path with
          | Some q => Ok q
          | None => Raise ValueError
          end
        else Ok p
    | None =>
        match with_suffix_docx env md_file_path with
        | Some q => Ok q
        | None => Raise ValueError
        end
    end ;;
  content <- parse_markdown_file env md_file_path ;;
  let lines := split LF content in
  self' <- convert_lines self lines ;;
  if can_save env out then Ok (out, self') else Raise SaveError.

End Convert.

(* ================================================================= *)
(** * The archive reporter: [scan_directory] of [rep_to_txt.py] *)

Module Reporter.
Import PyStr.

Definition IGNORE_PATTERNS : list string :=
  [".git"; ".svn"; ".hg";
   "__pycache__"; ".pytest_cache";
   "node_modules"; ".npm";
   "target"; "build"; "dist";
   ".idea"; ".vscode";
   ".DS_Store"; "Thumbs.db";
   ".pro.user"].

(** A directory tree.  The listing of a directory is [None] when
    [os.listdir] raises [PermissionError]; an entry that is neither a
    directory nor a regular file is [Other].  The names in one directory
    are distinct. *)
#[local] Set Warnings "-register-all".
Inductive entry : Type :=
| File (name : string)
| Other (name : string)
| Dir (name : string) (listing : option (list entry)).

Definition name (e : entry) : string :=
  match e with
  | File n | Other n | Dir n _ => n
  end.

(** [os.path.isdir] and [os.path.isfile] *)
Definition isdir (e : entry) : bool :=
  match e with Dir _ _ => true | _ => false end.

Definition isfile (e : entry) : bool :=
  match e with File _ => true | _ => false end.

(** [e in IGNORE_PATTERNS] *)
Definition ignored (n : string) : bool := existsb (eqb n) IGNORE_PATTERNS.

Definition name_leb (a b : entry) : bool := leb (name a) (name b).

(** [entries = sorted(os.listdir(path))] *)
Definition entries (listing : list entry) : list entry :=
  Py.sorted name_leb listing.

Definition dirs (listing : list entry) : list entry :=
  filter (fun e => isdir e && negb (ignored (name e))) (entries listing).

Definition files (listing : list entry) : list entry :=
  filter (fun e => isfile e && negb (ignored (name e))) (entries listing).

Definition all_items (listing : list entry) : list entry :=
  dirs listing ++ files listing.

Definition current_prefix (prefix : string) (is_last_item : bool) : string :=
  if is_last_item then prefix ++ "└── " else prefix ++ "├── ".

Definition next_prefix (prefix : string) (is_last_item : bool) : string :=
  if is_last_item then prefix ++ "    " else prefix ++ "│   ".

(** [for i, item in enumerate(all_items)], from position [i] on, with
    [n = len(all_items)]; [scan] is the recursive call. *)
Fixpoint scan_loop (scan : option (list entry) -> string -> outcome (list string))
    (n : nat) (rest : list entry) (i : nat) (prefix : string)
    (items : list string) : outcome (list string) :=
  match rest with
  | [] => Ok items
  | item :: rest' =>
      let is_last_item := (i =? n - 1)%nat in
      let line := (current_prefix prefix is_last_item ++ name item)%string in
      let items1 := items ++ [line] in
      match item with
      | Dir _ sub =>
          sub_items <- scan sub (next_prefix prefix is_last_item) ;;
          scan_loop scan n rest' (S i) prefix (items1 ++ sub_items)
      | _ => scan_loop scan n rest' (S i) prefix items1
      end
  end.

(** [scan_directory(path, prefix)] on the listing of [path]; [fuel]
    bounds the depth of the recursion. *)
Fixpoint scan_directory (fuel : nat) (listing : option (list entry))
    (prefix : string) : outcome (list string) :=
  match fuel with
  | O => OutOfFuel
  | S fuel' =>
      match listing with
      | None => Ok [(prefix ++ "└── [Access Denied]")%string]
      | Some l =>
          scan_loop (scan_directory fuel') (List.length (all_items l))
            (all_items l) 0 prefix []
      end
  end.

(** The number of nested directory levels below a listing. *)
Fixpoint depth_entry (e : entry) : nat :=
  match e with
  | Dir _ (Some l) => S (list_max (map depth_entry l))
  | Dir _ None => 1
  | _ => 0
  end.

Definition depth (listing : option (list entry)) : nat :=
  match listing with
  | Some l => S (list_max (map depth_entry l))
  | None => 1
  end.

End Reporter.

(* ================================================================= *)
(** * Sample inputs *)

(** A file system holding the file [notes.md] with the bytes [raw]. *)
Definition notes_env (raw : string) : Env := {|
  read_bytes := fun p => if PyStr.eqb p "notes.md" then Some raw else None;
  can_save := fun _ => true;
  with_suffix_docx := fun _ => Some "notes.docx"
|}.

(** U+00A0, the no-break space, in UTF-8. *)
Definition NBSP : string :=
  String (ascii_of_nat 194) (String (ascii_of_nat 160) EmptyString).

(** "café" in latin1 (and in cp1251, cp1252): the byte E9 is not UTF-8. *)
Definition cafe_latin1 : string := "caf" ++ String "233"%char EmptyString.

(** A directory with an ignored entry, a directory that cannot be
    listed and a socket. *)
Definition sample_tree : list Reporter.entry :=
  [Reporter.File "b.txt";
   Reporter.Dir "src"
     (Some [Reporter.File "z"; Reporter.File "a";
            Reporter.Dir ".git" (Some []); Reporter.Dir "lib" None]);
   Reporter.File "README";
   Reporter.Dir "build" (Some [Reporter.File "x"]);
   Reporter.Other "sock"].

(* ================================================================= *)
(** * Predicates used in the statements *)

(** The counters a converter carries between headings: six of them, none
    negative. *)
Definition counters_ok (hc : list Z) : Prop :=
  List.length hc = 6%nat /\ Forall (fun v => (0 <= v)%Z) hc.

(** A block that only [process_bibliography] emits. *)
Definition is_bibliography_block (b : Block) : bool :=
  match b with
  | BibHeading | BibEntry _ _ => true
  | _ => false
  end.

Definition is_table (b : Block) : bool :=
  match b with
  | Table _ _ => true
  | _ => false
  end.

Definition count_tables (bs : list Block) : nat :=
  List.length (filter is_table bs).

(** The caption positions the settings provide for. *)
Definition caption_configured (s : DocumentSettings) : Prop :=
  table_caption_position s = "above" \/ table_caption_position s = "below".

(** What a part of the conversion may do to the converter: the settings
    stay, the heading counters keep their shape and, with numbering off,
    their values, and the document grows at its end by blocks that are
    not bibliography blocks, the table counter going up by the number of
    tables among them when a caption position is configured. *)
Definition evolves (self self' : Converter) : Prop :=
  settings self' = settings self /\
  List.length (heading_counters self') = List.length (heading_counters self) /\
  (auto_numbering_headings (settings self) = false ->
   heading_counters self' = heading_counters self) /\
  (Forall (fun v => (0 <= v)%Z) (heading_counters self) ->
   Forall (fun v => (0 <= v)%Z) (heading_counters self')) /\
  exists bs,
    doc self' = doc self ++ bs /\
    forallb (fun b => negb (is_bibliography_block b)) bs = true /\
    (caption_configured (settings self) ->
     table_counter self' = (table_counter self + Z.of_nat (count_tables bs))%Z).

(** The order of the entries of a directory: by name. *)
Definition name_le (a b : Reporter.entry) : Prop :=
  Reporter.name_leb a b = true.

(** The order of the footnotes: by their keys read as numbers. *)
Definition key_le (a b : string * string) : Prop :=
  exists x y : Z,
    PyStr.int (fst a) = Some x /\ PyStr.int (fst b) = Some y /\ (x <= y)%Z.

(** Sorting the items of the dictionary by [int] of the key is sorting
    its keys. *)
Definition item_leb (a b : string * string) : bool :=
  Py.int_leb (fst a) (fst b).


(* ================================================================= *)
(** * Further definitions: settings, and the shape of a document *)

(** The same converter with another [numbering_format]. *)
Definition with_format (self : Converter) (f : string) : Converter := {|
  settings := {| auto_numbering_headings := auto_numbering_headings (settings self);
                 numbering_format := f;
                 table_caption_position := table_caption_position (settings self) |};
  doc := doc self;
  heading_counters := heading_counters self;
  footnote_counter := footnote_counter self;
  table_counter := table_counter self;
  figure_counter := figure_counter self
|}.

(** What one iteration of the main pass appends to the document. *)
Inductive chunk : list Block -> Prop :=
| chunk_none : chunk []
| chunk_heading (level : Z) (full_title : string) :
    (1 <= level <= 6)%Z -> level <> 2%Z -> chunk [Heading level full_title]
| chunk_heading2 (full_title : string) : chunk [PageBreak; Heading 2 full_title]
| chunk_code (text : string) : chunk [CodeBlock text]
| chunk_table_above (n : Z) (headers : list string) (rows : list (list string)) :
    chunk [Caption n; Table headers rows]
| chunk_table_below (n : Z) (headers : list string) (rows : list (list string)) :
    chunk [Table headers rows; Caption n]
| chunk_table_bare (headers : list string) (rows : list (list string)) :
    chunk [Table headers rows]
| chunk_list (list_items : list list_item) : chunk (map list_block list_items)
| chunk_quote (text : string) : chunk [Quote text]
| chunk_rule : chunk [Rule]
| chunk_paragraph (text : string) : chunk [Paragraph text].

(** A sequence of chunks. *)
Inductive chunks : list Block -> Prop :=
| chunks_nil : chunks []
| chunks_cons (c rest : list Block) : chunk c -> chunks rest -> chunks (c ++ rest).

(** Every page break is followed at once by a heading of level 2, and
    every heading of level 2 follows a page break. *)
Fixpoint page_breaks_ok (bs : list Block) : bool :=
  match bs with
  | [] => true
  | PageBreak :: rest =>
      match rest with
      | Heading level _ :: rest' => (level =? 2)%Z && page_breaks_ok rest'
      | _ => false
      end
  | Heading level _ :: rest => negb (level =? 2)%Z && page_breaks_ok rest
  | _ :: rest => page_breaks_ok rest
  end.

Definition is_footnote_block (b : Block) : bool :=
  match b with
  | Separator | Footnote _ _ => true
  | _ => false
  end.

(** A line that closes a code block: stripped, it starts with three
    backticks. *)
Definition is_fence (line : string) : bool :=
  PyStr.startswith (PyStr.strip line) "```".

(** Every character of [s] satisfies [p]. *)
Fixpoint every (p : ascii -> bool) (s : string) : bool :=
  match s with
  | EmptyString => true
  | String c s' => p c && every p s'
  end.

Definition not_LF (c : ascii) : bool := negb (Ascii.eqb c PyStr.LF).

(** What a line gives in a list: an item for a bullet or numbered line,
    nothing otherwise. *)
Definition list_item_of (l : string) : option list_item :=
  match Re.bullet (PyStr.strip l) with
  | Some text => Some (bullet, text, 0%Z)
  | None =>
      match Re.numbered (PyStr.strip l) with
      | Some text => Some (number, text, 0%Z)
      | None => None
      end
  end.

Definition is_blank (l : string) : bool := PyStr.eqb (PyStr.strip l) EmptyString.

Fixpoint items_of (run : list string) : list list_item :=
  match run with
  | [] => []
  | l :: run' =>
      match list_item_of l with
      | Some it => it :: items_of run'
      | None => items_of run'
      end
  end.

(** A line of a table: stripped, it holds a pipe. *)
Definition is_table_line (l : string) : bool :=
  PyStr.contains "|" (PyStr.strip l).

(** The lines of a run that a table is built from. *)
Definition table_lines_of (run : list string) : list string :=
  map PyStr.strip (filter is_table_line run).

(** A table with its caption, the table counter at [n - 1] before it. *)
Definition captioned (position : string) (n : Z) (T : Block) : list Block :=
  if PyStr.eqb position "above" then [Caption n; T]
  else if PyStr.eqb position "below" then [T; Caption n]
  else [T].


(** The text of a block that [convert] and [process_list] hand to
    [process_text_formatting]; the other blocks get their runs from
    [add_run] or as the text of a cell. *)
Definition formatted_text (b : Block) : option string :=
  match b with
  | Heading _ t | ListItem _ _ t | Quote t | Paragraph t => Some t
  | _ => None
  end.

(** The formatting of the text of the block returns. *)
Definition formats (b : Block) : Prop :=
  match formatted_text b with
  | Some t => Inline.process_text_formatting t <> None
  | None => True
  end.

(** The characters the inline patterns do not look for: any character
    but the asterisk, the backtick, the opening brace, the opening
    bracket and the line feed. *)
Definition ordinary (c : ascii) : bool :=
  negb (Ascii.eqb c "*" || Ascii.eqb c "`" || Ascii.eqb c "{"
        || Ascii.eqb c "[" || Ascii.eqb c PyStr.LF).

(** The runs of a stretch of text without formatting: one plain run, or
    none when the text is empty. *)
Definition plain_runs (t : string) : list Inline.Run :=
  match t with
  | EmptyString => []
  | _ => [Inline.plain_run t]
  end.

(** Classes of characters used in the statements on inline formatting. *)
Definition no_bracket (c : ascii) : bool := negb (Ascii.eqb c "[").
Definition no_star_tick_brace (c : ascii) : bool :=
  negb (Ascii.eqb c "*" || Ascii.eqb c "`" || Ascii.eqb c "{").
Definition no_star (c : ascii) : bool := negb (Ascii.eqb "*" c) && not_LF c.
Definition no_tick (c : ascii) : bool := negb (Ascii.eqb "`" c) && not_LF c.

(** [s] is made of characters of a class and of nothing else: [clen] is
    [PyStr.space_len] for white space, [PyStr.digit_len] for decimal
    digits. *)
Definition made_of (clen : string -> nat) (s : string) : bool :=
  match snd (PyStr.span_chars clen s) with
  | EmptyString => true
  | _ => false
  end.

(** No decimal digit stands in [s], at any place. *)
Fixpoint digit_free (s : string) : bool :=
  match s with
  | EmptyString => true
  | String _ r => (PyStr.digit_len s =? 0)%nat && digit_free r
  end.

(* ================================================================= *)
(** * The dump of the file contents ([rep_to_txt.py])

    The second half of the report: after the tree, every file below the
    root with a header and its numbered lines.  [os.path] is [posixpath];
    the tree holds no symbolic links.  Text read from a file is carried as
    its UTF-8 bytes like every [str]; [line.rstrip()] takes the white
    space of [str.isspace], which a file in a legacy code page can hold
    too (U+00A0 at byte A0). *)

Module Contents.
Import PyStr.

(** What [open(file_path)] followed by a read gives: the bytes of the
    file, or an [OSError] with its text [str(e)]. *)
Inductive file_read : Type :=
| Readable (raw : string)
| Unreadable (message : string).

(** A tree with the contents of its files.  An entry that is not a
    directory is a [Leaf], [regular] or not (a socket, a device); the
    listing of a directory is [None] when it cannot be listed. *)
#[local] Set Warnings "-register-all".
Inductive node : Type :=
| Leaf (name : string) (regular : bool) (content : file_read)
| Folder (name : string) (listing : option (list node)).

Definition node_name (n : node) : string :=
  match n with
  | Leaf s _ _ | Folder s _ => s
  end.

(** The same tree as [scan_directory] sees it. *)
Fixpoint to_entry (n : node) : Reporter.entry :=
  match n with
  | Leaf s true _ => Reporter.File s
  | Leaf s false _ => Reporter.Other s
  | Folder s None => Reporter.Dir s None
  | Folder s (Some l) => Reporter.Dir s (Some (map to_entry l))
  end.

Definition BINARY_EXTENSIONS : list string :=
  [".exe"; ".dll"; ".so"; ".dylib"; ".zip"; ".tar"; ".gz"; ".rar"; ".7z";
   ".jpg"; ".jpeg"; ".png"; ".gif"; ".bmp"; ".ico"; ".svg"; ".webp";
   ".mp3"; ".mp4"; ".avi"; ".mov"; ".mkv"; ".wmv"; ".flv";
   ".pdf"; ".doc"; ".docx"; ".xls"; ".xlsx"; ".ppt"; ".pptx";
   ".bin"; ".dat"; ".db"; ".sqlite"; ".mdb"].

(** The extensions [process_single_file] gives a URL for. *)
Definition image_extensions : list string :=
  [".png"; ".jpg"; ".jpeg"; ".gif"; ".svg"; ".ico"].

(** [x in s] for a set of strings *)
Definition member (x : string) (s : list string) : bool := existsb (eqb x) s.

(* ----------------------------------------------------------------- *)
(** ** [is_likely_binary] *)

(** [f.read(n)]: the first [n] bytes, or all of them. *)
Fixpoint read (n : nat) (raw : string) : string :=
  match n, raw with
  | S n', String c r => String c (read n' r)
  | _, _ => EmptyString
  end.

Definition NUL : ascii := ascii_of_nat 0.

Definition chunk_size : nat := 8 * 1024.

Definition is_likely_binary (f : file_read) : bool :=
  match f with
  | Readable raw => contains NUL (read chunk_size raw)
  | Unreadable _ => true
  end.

(* ----------------------------------------------------------------- *)
(** ** [os.path.splitext] and [str.lower] *)

(** [s.rfind(c)]: the highest index of [c] in [s], or -1. *)
Fixpoint rfind (c : ascii) (s : string) : Z :=
  match s with
  | EmptyString => -1
  | String d s' =>
      let k := rfind c s' in
      if (0 <=? k)%Z then (k + 1)%Z
      else if Ascii.eqb c d then 0%Z else (-1)%Z
  end.

(** [p[:n]] and [p[n:]] *)
Definition upto (n : nat) (p : string) : string := String.substring 0 n p.
Definition from (n : nat) (p : string) : string :=
  String.substring n (String.length p - n) p.

(** The loop of [genericpath._splitext]: the extension is split off at
    [dotIndex] when a character other than a dot stands between
    [filenameIndex] and [dotIndex]; [fuel] is their distance. *)
Fixpoint splitext_loop (fuel : nat) (p : string) (filenameIndex dotIndex : nat)
    : string * string :=
  match fuel with
  | O => (p, EmptyString)
  | S fuel' =>
      match String.get filenameIndex p with
      | Some c =>
          if negb (Ascii.eqb c ".") then (upto dotIndex p, from dotIndex p)
          else splitext_loop fuel' p (S filenameIndex) dotIndex
      | None => (p, EmptyString)
      end
  end.

(** [os.path.splitext(p)] *)
Definition splitext (p : string) : string * string :=
  let sepIndex := rfind "/" p in
  let dotIndex := rfind "." p in
  if (sepIndex <? dotIndex)%Z then
    let filenameIndex := Z.to_nat (sepIndex + 1) in
    splitext_loop (Z.to_nat dotIndex - filenameIndex) p
      filenameIndex (Z.to_nat dotIndex)
  else (p, EmptyString).

(** [s.lower()] as far as a comparison with ASCII text goes: the letters
    A to Z, and the Kelvin sign U+212A (E2 84 AA), the one character
    outside ASCII whose lower case lies inside; the bytes of the other
    characters stay. *)
Fixpoint lower (s : string) : string :=
  match s with
  | EmptyString => EmptyString
  | String c s' =>
      match s' with
      | String d (String e s'') =>
          if ((nat_of_ascii c =? 226) && (nat_of_ascii d =? 132)
              && (nat_of_ascii e =? 170))%nat
          then String "k" (lower s'')
          else String (Re.fold_ascii c) (lower s')
      | _ => String (Re.fold_ascii c) (lower s')
      end
  end.

(* ----------------------------------------------------------------- *)
(** ** Decoding *)

(** The UTF-8 bytes of a code point below U+10000. *)
Definition utf8_encode (cp : N) : string :=
  if (cp <? 128)%N then String (ascii_of_N cp) EmptyString
  else if (cp <? 2048)%N then
    String (ascii_of_N (192 + cp / 64))
      (String (ascii_of_N (128 + cp mod 64)) EmptyString)
  else
    String (ascii_of_N (224 + cp / 4096))
      (String (ascii_of_N (128 + (cp / 64) mod 64))
         (String (ascii_of_N (128 + cp mod 64)) EmptyString)).

(** The code points of the bytes 80 to BF in [cp1251] (C0 to FF are the
    letters from U+0410 on) and of 80 to 9F in [cp1252] (A0 to FF are
    themselves); [None] where the code page has no character. *)
Definition cp1251_table : list (option N) :=
  map Some [1026; 1027; 8218; 1107; 8222; 8230; 8224; 8225;
            8364; 8240; 1033; 8249; 1034; 1036; 1035; 1039;
            1106; 8216; 8217; 8220; 8221; 8226; 8211; 8212]%N
  ++ [None]
  ++ map Some [8482; 1113; 8250; 1114; 1116; 1115; 1119;
               160; 1038; 1118; 1032; 164; 1168; 166; 167;
               1025; 169; 1028; 171; 172; 173; 174; 1031;
               176; 177; 1030; 1110; 1169; 181; 182; 183;
               1105; 8470; 1108; 187; 1112; 1029; 1109; 1111]%N.

Definition cp1252_table : list (option N) :=
  [Some 8364; None; Some 8218; Some 402; Some 8222; Some 8230; Some 8224;
   Some 8225; Some 710; Some 8240; Some 352; Some 8249; Some 338; None;
   Some 381; None; None; Some 8216; Some 8217; Some 8220; Some 8221;
   Some 8226; Some 8211; Some 8212; Some 732; Some 8482; Some 353;
   Some 8250; Some 339; None; Some 382; Some 376]%N.

(** The code point a one-byte codec gives the byte [b]. *)
Definition code_point (e : Codec.encoding) (b : N) : option N :=
  if (b <? 128)%N then Some b
  else match e with
  | Codec.cp1251 =>
      if (b <? 192)%N then nth (N.to_nat (b - 128)) cp1251_table None
      else Some (1040 + (b - 192))%N
  | Codec.cp1252 =>
      if (b <? 160)%N then nth (N.to_nat (b - 128)) cp1252_table None
      else Some b
  | _ => Some b
  end.

Fixpoint decode_bytes (e : Codec.encoding) (raw : string) : option string :=
  match raw with
  | EmptyString => Some EmptyString
  | String c r =>
      match code_point e (N_of_ascii c), decode_bytes e r with
      | Some cp, Some t => Some (utf8_encode cp ++ t)%string
      | _, _ => None
      end
  end.

(** The byte order mark [utf-8-sig] skips. *)
Definition BOM : string :=
  String (ascii_of_nat 239) (String (ascii_of_nat 187)
    (String (ascii_of_nat 191) EmptyString)).

(** [raw.decode(e)]: the text, or [None] for [UnicodeDecodeError]. *)
Definition decode (e : Codec.encoding) (raw : string) : option string :=
  match e with
  | Codec.utf_8 => if Codec.utf8_valid raw then Some raw else None
  | Codec.utf_8_sig =>
      let r := if startswith raw BOM then from 3 raw else raw in
      if Codec.utf8_valid r then Some r else None
  | _ => decode_bytes e raw
  end.

(* ----------------------------------------------------------------- *)
(** ** [extract_text_content] *)

(** Whether [s] is made of white space only, on all of [str.isspace]:
    the ASCII part, U+0085, U+00A0, U+1680, U+2000 to U+200A, U+2028,
    U+2029, U+202F, U+205F and U+3000. *)
Fixpoint all_space (s : string) : bool :=
  match s with
  | EmptyString => true
  | String c r =>
      if is_space c then all_space r
      else
        let b0 := nat_of_ascii c in
        match r with
        | String d r1 =>
            let b1 := nat_of_ascii d in
            if (b0 =? 194)%nat then
              ((b1 =? 133) || (b1 =? 160))%nat && all_space r1
            else
              match r1 with
              | String e r2 =>
                  let b2 := nat_of_ascii e in
                  (((b0 =? 225) && (b1 =? 154) && (b2 =? 128))
                   || ((b0 =? 226) && (b1 =? 128)
                       && (((128 <=? b2) && (b2 <=? 138))
                           || (b2 =? 168) || (b2 =? 169) || (b2 =? 175)))
                   || ((b0 =? 226) && (b1 =? 129) && (b2 =? 159))
                   || ((b0 =? 227) && (b1 =? 128) && (b2 =? 128)))%nat
                  && all_space r2
              | EmptyString => false
              end
        | EmptyString => false
        end
  end.

(** [line.rstrip()] *)
Fixpoint rstrip_text (s : string) : string :=
  match s with
  | EmptyString => EmptyString
  | String c r => if all_space s then EmptyString else String c (rstrip_text r)
  end.

(** [f.readlines()] on text whose line ends are LF: [line] holds the
    characters of the line read so far. *)
Fixpoint readlines_from (line : string) (text : string) : list string :=
  match text with
  | EmptyString =>
      match line with
      | EmptyString => []
      | _ => [line]
      end
  | String c r =>
      if Ascii.eqb c LF then (line ++ String LF EmptyString)%string
        :: readlines_from EmptyString r
      else readlines_from (line ++ String c EmptyString)%string r
  end.

Definition readlines (text : string) : list string :=
  readlines_from EmptyString text.

(** [f"{i:4}"]: [str(i)] padded with spaces on the left to four columns. *)
Definition width4 (i : Z) : string :=
  let s := str i in
  (repeat_char " " (4 - String.length s) ++ s)%string.

(** [[f"{i:4} | {line.rstrip()}" for i, line in enumerate(lines, i)]] *)
Fixpoint number_lines (i : Z) (lines : list string) : list string :=
  match lines with
  | [] => []
  | line :: rest =>
      (width4 i ++ " | " ++ rstrip_text line)%string
      :: number_lines (i + 1) rest
  end.

(** The loop over [encodings_priority]. *)
Fixpoint extract_loop (encodings : list Codec.encoding) (f : file_read)
    : list string :=
  match encodings with
  | [] => ["WARNING: Кодировка файла, не поддерживаемая для извлечения текста"]
  | encoding :: rest =>
      match f with
      | Unreadable e => [("ERROR: Не удается прочитать файл - " ++ e)%string]
      | Readable raw =>
          match decode encoding raw with
          | Some text => number_lines 1 (readlines (Codec.universal_newlines text))
          | None => extract_loop rest f
          end
      end
  end.

Definition extract_text_content (f : file_read) : list string :=
  extract_loop Codec.encodings_priority f.

(* ----------------------------------------------------------------- *)
(** ** [process_single_file] *)

Definition rule : string := repeat_char "-" 80.

Definition header (relative_path : string) : list string :=
  [(String LF rule); (relative_path ++ ":")%string; rule].

(** [process_single_file(relative_path, file_path)], with [f] what reading
    [file_path] gives.  [relative_path.replace(os.sep, '/')] is
    [relative_path], [os.sep] being the slash. *)
Definition process_single_file (relative_path : string) (f : file_read)
    : list string :=
  let file_ext := lower (snd (splitext relative_path)) in
  header relative_path
  ++ (if member file_ext BINARY_EXTENSIONS || is_likely_binary f then
        if member file_ext image_extensions then
          [("https://raw.githubusercontent.com/.../" ++ relative_path)%string]
        else ["[Binary file - content not displayed]"]
      else extract_text_content f)
  ++ [EmptyString].

(* ----------------------------------------------------------------- *)
(** ** [extract_all_file_contents] *)

Definition is_leaf (n : node) : bool :=
  match n with Leaf _ _ _ => true | Folder _ _ => false end.

Definition node_leb (a b : node) : bool := leb (node_name a) (node_name b).

(** The body of the loop for one directory: the files of [files] that are
    not ignored, in sorted order, each with its path relative to
    [root_path] as the list of its names ([top] holds those of the
    directories from [root_path] down to [root]); joined with a slash
    they are [os.path.relpath(os.path.join(root, file), root_path)]. *)
Definition files_of (top : list string) (l : list node)
    : list (list string * file_read) :=
  flat_map (fun n =>
    match n with
    | Leaf file _ f =>
        if Reporter.ignored file then [] else [(top ++ [file], f)]
    | Folder _ _ => []
    end) (Py.sorted node_leb (filter is_leaf l)).

(** One directory of [os.walk(root_path)] with the loop body: the files
    the loop processes, then those of the directories left in [dirs], in
    the order of the listing; [enter] is the walk of a subdirectory.  A
    directory that cannot be listed is passed over. *)
Definition walk_listing
    (enter : list string -> node -> list (list string * file_read))
    (top : list string) (listing : option (list node))
    : list (list string * file_read) :=
  match listing with
  | None => []
  | Some l => files_of top l ++ flat_map (enter top) l
  end.

(** The ignored directories are taken out of [dirs] and not entered. *)
Fixpoint walk_dir (top : list string) (n : node)
    : list (list string * file_read) :=
  match n with
  | Folder d sub =>
      if Reporter.ignored d then []
      else walk_listing walk_dir (top ++ [d]) sub
  | Leaf _ _ _ => []
  end.

Definition walk (top : list string) (listing : option (list node))
    : list (list string * file_read) :=
  walk_listing walk_dir top listing.

Definition extract_all_file_contents (listing : option (list node))
    : list string :=
  flat_map (fun '(p, f) => process_single_file (join "/" p) f)
    (walk [] listing).

(** The file [f] stands in the tree at the path [p], given by its
    names from the root down. *)
Inductive reaches : option (list node) -> list string -> file_read -> Prop :=
| reaches_file l file regular f :
    In (Leaf file regular f) l -> reaches (Some l) [file] f
| reaches_dir l d sub p f :
    In (Folder d sub) l -> reaches sub p f -> reaches (Some l) (d :: p) f.

(** No name on the path [p] is in [IGNORE_PATTERNS]. *)
Definition unignored (p : list string) : Prop :=
  Forall (fun c => Reporter.ignored c = false) p.

(** The name of the file at the path [p]. *)
Definition file_name (p : list string) : string := last p EmptyString.

End Contents.

(* ================================================================= *)
(** * Facts about Python lists *)

Module PyListFacts.
Import PyList.
Open Scope Z_scope.

Lemma index_in_range {A} (l : list A) (i : Z) :
  0 <= i < Z.of_nat (List.length l) -> index l i = Some (Z.to_nat i).
Proof.
  intros H. unfold index.
  replace (0 <=? i) with true by (symmetry; apply Z.leb_le; lia).
  replace (i <? Z.of_nat (List.length l)) with true
    by (symmetry; apply Z.ltb_lt; lia).
  reflexivity.
Qed.

Lemma get_in_range {A} (l : list A) (i : Z) (d : A) :
  0 <= i < Z.of_nat (List.length l) -> get l i = Some (nth (Z.to_nat i) l d).
Proof.
  intros H. unfold get. rewrite index_in_range by assumption.
  apply nth_error_nth'. lia.
Qed.

Lemma set_in_range {A} (l : list A) (i : Z) (x : A) :
  0 <= i < Z.of_nat (List.length l) -> set l i x = Some (update l (Z.to_nat i) x).
Proof.
  intros H. unfold set. now rewrite index_in_range.
Qed.

Lemma update_length {A} (l : list A) (k : nat) (x : A) :
  List.length (update l k x) = List.length l.
Proof.
  revert k. induction l as [|h t IH]; intros [|k]; cbn; auto.
Qed.

Lemma nth_update {A} (l : list A) (k j : nat) (x d : A) :
  (k < List.length l)%nat ->
  nth j (update l k x) d = if (j =? k)%nat then x else nth j l d.
Proof.
  revert k j. induction l as [|h t IH]; intros k j Hk; cbn in Hk; [lia|].
  destruct k as [|k], j as [|j]; cbn; auto.
  apply IH. lia.
Qed.

Lemma Forall_update {A} (P : A -> Prop) (l : list A) (k : nat) (x : A) :
  Forall P l -> P x -> Forall P (update l k x).
Proof.
  intros Hl Hx. revert k.
  induction Hl as [|h t Hh Ht IH]; intros [|k]; cbn; auto.
Qed.

End PyListFacts.

(* ================================================================= *)
(** * Heading counters *)

Section HeadingNumbers.
Import PyStr PyListFacts.
Open Scope Z_scope.

Lemma counters_ok_new (s : DocumentSettings) :
  counters_ok (heading_counters (new_converter s)).
Proof.
  split; [reflexivity|]. cbn. repeat constructor; lia.
Qed.

(** The reset loop over [a + s, ..., a + s + n - 1]. *)
Lemma reset_counters_range (a : Z) (n : nat) :
  forall (s : nat) (hc : list Z),
    0 <= a ->
    (Z.to_nat a + s + n <= List.length hc)%nat ->
    exists hc',
      reset_counters hc (map (fun k => a + Z.of_nat k) (seq s n)) = Some hc' /\
      List.length hc' = List.length hc /\
      (forall j, nth j hc' 0 =
         if ((Z.to_nat a + s <=? j) && (j <? Z.to_nat a + s + n))%nat
         then 0 else nth j hc 0) /\
      (Forall (fun v => 0 <= v) hc -> Forall (fun v => 0 <= v) hc').
Proof.
  induction n as [|n IH]; intros s hc Ha Hlen.
  - exists hc. cbn [seq map reset_counters]. repeat split; auto.
    intros j.
    destruct (Nat.leb_spec (Z.to_nat a + s) j),
             (Nat.ltb_spec j (Z.to_nat a + s + 0)); cbn [andb]; auto; lia.
  - cbn [seq map reset_counters].
    rewrite PyListFacts.set_in_range by lia.
    destruct (IH (S s) (PyList.update hc (Z.to_nat (a + Z.of_nat s)) 0))
      as (hc' & Hrun & Hlen' & Hnth & Hpos); auto.
    { rewrite update_length. lia. }
    exists hc'. split; [exact Hrun|].
    rewrite update_length in Hlen'. split; [exact Hlen'|]. split.
    + intros j. rewrite Hnth, nth_update by lia.
      replace (Z.to_nat (a + Z.of_nat s)) with (Z.to_nat a + s)%nat by lia.
      destruct (Nat.eqb_spec j (Z.to_nat a + s)) as [->|Hne].
      * replace (Z.to_nat a + s <=? Z.to_nat a + s)%nat with true
          by (symmetry; apply Nat.leb_le; lia).
        replace (Z.to_nat a + s <? Z.to_nat a + s + S n)%nat with true
          by (symmetry; apply Nat.ltb_lt; lia).
        now destruct (_ && _)%bool.
      * destruct (Nat.leb_spec (Z.to_nat a + S s) j),
                 (Nat.leb_spec (Z.to_nat a + s) j),
                 (Nat.ltb_spec j (Z.to_nat a + S s + n)),
                 (Nat.ltb_spec j (Z.to_nat a + s + S n)); cbn; auto; lia.
    + intros H. apply Hpos. apply Forall_update; [assumption|lia].
Qed.

(** The loop that gathers the printed counters. *)
Lemma collect_numbers_range (hc : list Z) (n : nat) :
  forall (s : nat) (numbers : list string),
    (s + n <= List.length hc)%nat ->
    collect_numbers hc (map (fun k => 0 + Z.of_nat k) (seq s n)) numbers =
    Some (numbers ++
          map str (filter (fun v => (0 <? v)%Z) (firstn n (skipn s hc)))).
Proof.
  induction n as [|n IH]; intros s numbers Hlen.
  - cbn. now rewrite app_nil_r.
  - cbn [seq map collect_numbers].
    rewrite (PyListFacts.get_in_range hc _ 0) by lia.
    replace (Z.to_nat (0 + Z.of_nat s)) with s by lia.
    rewrite IH by lia.
    assert (Hs : skipn s hc = nth s hc 0 :: skipn (S s) hc).
    { clear -Hlen. revert s Hlen.
      induction hc as [|h t IHt]; intros s Hlen; cbn in Hlen; [lia|].
      destruct s as [|s]; [reflexivity|]. cbn [skipn nth]. apply IHt. lia. }
    rewrite Hs. cbn [firstn filter].
    destruct (0 <? nth s hc 0); cbn [map]; [|reflexivity].
    now rewrite <- app_assoc.
Qed.

(** C1.  With auto-numbering on and the "decimal" format, numbering a
    heading of level L (1 to 6) in a converter whose six counters are not
    negative adds one to the counter of level L, sets the counters of the
    levels above L to zero, keeps the counters of the levels below L, and
    returns the counters of the levels 1..L that are not zero, joined by
    dots and followed by a dot and a space.  The counters are again six
    and not negative, so the same holds at the next heading. *)
Theorem decimal_numbering (self : Converter) (level : Z) :
  auto_numbering_headings (settings self) = true ->
  numbering_format (settings self) = "decimal" ->
  counters_ok (heading_counters self) ->
  1 <= level <= 6 ->
  exists number self',
    generate_heading_number self level = Ok (number, self') /\
    let hc := heading_counters self in
    let hc' := heading_counters self' in
    nth (Z.to_nat (level - 1)) hc' 0 = nth (Z.to_nat (level - 1)) hc 0 + 1 /\
    (forall j, level <= j < 6 -> nth (Z.to_nat j) hc' 0 = 0) /\
    (forall j, 0 <= j < level - 1 -> nth (Z.to_nat j) hc' 0 = nth (Z.to_nat j) hc 0) /\
    counters_ok hc' /\
    number =
      (join "." (map str (filter (fun v => (0 <? v)%Z) (firstn (Z.to_nat level) hc')))
       ++ ". ")%string /\
    self' = set_heading_counters self hc'.
Proof.
  intros Hauto Hfmt [Hlen Hpos] Hlevel.
  unfold generate_heading_number. rewrite Hauto, Hfmt. cbn [negb eqb String.eqb].
  change (String.eqb "decimal" "simple") with false. cbv iota.
  set (hc := heading_counters self) in *.
  rewrite (PyListFacts.get_in_range hc _ 0) by lia.
  cbn [indexed bind].
  rewrite PyListFacts.set_in_range by lia.
  cbn [indexed bind].
  set (k := Z.to_nat (level - 1)).
  set (hc1 := PyList.update hc k (nth k hc 0 + 1)).
  assert (Hpos1 : Forall (fun v => 0 <= v) hc1).
  { apply Forall_update; [assumption|].
    assert (0 <= nth k hc 0); [|lia].
    apply (proj1 (Forall_forall _ hc) Hpos). apply nth_In. lia. }
  destruct (reset_counters_range level (Z.to_nat (6 - level)) 0 hc1)
    as (hc2 & Hrun & Hlen2 & Hnth & Hpos2); [lia| |].
  { unfold hc1. rewrite update_length. lia. }
  unfold PyList.range. rewrite Hrun. cbn [indexed bind].
  unfold hc1 in Hlen2. rewrite update_length in Hlen2.
  replace (level - 0) with level by lia.
  rewrite collect_numbers_range by lia.
  cbn [indexed bind app skipn].
  assert (Hk : nth k hc2 0 = nth k hc 0 + 1).
  { rewrite Hnth. unfold hc1. rewrite nth_update by lia.
    rewrite Nat.eqb_refl.
    replace (Z.to_nat level + 0 <=? k)%nat with false
      by (symmetry; apply Nat.leb_gt; lia).
    reflexivity. }
  assert (Hne : map str (filter (fun v => (0 <? v)%Z) (firstn (Z.to_nat level) hc2)) <> []).
  { assert (Hin : In (nth k hc2 0) (filter (fun v => (0 <? v)%Z) (firstn (Z.to_nat level) hc2))).
    { apply filter_In. split.
      - rewrite <- (firstn_skipn (Z.to_nat level) hc2) at 1.
        rewrite app_nth1 by (rewrite length_firstn; lia).
        apply nth_In. rewrite length_firstn. lia.
      - apply Z.ltb_lt. rewrite Hk.
        assert (0 <= nth k hc 0); [|lia].
        apply (proj1 (Forall_forall _ hc) Hpos). apply nth_In. lia. }
    intros Hnil. destruct (filter _ _); [contradiction|discriminate]. }
  eexists. eexists. split; [reflexivity|].
  cbn [heading_counters set_heading_counters].
  split; [exact Hk|]. split; [|split; [|split; [|split]]].
  - intros j Hj. rewrite Hnth.
    replace (Z.to_nat level + 0 <=? Z.to_nat j)%nat with true
      by (symmetry; apply Nat.leb_le; lia).
    replace (Z.to_nat j <? Z.to_nat level + 0 + Z.to_nat (6 - level))%nat with true
      by (symmetry; apply Nat.ltb_lt; lia).
    reflexivity.
  - intros j Hj. rewrite Hnth.
    replace (Z.to_nat level + 0 <=? Z.to_nat j)%nat with false
      by (symmetry; apply Nat.leb_gt; lia).
    cbn [andb]. unfold hc1. rewrite nth_update by lia.
    replace (Z.to_nat j =? k)%nat with false
      by (symmetry; apply Nat.eqb_neq; lia).
    reflexivity.
  - split; [lia|]. auto.
  - destruct (map str _); [contradiction|reflexivity].
  - reflexivity.
Qed.

Lemma decimal_numbering_witness :
  let self := new_converter numbered_settings in
  exists number self',
    generate_heading_number self 2 = Ok (number, self') /\
    let hc := heading_counters self in
    let hc' := heading_counters self' in
    nth (Z.to_nat (2 - 1)) hc' 0%Z = (nth (Z.to_nat (2 - 1)) hc 0 + 1)%Z /\
    (forall j, (2 <= j < 6)%Z -> nth (Z.to_nat j) hc' 0%Z = 0%Z) /\
    (forall j, (0 <= j < 2 - 1)%Z -> nth (Z.to_nat j) hc' 0%Z = nth (Z.to_nat j) hc 0%Z) /\
    counters_ok hc' /\
    number =
      (PyStr.join "." (map PyStr.str (filter (fun v => (0 <? v)%Z) (firstn (Z.to_nat 2) hc')))
       ++ ". ")%string /\
    self' = set_heading_counters self hc'.
Proof.
  apply (decimal_numbering (new_converter numbered_settings) 2%Z).
  - reflexivity.
  - reflexivity.
  - split; [reflexivity|]. simpl. repeat constructor; lia.
  - lia.
Defined.

End HeadingNumbers.

(* ================================================================= *)
(** * Characters and classes *)

Section Characters.
Import PyStr.
Open Scope nat_scope.

(** A character lies within the string it is decoded from. *)
Lemma decode_char_length (s : string) (cp : N) (k : nat) :
  decode_char s = Some (cp, k) -> 1 <= k <= String.length s.
Proof.
  unfold decode_char.
  destruct s as [|b0 [|b1 [|b2 [|b3 s]]]]; cbn [String.length];
    repeat match goal with
           | |- context [if ?b then _ else _] => destruct b
           end;
    intros [= _ <-] || discriminate; lia.
Qed.

(** What follows a character does not change it. *)
Lemma decode_char_app (s x : string) (cp : N) (k : nat) :
  decode_char s = Some (cp, k) -> decode_char (s ++ x) = Some (cp, k).
Proof.
  unfold decode_char.
  destruct s as [|b0 [|b1 [|b2 [|b3 s]]]]; cbn [append];
    repeat match goal with
           | |- context [if ?b then _ else _] => destruct b
           end;
    try discriminate; auto.
Qed.

Lemma space_len_length (s : string) : space_len s <= String.length s.
Proof.
  unfold space_len. destruct (decode_char s) as [[cp k]|] eqn:E; [|lia].
  apply decode_char_length in E. destruct (space_code cp); lia.
Qed.

Lemma digit_len_length (s : string) : digit_len s <= String.length s.
Proof.
  unfold digit_len. destruct (decode_char s) as [[cp k]|] eqn:E; [|lia].
  apply decode_char_length in E. destruct (digit_code cp); lia.
Qed.

Lemma space_len_app (s x : string) (k : nat) :
  space_len s = S k -> space_len (s ++ x) = S k.
Proof.
  unfold space_len. destruct (decode_char s) as [[cp j]|] eqn:E; [|discriminate].
  rewrite (decode_char_app _ x _ _ E). auto.
Qed.

Lemma digit_len_app (s x : string) (k : nat) :
  digit_len s = S k -> digit_len (s ++ x) = S k.
Proof.
  unfold digit_len. destruct (decode_char s) as [[cp j]|] eqn:E; [|discriminate].
  rewrite (decode_char_app _ x _ _ E). auto.
Qed.

(** ASCII white space and digits are characters of one byte. *)
Lemma space_len_ascii (c : ascii) (r : string) :
  is_space c = true -> space_len (String c r) = 1.
Proof.
  destruct c as [[] [] [] [] [] [] [] []]; try discriminate; reflexivity.
Qed.

Lemma digit_len_ascii (c : ascii) (r : string) :
  is_digit c = true -> digit_len (String c r) = 1.
Proof.
  destruct c as [[] [] [] [] [] [] [] []]; try discriminate; reflexivity.
Qed.

(** The other way round, for a string that starts with white space or a
    digit of one byte. *)
Lemma space_len_one (c : ascii) (r : string) :
  space_len (String c r) = 1 -> is_space c = true.
Proof.
  unfold space_len, decode_char.
  destruct (N_of_ascii c <? 128)%N eqn:E.
  - revert E. destruct c as [[] [] [] [] [] [] [] []]; vm_compute; congruence.
  - repeat match goal with
           | |- context [match ?s with EmptyString => _ | String _ _ => _ end] =>
               destruct s
           | |- context [if ?b then _ else _] => destruct b
           end; discriminate.
Qed.

(** A stretch of characters of a class, followed by a string that does
    not start with one, is what [span_chars] takes. *)
Section Spans.
Variable clen : string -> nat.
Hypothesis clen_length : forall s, clen s <= String.length s.
Hypothesis clen_app : forall s x k, clen s = S k -> clen (s ++ x) = S k.

Lemma span_chars_from_app (rest : string) :
  clen rest = 0 ->
  forall (a : string) (skip : nat),
    skip <= String.length a ->
    snd (span_chars_from clen skip a) = EmptyString ->
    span_chars_from clen skip (a ++ rest) = (a, rest).
Proof.
  intros Hrest. induction a as [|c a IH]; intros skip Hskip Hall.
  - cbn in Hskip. replace skip with 0 by lia. cbn [append].
    destruct rest as [|d r]; [reflexivity|]. cbn [span_chars_from].
    now rewrite Hrest.
  - cbn [append span_chars_from] in *. destruct skip as [|k].
    + destruct (clen (String c a)) as [|k] eqn:E; [discriminate Hall|].
      change (String c (a ++ rest)) with (String c a ++ rest)%string.
      rewrite (clen_app _ rest _ E).
      assert (Hk : k <= String.length a).
      { pose proof (clen_length (String c a)) as L. rewrite E in L.
        cbn in L. lia. }
      destruct (span_chars_from clen k a) as [a1 b1] eqn:Es. cbn [snd] in Hall.
      rewrite (IH k Hk); [reflexivity|]. now rewrite Es.
    + cbn in Hskip.
      destruct (span_chars_from clen k a) as [a1 b1] eqn:Es. cbn [snd] in Hall.
      rewrite (IH k); [reflexivity|lia|]. now rewrite Es.
Qed.

Lemma span_chars_app (a rest : string) :
  snd (span_chars clen a) = EmptyString -> clen rest = 0 ->
  span_chars clen (a ++ rest) = (a, rest).
Proof.
  intros Ha Hrest. apply span_chars_from_app; [assumption|lia|assumption].
Qed.

(** What [span_chars] leaves does not start with a character of the
    class. *)
Lemma span_chars_from_rest (s : string) :
  forall skip, clen (snd (span_chars_from clen skip s)) = 0.
Proof.
  induction s as [|c s IH]; intros skip; cbn [span_chars_from].
  - cbn [snd]. pose proof (clen_length EmptyString) as L. cbn in L. lia.
  - destruct skip as [|k].
    + destruct (clen (String c s)) as [|k] eqn:E; [exact E|].
      specialize (IH k). now destruct (span_chars_from clen k s).
    + specialize (IH k). now destruct (span_chars_from clen k s).
Qed.

End Spans.

(** A stripped string does not start with white space. *)
Lemma lstrip_head (s : string) : space_len (lstrip s) = 0.
Proof. apply span_chars_from_rest, space_len_length. Qed.

Lemma rstrip_head (s : string) (c : ascii) (r : string) :
  rstrip s = String c r -> exists r', s = String c r' /\ exists x, r' = (r ++ x)%string.
Proof.
  revert c r. induction s as [|d s IH]; intros c r; cbn [rstrip]; [discriminate|].
  destruct (all_space (String d s)); [discriminate|].
  intros [= <- <-]. exists s. split; [reflexivity|].
  clear IH. induction s as [|e s IHs]; cbn [rstrip].
  - now exists EmptyString.
  - destruct (all_space (String e s)).
    + now exists (String e s).
    + destruct IHs as [x Hx]. exists x. cbn. now rewrite <- Hx.
Qed.

(** Strings of ASCII digits and of ASCII white space are made of digits
    and of white space. *)
Lemma span_chars_ascii (clen : string -> nat) (p : ascii -> bool) (a : string) :
  (forall c r, p c = true -> clen (String c r) = 1) ->
  every p a = true -> snd (span_chars clen a) = EmptyString.
Proof.
  intros Hp. unfold span_chars. induction a as [|c a IH]; intros Ha; [reflexivity|].
  cbn [every] in Ha. apply andb_true_iff in Ha as [Hc Ha].
  cbn [span_chars_from]. rewrite (Hp c a Hc).
  specialize (IH Ha). now destruct (span_chars_from clen 0 a).
Qed.

Lemma made_of_digits (num : string) :
  every is_digit num = true -> made_of digit_len num = true.
Proof.
  intros H. unfold made_of.
  now rewrite (span_chars_ascii digit_len is_digit num digit_len_ascii H).
Qed.

Lemma made_of_spaces (ws : string) :
  every is_space ws = true -> made_of space_len ws = true.
Proof.
  intros H. unfold made_of.
  now rewrite (span_chars_ascii space_len is_space ws space_len_ascii H).
Qed.

Lemma made_of_snd (clen : string -> nat) (s : string) :
  made_of clen s = true -> snd (span_chars clen s) = EmptyString.
Proof. unfold made_of. now destruct (snd (span_chars clen s)). Qed.

(** The digits of a number, then what does not start with a digit. *)
Lemma span_digits (num rest : string) :
  made_of digit_len num = true -> digit_len rest = 0 ->
  span_chars digit_len (num ++ rest) = (num, rest).
Proof.
  intros Hnum Hrest.
  apply span_chars_app;
    auto using digit_len_length, digit_len_app, made_of_snd.
Qed.

Lemma span_spaces (ws rest : string) :
  made_of space_len ws = true -> space_len rest = 0 ->
  span_chars space_len (ws ++ rest) = (ws, rest).
Proof.
  intros Hws Hrest.
  apply span_chars_app;
    auto using space_len_length, space_len_app, made_of_snd.
Qed.

(** A closing brace completes no character and is no digit. *)
Lemma decode_char_brace (s : string) :
  s <> EmptyString -> decode_char s = None -> decode_char (s ++ "}") = None.
Proof.
  unfold decode_char.
  destruct s as [|b0 [|b1 [|b2 [|b3 s]]]]; [contradiction|..]; intros _;
    cbn [append]; change (continuation "}") with false;
    repeat match goal with
           | |- context [continuation ?b] => destruct (continuation b)
           end;
    rewrite ?andb_false_r; cbn [andb];
    repeat match goal with
           | |- context [if ?b then _ else _] => destruct b
           end;
    try discriminate; reflexivity.
Qed.

Lemma digit_len_brace (s : string) :
  s <> EmptyString -> digit_len s = 0 -> digit_len (s ++ "}") = 0.
Proof.
  intros Hs. unfold digit_len.
  destruct (decode_char s) as [[cp k]|] eqn:E.
  - now rewrite (decode_char_app _ "}" _ _ E).
  - now rewrite decode_char_brace.
Qed.

Lemma digit_free_head (s : string) : digit_free s = true -> digit_len s = 0.
Proof.
  destruct s as [|c s]; [reflexivity|]. cbn [digit_free].
  intros H. apply andb_true_iff in H as [H _]. now apply Nat.eqb_eq.
Qed.

Lemma digit_free_app (a b : string) :
  digit_free (a ++ b) = true -> digit_free b = true.
Proof.
  induction a as [|c a IH]; [auto|]. cbn [append digit_free].
  intros H. apply andb_true_iff in H as [_ H]. auto.
Qed.

Lemma digit_free_brace (x : string) :
  digit_free x = true -> digit_free (x ++ "}") = true.
Proof.
  induction x as [|c x IH]; [reflexivity|].
  intros H. pose proof (digit_free_head _ H) as Hd.
  cbn [digit_free] in H. apply andb_true_iff in H as [_ H].
  change (String c x ++ "}")%string with (String c (x ++ "}")).
  cbn [digit_free]. rewrite (IH H), andb_true_r.
  apply Nat.eqb_eq.
  change (String c (x ++ "}")) with (String c x ++ "}")%string.
  now apply digit_len_brace.
Qed.

Lemma span_chars_none (clen : string -> nat) (s : string) :
  clen s = 0 -> span_chars clen s = (EmptyString, s).
Proof.
  intros H. destruct s as [|c s]; [reflexivity|].
  unfold span_chars. cbn [span_chars_from]. now rewrite H.
Qed.
End Characters.
(* ================================================================= *)
(** * How the emitters change the converter *)

Section Frame.
Import PyStr.
Open Scope nat_scope.

Lemma evolves_refl (self : Converter) : evolves self self.
Proof.
  unfold evolves. repeat split; auto.
  exists []. rewrite app_nil_r. repeat split. intros _. cbn. lia.
Qed.

Lemma count_tables_app (bs1 bs2 : list Block) :
  count_tables (bs1 ++ bs2) = count_tables bs1 + count_tables bs2.
Proof.
  unfold count_tables. now rewrite filter_app, length_app.
Qed.

Lemma evolves_trans (a b c : Converter) :
  evolves a b -> evolves b c -> evolves a c.
Proof.
  intros (Hs1 & Hl1 & Hoff1 & Hpos1 & bs1 & Hd1 & Hb1 & Ht1)
         (Hs2 & Hl2 & Hoff2 & Hpos2 & bs2 & Hd2 & Hb2 & Ht2).
  unfold evolves. repeat split.
  - congruence.
  - congruence.
  - intros H. rewrite Hoff2, Hoff1; auto. now rewrite Hs1.
  - auto.
  - exists (bs1 ++ bs2). rewrite Hd2, Hd1, <- app_assoc. repeat split.
    + rewrite forallb_app, Hb1, Hb2. reflexivity.
    + intros Hc. rewrite count_tables_app, Ht2, Ht1; [lia|assumption|].
      now rewrite Hs1.
Qed.

Lemma evolves_add_block (self : Converter) (b : Block) :
  is_bibliography_block b = false -> is_table b = false ->
  evolves self (add_block self b).
Proof.
  intros Hb Ht. unfold evolves; cbn. repeat split; auto.
  exists [b]. cbn. rewrite Hb. repeat split.
  unfold count_tables. cbn. rewrite Ht. cbn. lia.
Qed.

Lemma evolves_add_blocks (bs : list Block) :
  forall self,
    forallb (fun b => negb (is_bibliography_block b) && negb (is_table b)) bs = true ->
    evolves self (add_blocks self bs).
Proof.
  induction bs as [|b bs IH]; intros self H; cbn in *.
  - apply evolves_refl.
  - apply andb_true_iff in H as [Hb Hbs].
    apply andb_true_iff in Hb as [Hb Ht].
    eapply evolves_trans; [|apply IH; assumption].
    apply evolves_add_block;
      [now destruct (is_bibliography_block b)|now destruct (is_table b)].
Qed.

(** When the items format, the list is the blocks of its items. *)
Lemma add_list_items_ok (items : list list_item) :
  forall self self',
    add_list_items self items = Ok self' ->
    self' = add_blocks self (map list_block items).
Proof.
  induction items as [|it items IH]; intros self self'; cbn [add_list_items].
  - now intros [= <-].
  - destruct (formatted _); cbn [bind]; try discriminate.
    intros H. apply IH in H. exact H.
Qed.

Lemma process_list_ok self lines start i self' :
  process_list self lines start = Ok (i, self') ->
  exists j items,
    list_loop (skipn start lines) start [] = (j, items) /\
    i = (Z.of_nat j - 1)%Z /\
    self' = add_blocks self (map list_block items).
Proof.
  unfold process_list. destruct (list_loop _ _ _) as [j items].
  destruct (add_list_items self items) as [s| |] eqn:E; cbn [bind];
    try discriminate.
  intros [= <- <-]. exists j, items. repeat split.
  now apply add_list_items_ok.
Qed.

Lemma evolves_process_list self lines start i self' :
  process_list self lines start = Ok (i, self') -> evolves self self'.
Proof.
  intros H. apply process_list_ok in H as (j & items & _ & _ & ->).
  apply evolves_add_blocks.
  induction items as [|[[k t] l] items IH]; [reflexivity|exact IH].
Qed.

(** A table that is emitted comes with one caption and one step of the
    counter, before it or after it. *)
Lemma evolves_process_table self lines start i self' :
  process_table self lines start = (i, self') -> evolves self self'.
Proof.
  unfold process_table. destruct (table_loop _ _ _) as [j table_lines].
  destruct (_ <? 2)%nat; intros [= _ <-]; [apply evolves_refl|].
  set (T := table_block table_lines).
  set (n := (table_counter self + 1)%Z).
  unfold evolves, caption_configured, eqb.
  destruct (String.eqb_spec (table_caption_position (settings self)) "above")
    as [Ha|Ha].
  - cbn. rewrite Ha. cbn. repeat split; auto.
    exists [Caption n; T]. cbn.
    split; [now rewrite <- app_assoc|]. split; [reflexivity|].
    intros _. unfold n. lia.
  - cbn.
    destruct (String.eqb_spec (table_caption_position (settings self)) "below")
      as [Hb|Hb]; cbn; repeat split; auto.
    + exists [T; Caption n]. cbn.
      split; [now rewrite <- app_assoc|]. split; [reflexivity|].
      intros _. unfold n. lia.
    + exists [T]. split; [reflexivity|]. split; [reflexivity|].
      intros [H|H]; contradiction.
Qed.

Lemma evolves_process_code_block self lines start i self' :
  process_code_block self lines start = (i, self') -> evolves self self'.
Proof.
  unfold process_code_block. destruct (code_loop _ _ _) as [j code_lines].
  intros [= _ <-]. now apply evolves_add_block.
Qed.

End Frame.

(* ================================================================= *)
(** * The read cursor moves forward *)

Section Cursor.
Import PyStr.
Open Scope nat_scope.

Lemma skipn_nth (lines : list string) (i : nat) :
  i < List.length lines ->
  skipn i lines = nth i lines EmptyString :: skipn (S i) lines.
Proof.
  revert i. induction lines as [|l lines IH]; intros i Hi; cbn in Hi; [lia|].
  destruct i as [|i]; [reflexivity|]. cbn [skipn nth]. apply IH. lia.
Qed.

Lemma list_loop_ge (rest : list string) :
  forall i items j items',
    list_loop rest i items = (j, items') -> i <= j.
Proof.
  induction rest as [|l rest IH]; intros i items j items'; cbn [list_loop].
  - intros [= <- _]. lia.
  - destruct (Re.bullet _); [intros H; apply IH in H; lia|].
    destruct (Re.numbered _); [intros H; apply IH in H; lia|].
    destruct (Re.nested Re.bullet _); [intros H; apply IH in H; lia|].
    destruct (Re.nested Re.numbered _); [intros H; apply IH in H; lia|].
    destruct (eqb _ EmptyString); [intros H; apply IH in H; lia|].
    intros [= <- _]. lia.
Qed.

Lemma table_loop_ge (rest : list string) :
  forall i acc j acc',
    table_loop rest i acc = (j, acc') -> i <= j.
Proof.
  induction rest as [|l rest IH]; intros i acc j acc'; cbn [table_loop].
  - intros [= <- _]. lia.
  - destruct (contains _ _); [intros H; apply IH in H; lia|].
    destruct (eqb _ EmptyString); [intros H; apply IH in H; lia|].
    intros [= <- _]. lia.
Qed.

Lemma code_loop_ge (rest : list string) :
  forall i acc j acc',
    code_loop rest i acc = (j, acc') -> i <= j.
Proof.
  induction rest as [|l rest IH]; intros i acc j acc'; cbn [code_loop].
  - intros [= <- _]. lia.
  - destruct (startswith _ _); [intros [= <- _]; lia|].
    intros H; apply IH in H; lia.
Qed.

Lemma bib_loop_ge (rest : list string) :
  forall i acc j acc',
    bib_loop rest i acc = (j, acc') -> i <= j.
Proof.
  induction rest as [|l rest IH]; intros i acc j acc'; cbn [bib_loop].
  - intros [= <- _]. lia.
  - destruct (Re.numbered _); [intros H; apply IH in H; lia|].
    destruct (eqb _ EmptyString); [intros H; apply IH in H; lia|].
    intros [= <- _]. lia.
Qed.

Lemma process_list_cursor self lines i j self' :
  i < List.length lines ->
  match Re.bullet (strip (nth i lines EmptyString)) with Some _ => true | None => false end
  || match Re.numbered (strip (nth i lines EmptyString)) with Some _ => true | None => false end
  = true ->
  process_list self lines i = Ok (j, self') -> (Z.of_nat i <= j)%Z.
Proof.
  intros Hi Hm H. apply process_list_ok in H as (k & items & E & -> & _).
  rewrite skipn_nth in E by assumption. cbn [list_loop] in E.
  destruct (Re.bullet _).
  - apply list_loop_ge in E. lia.
  - destruct (Re.numbered _); [|discriminate Hm].
    apply list_loop_ge in E. lia.
Qed.

Lemma process_table_cursor self lines i j self' :
  i < List.length lines ->
  contains "|" (strip (nth i lines EmptyString)) = true ->
  process_table self lines i = (j, self') -> i <= j.
Proof.
  intros Hi Hm. unfold process_table. rewrite skipn_nth by assumption.
  cbn [table_loop]. rewrite Hm.
  destruct (table_loop _ _ _) as [k tl] eqn:E.
  apply table_loop_ge in E.
  destruct (_ <? 2)%nat; intros [= <- _]; lia.
Qed.

Lemma process_code_block_cursor self lines i j self' :
  process_code_block self lines i = (j, self') -> i < j.
Proof.
  unfold process_code_block.
  destruct (code_loop _ _ _) as [k cl] eqn:E.
  apply code_loop_ge in E. intros [= <- _]. lia.
Qed.

Lemma process_bibliography_cursor self lines i j self' :
  process_bibliography self lines (i + 1) = (j, self') -> (Z.of_nat i <= j)%Z.
Proof.
  unfold process_bibliography.
  destruct (bib_loop _ _ _) as [k cl] eqn:E.
  apply bib_loop_ge in E. intros [= <- _]. lia.
Qed.

End Cursor.

(* ================================================================= *)
(** * The bibliography branch of [convert] *)

Section Bibliography.
Import PyStr.
Open Scope nat_scope.

Lemma span_hash_head (s : string) :
  fst (span (Ascii.eqb "#") s) <> EmptyString -> startswith s "#" = true.
Proof.
  destruct s as [|c s]; cbn [span startswith]; [cbn; congruence|].
  destruct (Ascii.eqb "#"%char c); [reflexivity|].
  cbn. congruence.
Qed.

Lemma fold_ascii_hash (c : ascii) : Re.fold_ascii c = "#"%char -> c = "#"%char.
Proof.
  destruct c as [[] [] [] [] [] [] [] []]; vm_compute; congruence.
Qed.

Lemma fold_at_hash (s t u : string) (k : nat) :
  Re.fold_at s = Some (t, k) -> startswith (t ++ u) "#" = false.
Proof.
  unfold Re.fold_at. destruct s as [|c [|d r]]; try discriminate.
  repeat match goal with
         | |- context [if ?b then _ else _] => destruct b
         | |- context [match ?r with EmptyString => _ | String _ _ => _ end] =>
             destruct r
         end;
    try discriminate; intros [= <- _]; reflexivity.
Qed.

Lemma casefold_hash (s : string) :
  startswith (Re.casefold s) "#" = true -> startswith s "#" = true.
Proof.
  destruct s as [|c s]; [discriminate|].
  unfold Re.casefold. cbn [Re.casefold_from].
  destruct (Re.fold_at (String c s)) as [[t k]|] eqn:E.
  - rewrite (fold_at_hash _ _ _ _ E). discriminate.
  - cbn [startswith].
    destruct (Ascii.eqb_spec "#"%char (Re.fold_ascii c)) as [H|]; [|discriminate].
    symmetry in H. apply fold_ascii_hash in H. subst c. reflexivity.
Qed.

(** Whatever the title, a line the bibliography pattern matches starts
    with ['#'], and [convert] has taken the heading branch before it
    tests the pattern. *)
Lemma bibliography_is_heading_line (s : string) :
  Re.bibliography s = true -> startswith s "#" = true.
Proof.
  unfold Re.bibliography. intros H. apply casefold_hash.
  apply span_hash_head.
  destruct (span _ (Re.casefold s)) as [[|h hs] rest]; [discriminate|].
  discriminate.
Qed.

End Bibliography.

(* ================================================================= *)
(** * The main pass: what an iteration and the loop can do *)

Section MainPass.
Import PyStr PyListFacts.
Open Scope nat_scope.

Lemma heading_level (s : string) (level : Z) (title : string) :
  Re.heading s = Some (level, title) -> (1 <= level <= 6)%Z.
Proof.
  unfold Re.heading. destruct (span _ s) as [hashes rest].
  destruct (_ && _) eqn:E; [|discriminate].
  destruct (Re.ws_plus_dot_plus rest); [|discriminate].
  intros [= <- _]. apply andb_true_iff in E as [E1 E2].
  apply Nat.leb_le in E1, E2. lia.
Qed.

(** With six counters and a level from 1 to 6 no index is out of range. *)
Lemma generate_heading_number_ok (self : Converter) (level : Z) :
  auto_numbering_headings (settings self) = false \/
  List.length (heading_counters self) = 6 ->
  (1 <= level <= 6)%Z ->
  exists number self',
    generate_heading_number self level = Ok (number, self') /\
    evolves self self' /\ doc self' = doc self.
Proof.
  intros Hinv Hlevel. unfold generate_heading_number.
  destruct (auto_numbering_headings (settings self)) eqn:Hauto; cbn [negb].
  2: { exists EmptyString, self. auto using evolves_refl. }
  destruct Hinv as [Hoff|Hlen]; [discriminate|].
  set (hc := heading_counters self) in *.
  rewrite (get_in_range hc _ 0%Z) by lia. cbn [indexed bind].
  rewrite set_in_range by lia. cbn [indexed bind].
  set (hc1 := PyList.update hc _ _).
  destruct (reset_counters_range level (Z.to_nat (6 - level)) 0 hc1)
    as (hc2 & Hrun & Hlen2 & Hnth & Hpos2); [lia| |].
  { unfold hc1. rewrite update_length. lia. }
  unfold PyList.range at 1. rewrite Hrun. cbn [indexed bind].
  unfold hc1 in Hlen2. rewrite update_length in Hlen2.
  assert (Hev : evolves self (set_heading_counters self hc2)).
  { unfold evolves; cbn. repeat split; auto; try lia.
    - rewrite Hauto. discriminate.
    - intros Hpos. apply Hpos2. apply Forall_update; [assumption|].
      assert (0 <= nth (Z.to_nat (level - 1)) hc 0)%Z; [|lia].
      apply (proj1 (Forall_forall _ hc) Hpos). apply nth_In. lia.
    - exists []. rewrite app_nil_r. repeat split. intros _. cbn. lia. }
  destruct (eqb _ "simple").
  - rewrite (get_in_range hc2 _ 0%Z) by lia. cbn [indexed bind].
    eexists. eexists. split; [reflexivity|]. split; [exact Hev|reflexivity].
  - unfold PyList.range. replace (level - 0)%Z with level by lia.
    rewrite collect_numbers_range by lia. cbn [indexed bind].
    eexists. eexists. split; [reflexivity|]. split; [exact Hev|reflexivity].
Qed.

Lemma formatted_cases (text : string) :
  (exists runs, formatted text = Ok runs) \/ formatted text = Raise AttributeError.
Proof.
  unfold formatted. destruct (Inline.process_text_formatting text); eauto.
Qed.

Lemma add_list_items_cases (items : list list_item) :
  forall self,
    add_list_items self items = Ok (add_blocks self (map list_block items)) \/
    add_list_items self items = Raise AttributeError.
Proof.
  induction items as [|it items IH]; intros self; cbn [add_list_items].
  - now left.
  - destruct (formatted_cases (snd (fst it))) as [[runs ->]| ->]; cbn [bind];
      [apply IH|now right].
Qed.

(** One iteration, for a converter with numbering off or six counters:
    either it returns, with the cursor moved forward and the converter
    evolved, or the formatting of a text has raised [AttributeError]. *)
Lemma step_cases (lines : list string) (i : nat) (self : Converter) (defs : Py.dict) :
  i < List.length lines ->
  auto_numbering_headings (settings self) = false \/
  List.length (heading_counters self) = 6 ->
  (exists i' self' defs',
     step lines i self defs = Ok (i', self', defs') /\
     i < i' /\ evolves self self') \/
  step lines i self defs = Raise AttributeError.
Proof.
  intros Hi Hinv. unfold step.
  destruct (eqb (strip (nth i lines EmptyString)) EmptyString).
  { left. do 3 eexists. split; [reflexivity|]. split; [lia|apply evolves_refl]. }
  destruct (Re.footnote_def _) as [[num text]|].
  { left. do 3 eexists. split; [reflexivity|]. split; [lia|apply evolves_refl]. }
  destruct (startswith _ "#") eqn:Hhash.
  { destruct (Re.heading _) as [[level title]|] eqn:Hhead.
    - apply heading_level in Hhead.
      set (self1 := if (level =? 2)%Z then add_block self PageBreak else self).
      assert (Hev1 : evolves self self1).
      { unfold self1. destruct (level =? 2)%Z;
          [now apply evolves_add_block|apply evolves_refl]. }
      destruct (generate_heading_number_ok self1 level)
        as (number & self2 & Hgen & Hev2 & _); [|assumption|].
      { destruct Hev1 as (Hs & Hl & _). rewrite Hs, Hl. exact Hinv. }
      rewrite Hgen. cbn [bind].
      destruct (formatted_cases (number ++ title)) as [[runs ->]| ->];
        cbn [bind]; [left|now right].
      do 3 eexists. split; [reflexivity|]. split; [lia|].
      eapply evolves_trans; [exact Hev1|].
      eapply evolves_trans; [exact Hev2|]. now apply evolves_add_block.
    - cbn [bind]. left. do 3 eexists. split; [reflexivity|].
      split; [lia|apply evolves_refl]. }
  destruct (startswith _ "```").
  { destruct (process_code_block self lines i) as [j self'] eqn:E. cbn [bind].
    left. do 3 eexists. split; [reflexivity|]. split.
    - apply process_code_block_cursor in E. lia.
    - eapply evolves_process_code_block; exact E. }
  destruct (contains "|" _) eqn:Hpipe.
  { destruct (process_table self lines i) as [j self'] eqn:E. cbn [bind].
    left. do 3 eexists. split; [reflexivity|]. split.
    - apply process_table_cursor in E; [lia|assumption|assumption].
    - eapply evolves_process_table; exact E. }
  destruct (_ || _) eqn:Hlist.
  { destruct (process_list self lines i) as [[j self']|e|] eqn:E; cbn [bind].
    - left. do 3 eexists. split; [reflexivity|]. split.
      + apply process_list_cursor in E; [lia|assumption|assumption].
      + eapply evolves_process_list; exact E.
    - right. revert E. unfold process_list.
      destruct (list_loop _ _ _) as [k items].
      destruct (add_list_items_cases items self) as [-> | ->]; cbn [bind];
        congruence.
    - exfalso. revert E. unfold process_list.
      destruct (list_loop _ _ _) as [k items].
      destruct (add_list_items_cases items self) as [-> | ->]; cbn [bind];
        discriminate. }
  destruct (Re.bibliography _) eqn:Hbib.
  { apply bibliography_is_heading_line in Hbib. congruence. }
  destruct (startswith _ ">").
  { destruct (formatted_cases (Re.unquote (strip (nth i lines EmptyString))))
      as [[runs ->]| ->]; cbn [bind]; [left|now right].
    do 3 eexists. split; [reflexivity|]. split; [lia|].
    now apply evolves_add_block. }
  destruct (existsb _ _).
  { cbn [bind]. left. do 3 eexists. split; [reflexivity|]. split; [lia|].
    now apply evolves_add_block. }
  destruct (formatted_cases (strip (nth i lines EmptyString)))
    as [[runs ->]| ->]; cbn [bind]; [left|now right].
  do 3 eexists. split; [reflexivity|]. split; [lia|].
  now apply evolves_add_block.
Qed.

(** The loop, with a unit of fuel for each line that is left. *)
Lemma main_loop_cases (lines : list string) (fuel : nat) :
  forall (i : nat) (self : Converter) (defs : Py.dict),
    List.length lines - i <= fuel ->
    auto_numbering_headings (settings self) = false \/
    List.length (heading_counters self) = 6 ->
    (exists self' defs',
       main_loop fuel lines i self defs = Ok (self', defs') /\
       evolves self self') \/
    main_loop fuel lines i self defs = Raise AttributeError.
Proof.
  induction fuel as [|fuel IH]; intros i self defs Hfuel Hinv.
  - cbn [main_loop].
    replace (i <? List.length lines) with false
      by (symmetry; apply Nat.ltb_ge; lia).
    left. do 2 eexists. split; [reflexivity|apply evolves_refl].
  - cbn [main_loop]. destruct (Nat.ltb_spec i (List.length lines)) as [Hi|Hi].
    + destruct (step_cases lines i self defs Hi Hinv)
        as [(i' & self1 & defs1 & Hstep & Hlt & Hev)|Hstep];
        rewrite Hstep; cbn [bind]; [|now right].
      destruct (IH i' self1 defs1) as [(self' & defs' & Hrun & Hev')|Hrun];
        [lia| | |].
      { destruct Hev as (Hs & Hl & _). rewrite Hs, Hl. exact Hinv. }
      * left. exists self', defs'. split; [exact Hrun|].
        eapply evolves_trans; eassumption.
      * now right.
    + left. do 2 eexists. split; [reflexivity|apply evolves_refl].
Qed.

End MainPass.

(* ================================================================= *)
(** * [sorted] sorts *)

Section SortedFacts.
Context {A : Type} (leb : A -> A -> bool).
Hypothesis leb_total : forall a b, leb a b = true \/ leb b a = true.

Let le (a b : A) : Prop := leb a b = true.

Lemma insert_perm (x : A) (l : list A) : Permutation (Py.insert leb x l) (x :: l).
Proof.
  induction l as [|y l IH]; cbn; [reflexivity|].
  destruct (leb x y); [reflexivity|].
  rewrite IH. apply perm_swap.
Qed.

Lemma sorted_perm (l : list A) : Permutation (Py.sorted leb l) l.
Proof.
  induction l as [|x l IH]; cbn; [reflexivity|].
  rewrite insert_perm. now constructor.
Qed.

Lemma insert_hd (x a : A) (l : list A) :
  le a x -> HdRel le a l -> HdRel le a (Py.insert leb x l).
Proof.
  intros Hax Hl. destruct l as [|y l]; cbn; [now constructor|].
  destruct (leb x y); constructor; [assumption|].
  now inversion Hl.
Qed.

Lemma insert_sorted (x : A) (l : list A) :
  Sorted le l -> Sorted le (Py.insert leb x l).
Proof.
  induction 1 as [|y l Hl IH Hhd]; cbn.
  - repeat constructor.
  - destruct (leb x y) eqn:E.
    + repeat constructor; assumption.
    + constructor; [assumption|].
      apply insert_hd; [|assumption].
      destruct (leb_total x y) as [H|H]; [congruence|exact H].
Qed.

Lemma sorted_sorted (l : list A) : Sorted le (Py.sorted leb l).
Proof.
  induction l as [|x l IH]; cbn; [constructor|].
  now apply insert_sorted.
Qed.

End SortedFacts.

(* ================================================================= *)
(** * The footnote dictionary *)

Section Footnotes.
Import PyStr.
Open Scope nat_scope.

Lemma int_leb_total (a b : string) :
  Py.int_leb a b = true \/ Py.int_leb b a = true.
Proof.
  unfold Py.int_leb. destruct (int a) as [x|], (int b) as [y|]; auto.
  destruct (Z.leb_spec x y); [now left|right].
  apply Z.leb_le. lia.
Qed.

Lemma keys_dict_set (d : Py.dict) (k v : string) :
  Py.keys (Py.dict_set d k v) =
  if existsb (fun k' => eqb k' k) (Py.keys d) then Py.keys d
  else Py.keys d ++ [k].
Proof.
  unfold Py.keys.
  induction d as [|[k' v'] d IH]; cbn [Py.dict_set map fst existsb];
    [reflexivity|].
  destruct (eqb k' k); cbn [map fst orb]; [reflexivity|].
  rewrite IH. now destruct (existsb _ _).
Qed.

Lemma dict_set_nodup (d : Py.dict) (k v : string) :
  NoDup (Py.keys d) -> NoDup (Py.keys (Py.dict_set d k v)).
Proof.
  intros H. rewrite keys_dict_set.
  destruct (existsb _ _) eqn:E; [assumption|].
  apply NoDup_app; [assumption|repeat constructor; intros []|].
  intros x Hx [Hk|[]]. subst x.
  assert (existsb (fun k' => eqb k' k) (Py.keys d) = true); [|congruence].
  apply existsb_exists. exists k. split; [assumption|apply String.eqb_refl].
Qed.

(** Looking up the keys of a dictionary gives back its items. *)
Lemma dict_items (d : Py.dict) :
  NoDup (Py.keys d) ->
  forall k v, In (k, v) d -> Py.dict_get d k = Some v.
Proof.
  induction d as [|[k' v'] d IH]; intros Hnd k v; [intros []|].
  cbn in Hnd. inversion Hnd as [|? ? Hnotin Hnd']; subst.
  intros [[= -> ->]|Hin]; cbn [Py.dict_get].
  - unfold eqb. now rewrite String.eqb_refl.
  - destruct (String.eqb_spec k' k) as [->|Hne]; unfold eqb.
    + exfalso. apply Hnotin. apply in_map_iff. now exists (k, v).
    + destruct (String.eqb_spec k' k); [contradiction|]. now apply IH.
Qed.

Lemma footnote_loop_items (d : Py.dict) (fs : list (string * string)) :
  NoDup (Py.keys d) ->
  (forall kv, In kv fs -> In kv d) ->
  forall self,
    footnote_loop self d (map fst fs) =
    Some (add_blocks self (map (fun kv => Footnote (fst kv) (snd kv)) fs)).
Proof.
  intros Hnd. induction fs as [|[k v] fs IH]; intros Hin self; [reflexivity|].
  cbn [map fst footnote_loop].
  rewrite (dict_items d Hnd k v) by (apply Hin; now left).
  rewrite IH by (intros kv H; apply Hin; now right).
  reflexivity.
Qed.

End Footnotes.

(* ================================================================= *)
(** * The footnotes at the end of the document *)

Section FootnoteOrder.
Import PyStr.
Open Scope nat_scope.

Lemma insert_map {A B} (f : A -> B) (leb : B -> B -> bool) (x : A) (l : list A) :
  map f (Py.insert (fun a b => leb (f a) (f b)) x l) = Py.insert leb (f x) (map f l).
Proof.
  induction l as [|y l IH]; cbn; [reflexivity|].
  destruct (leb (f x) (f y)); cbn; [reflexivity|]. now rewrite IH.
Qed.

Lemma sorted_map {A B} (f : A -> B) (leb : B -> B -> bool) (l : list A) :
  map f (Py.sorted (fun a b => leb (f a) (f b)) l) = Py.sorted leb (map f l).
Proof.
  induction l as [|x l IH]; cbn; [reflexivity|].
  now rewrite insert_map, IH.
Qed.

Lemma step_defs_nodup lines i self defs i' self' defs' :
  step lines i self defs = Ok (i', self', defs') ->
  NoDup (Py.keys defs) -> NoDup (Py.keys defs').
Proof.
  unfold step.
  destruct (eqb _ EmptyString); [intros [= _ _ <-]; auto|].
  destruct (Re.footnote_def _) as [[num text]|].
  - intros [= _ _ <-]. apply dict_set_nodup.
  - match goal with |- bind ?m _ = _ -> _ => destruct m as [[j c]| |] end;
      cbn [bind]; [|discriminate|discriminate].
    intros [= _ _ <-]. auto.
Qed.

Lemma main_loop_defs_nodup (lines : list string) (fuel : nat) :
  forall i self defs self' defs',
    main_loop fuel lines i self defs = Ok (self', defs') ->
    NoDup (Py.keys defs) -> NoDup (Py.keys defs').
Proof.
  induction fuel as [|fuel IH]; intros i self defs self' defs'; cbn [main_loop];
    destruct (i <? List.length lines); try discriminate;
    try (intros [= _ <-]; now auto).
  destruct (step lines i self defs) as [[[j c] d]| |] eqn:E; cbn [bind];
    try discriminate.
  intros Hrun Hnd. eapply IH; [exact Hrun|].
  eapply step_defs_nodup; eassumption.
Qed.

(** The numbers [int] reads. *)
Lemma sorted_by_int_read (l : list string) :
  Forall (fun k => int k <> None) l ->
  Py.sorted_by_int l = Some (Py.sorted Py.int_leb l).
Proof.
  intros H. unfold Py.sorted_by_int.
  replace (forallb _ l) with true; [reflexivity|].
  symmetry. apply forallb_forall. intros k Hk.
  rewrite Forall_forall in H. specialize (H k Hk). now destruct (int k).
Qed.

Lemma sorted_by_int_unread (l : list string) :
  ~ Forall (fun k => int k <> None) l -> Py.sorted_by_int l = None.
Proof.
  intros H. unfold Py.sorted_by_int.
  destruct (forallb _ l) eqn:E; [|reflexivity].
  exfalso. apply H. apply Forall_forall. intros k Hk.
  rewrite forallb_forall in E. specialize (E k Hk). now destruct (int k).
Qed.

Lemma add_footnotes_sorted (self : Converter) (defs : Py.dict) :
  NoDup (Py.keys defs) ->
  Forall (fun k => int k <> None) (Py.keys defs) ->
  add_footnotes self defs =
  Ok (add_blocks self
        match Py.sorted item_leb defs with
        | [] => []
        | _ => Separator :: map (fun kv => Footnote (fst kv) (snd kv))
                             (Py.sorted item_leb defs)
        end).
Proof.
  intros Hnd Hread. destruct defs as [|d defs'] eqn:Hdefs; [reflexivity|].
  rewrite <- Hdefs in *. unfold add_footnotes. rewrite Hdefs at 1.
  rewrite sorted_by_int_read by assumption.
  unfold Py.keys. rewrite <- (sorted_map fst Py.int_leb defs).
  fold item_leb.
  assert (Hperm : Permutation (Py.sorted item_leb defs) defs) by apply sorted_perm.
  rewrite footnote_loop_items.
  - destruct (Py.sorted item_leb defs) as [|f fs'] eqn:Hfs; [|reflexivity].
    apply Permutation_nil in Hperm. congruence.
  - exact Hnd.
  - intros kv Hin. eapply Permutation_in; eassumption.
Qed.

Lemma add_footnotes_unread (self : Converter) (defs : Py.dict) :
  ~ Forall (fun k => int k <> None) (Py.keys defs) ->
  add_footnotes self defs = Raise ValueError.
Proof.
  intros H. unfold add_footnotes. destruct defs as [|d defs'].
  - exfalso. apply H. constructor.
  - now rewrite sorted_by_int_unread.
Qed.

Lemma read_dec (l : list string) :
  Forall (fun k => int k <> None) l \/ ~ Forall (fun k => int k <> None) l.
Proof.
  induction l as [|k l [IH|IH]].
  - left. constructor.
  - destruct (int k) eqn:E.
    + left. constructor; [congruence|assumption].
    + right. intros H. inversion H. congruence.
  - right. intros H. inversion H. contradiction.
Qed.

(** The order [sorted] leaves the items in is the order of the numbers
    their keys denote. *)
Lemma sorted_key_le (fs : list (string * string)) :
  Forall (fun kv => int (fst kv) <> None) fs ->
  Sorted (fun a b => item_leb a b = true) fs -> Sorted key_le fs.
Proof.
  intros Hread Hs. induction Hs as [|a l Hl IH Hhd]; [constructor|].
  inversion Hread as [|? ? Ha Hrest]; subst.
  constructor; [now apply IH|].
  destruct Hhd as [|b l' Hab]; constructor.
  inversion Hrest as [|? ? Hb _]; subst.
  unfold key_le. unfold item_leb, Py.int_leb in Hab.
  destruct (int (fst a)) as [x|]; [|contradiction].
  destruct (int (fst b)) as [y|]; [|contradiction].
  exists x, y. repeat split. now apply Z.leb_le.
Qed.

(** C5, as the claim states it, fails on a number of more than 4300
    digits: [int] raises [ValueError] when the keys are sorted, and no
    footnote is emitted. *)
Lemma long_footnote_number_raises :
  let num := repeat_char "1" 4301 in
  let lines := [("[^" ++ num ++ "]: x")%string] in
  main_loop (List.length lines) lines 0 (new_converter default_settings) [] =
    Ok (new_converter default_settings, [(num, "x")]) /\
  int num = None /\
  convert_lines (new_converter default_settings) lines = Raise ValueError.
Proof. vm_compute. repeat split. Qed.

(** C5, amended.  After the main pass over the lines, which collects the
    footnote definitions [defs] and leaves the converter [body], when
    [int] reads the number of every definition the conversion appends
    nothing if there is no definition, and otherwise a separator followed
    by one footnote block per definition: the blocks are the definitions
    in a different order ([Permutation]), ascending in the number their
    key denotes, whatever their order in the source. *)
Theorem footnotes_in_numeric_order (self body : Converter) (lines : list string)
    (defs : list (string * string)) :
  main_loop (List.length lines) lines 0 self [] = Ok (body, defs) ->
  Forall (fun kv => int (fst kv) <> None) defs ->
  exists fs : list (string * string),
    convert_lines self lines =
      Ok (add_blocks body
            match fs with
            | [] => []
            | _ => Separator :: map (fun kv => Footnote (fst kv) (snd kv)) fs
            end) /\
    Permutation fs defs /\
    Sorted key_le fs.
Proof.
  intros Hrun Hread.
  assert (Hnd : NoDup (Py.keys defs)).
  { eapply main_loop_defs_nodup; [exact Hrun|constructor]. }
  assert (Hperm : Permutation (Py.sorted item_leb defs) defs) by apply sorted_perm.
  exists (Py.sorted item_leb defs). split; [|split; [exact Hperm|]].
  - unfold convert_lines. rewrite Hrun. cbn [bind].
    apply add_footnotes_sorted; [exact Hnd|].
    unfold Py.keys. now apply Forall_map.
  - apply sorted_key_le.
    + eapply Permutation_Forall; [apply Permutation_sym; exact Hperm|exact Hread].
    + apply sorted_sorted. intros a b. apply int_leb_total.
Qed.

Lemma footnotes_in_numeric_order_witness :
  exists fs : list (string * string),
    convert_lines (new_converter default_settings) ["[^10]: x"; "[^2]: y"] =
      Ok (add_blocks (new_converter default_settings)
            match fs with
            | [] => []
            | _ => Separator :: map (fun kv => Footnote (fst kv) (snd kv)) fs
            end) /\
    Permutation fs [("10", "x"); ("2", "y")] /\
    Sorted key_le fs.
Proof.
  apply (footnotes_in_numeric_order (new_converter default_settings)
           (new_converter default_settings) ["[^10]: x"; "[^2]: y"]
           [("10", "x"); ("2", "y")]).
  - reflexivity.
  - repeat constructor; discriminate.
Defined.

(** The footnotes of the design document's example. *)
Example footnote_example :
  exists self',
    convert_lines (new_converter default_settings) ["[^10]: x"; "[^2]: y"] = Ok self' /\
    doc self' = [Separator; Footnote "2" "y"; Footnote "10" "x"].
Proof. eexists. split; [vm_compute; reflexivity|reflexivity]. Qed.

End FootnoteOrder.

(* ================================================================= *)
(** * Whole conversions: heading counters and tables *)

Section Conversions.
Import PyStr.
Open Scope nat_scope.

(** The whole pass, for a converter with numbering off or six counters:
    it returns with the converter evolved, or it raises the
    [AttributeError] of a text that does not format or the [ValueError]
    of a footnote number [int] does not read. *)
Lemma convert_lines_cases (self : Converter) (lines : list string) :
  auto_numbering_headings (settings self) = false \/
  List.length (heading_counters self) = 6 ->
  (exists self', convert_lines self lines = Ok self' /\ evolves self self') \/
  convert_lines self lines = Raise AttributeError \/
  convert_lines self lines = Raise ValueError.
Proof.
  intros Hinv. unfold convert_lines.
  destruct (main_loop_cases lines (List.length lines) 0 self [])
    as [(body & defs & Hrun & Hev)|Hrun]; [lia|assumption| |];
    rewrite Hrun; cbn [bind]; [|now right; left].
  assert (Hnd : NoDup (Py.keys defs)).
  { eapply main_loop_defs_nodup; [exact Hrun|constructor]. }
  destruct (read_dec (Py.keys defs)) as [Hread|Hread].
  - left. rewrite add_footnotes_sorted by assumption.
    eexists. split; [reflexivity|].
    eapply evolves_trans; [exact Hev|]. apply evolves_add_blocks.
    destruct (Py.sorted item_leb defs) as [|f fs]; [reflexivity|].
    cbn [forallb is_bibliography_block is_table negb andb].
    generalize (f :: fs). intros l. induction l; [reflexivity|exact IHl].
  - right. right. now apply add_footnotes_unread.
Qed.

Lemma convert_lines_evolves (self self' : Converter) (lines : list string) :
  auto_numbering_headings (settings self) = false \/
  List.length (heading_counters self) = 6 ->
  convert_lines self lines = Ok self' -> evolves self self'.
Proof.
  intros Hinv Hrun.
  destruct (convert_lines_cases self lines Hinv) as [(s & Hs & Hev)|[H|H]];
    congruence.
Qed.

(** The counters stay six and not negative over a whole conversion, so
    every heading of a source is numbered from counters that are. *)
Lemma counters_ok_preserved (self self' : Converter) (lines : list string) :
  counters_ok (heading_counters self) ->
  convert_lines self lines = Ok self' ->
  counters_ok (heading_counters self').
Proof.
  intros [Hlen Hpos] Hrun.
  apply convert_lines_evolves in Hrun; [|now right].
  destruct Hrun as (_ & Hl & _ & Hp & _). split; [congruence|auto].
Qed.

(** C10.  With the auto-numbering of headings off,
    [generate_heading_number] returns the empty string and the converter
    it was given, for every level, and every conversion that returns
    ends with the heading counters it started with. *)
Theorem numbering_off_keeps_counters (self : Converter) :
  auto_numbering_headings (settings self) = false ->
  (forall level : Z, generate_heading_number self level = Ok (EmptyString, self)) /\
  (forall (lines : list string) (self' : Converter),
     convert_lines self lines = Ok self' ->
     heading_counters self' = heading_counters self).
Proof.
  intros Hoff. split.
  - intros level. unfold generate_heading_number. now rewrite Hoff.
  - intros lines self' Hrun.
    apply convert_lines_evolves in Hrun; [|now left].
    destruct Hrun as (_ & _ & Hhc & _). now apply Hhc.
Qed.

Lemma numbering_off_keeps_counters_witness :
  (forall level : Z,
     generate_heading_number (new_converter default_settings) level =
     Ok (EmptyString, new_converter default_settings)) /\
  (forall (lines : list string) (self' : Converter),
     convert_lines (new_converter default_settings) lines = Ok self' ->
     heading_counters self' = heading_counters (new_converter default_settings)).
Proof.
  apply (numbering_off_keeps_counters (new_converter default_settings)).
  reflexivity.
Defined.

(** A conversion with numbering off, run on headings of three levels. *)
Example numbering_off_example :
  exists self',
    convert_lines (new_converter default_settings) ["# A"; "## B"; "### C"] =
      Ok self' /\
    doc self' = [Heading 1 "A"; PageBreak; Heading 2 "B"; Heading 3 "C"] /\
    heading_counters self' = [0; 0; 0; 0; 0; 0]%Z.
Proof. eexists. split; [vm_compute; reflexivity|]. split; reflexivity. Qed.

(** The headings of the design document's example. *)
Example numbering_example :
  exists self',
    convert_lines (new_converter numbered_settings)
      ["# A"; "## B"; "## C"; "# D"; "## E"] = Ok self' /\
    doc self' =
      [Heading 1 "1. A"; PageBreak; Heading 2 "1.1. B"; PageBreak;
       Heading 2 "1.2. C"; Heading 1 "2. D"; PageBreak; Heading 2 "2.1. E"] /\
    heading_counters self' = [2; 1; 0; 0; 0; 0]%Z.
Proof. eexists. split; [vm_compute; reflexivity|]. split; reflexivity. Qed.

(** C8.  When the table loop collects at least two lines and the caption
    position is "above" or "below", [process_table] adds one to the table
    counter and appends the caption with the new number and the table:
    the caption first for "above", the table first for "below". *)
Theorem table_caption_once (self : Converter) (lines : list string)
    (start_idx i : nat) (table_lines : list string) :
  caption_configured (settings self) ->
  table_loop (skipn start_idx lines) start_idx [] = (i, table_lines) ->
  2 <= List.length table_lines ->
  let self' := snd (process_table self lines start_idx) in
  let n := (table_counter self + 1)%Z in
  table_counter self' = n /\
  (table_caption_position (settings self) = "above" ->
   doc self' = doc self ++ [Caption n; table_block table_lines]) /\
  (table_caption_position (settings self) = "below" ->
   doc self' = doc self ++ [table_block table_lines; Caption n]).
Proof.
  intros Hpos Hloop Hlen. unfold process_table. rewrite Hloop.
  replace (List.length table_lines <? 2) with false
    by (symmetry; apply Nat.ltb_ge; lia).
  unfold eqb. destruct Hpos as [Hpos|Hpos]; rewrite Hpos; cbn.
  - rewrite Hpos. cbn. split; [reflexivity|]. split; [|discriminate].
    intros _. now rewrite <- app_assoc.
  - rewrite Hpos. cbn. split; [reflexivity|]. split; [discriminate|].
    intros _. now rewrite <- app_assoc.
Qed.

Lemma table_caption_once_witness :
  let self := new_converter default_settings in
  let lines := ["| a | b |"; "|---|---|"; "| 1 | 2 |"] in
  let self' := snd (process_table self lines 0) in
  table_counter self' = 1%Z /\
  (table_caption_position (settings self) = "above" ->
   doc self' = doc self ++ [Caption 1; table_block lines]) /\
  (table_caption_position (settings self) = "below" ->
   doc self' = doc self ++ [table_block lines; Caption 1]).
Proof.
  apply (table_caption_once (new_converter default_settings)
           ["| a | b |"; "|---|---|"; "| 1 | 2 |"] 0 3
           ["| a | b |"; "|---|---|"; "| 1 | 2 |"]).
  - left. reflexivity.
  - reflexivity.
  - simpl. lia.
Defined.

(** Over a whole conversion the counter equals the number of tables. *)
Lemma tables_counted (s : DocumentSettings) (lines : list string)
    (self' : Converter) :
  caption_configured s ->
  convert_lines (new_converter s) lines = Ok self' ->
  table_counter self' = Z.of_nat (count_tables (doc self')).
Proof.
  intros Hpos Hrun. apply convert_lines_evolves in Hrun; [|now right].
  destruct Hrun as (_ & _ & _ & _ & bs & Hdoc & _ & Htc).
  rewrite Hdoc, Htc by exact Hpos. reflexivity.
Qed.

End Conversions.


(* ================================================================= *)
(** * Lists, abandoned tables and the bibliography *)

Section LineKinds.
Import PyStr.
Open Scope nat_scope.

(** A stripped line does not start with white space. *)
Lemma strip_head (s : string) : space_len (strip s) = 0.
Proof.
  unfold strip. destruct (rstrip (lstrip s)) as [|c r] eqn:E; [reflexivity|].
  apply rstrip_head in E as (r' & E & x & ->).
  destruct (space_len (String c r)) as [|k] eqn:Ek; [reflexivity|].
  apply (space_len_app _ x) in Ek. cbn [append] in Ek.
  rewrite <- E, lstrip_head in Ek. discriminate.
Qed.

(** So the patterns with two leading spaces never match in
    [process_list], which strips the line before it looks at it. *)
Lemma nested_never_matches (marker : string -> option string) (l : string) :
  Re.nested marker (strip l) = None.
Proof.
  pose proof (strip_head l) as H.
  destruct (strip l) as [|c r]; [reflexivity|]. unfold Re.nested.
  destruct c as [[] [] [] [] [] [] [] []]; try reflexivity.
  discriminate H.
Qed.

Lemma list_loop_levels (rest : list string) :
  forall i items j items',
    list_loop rest i items = (j, items') ->
    Forall (fun it : list_item => snd it = 0%Z) items ->
    Forall (fun it : list_item => snd it = 0%Z) items'.
Proof.
  induction rest as [|l rest IH]; intros i items j items'; cbn [list_loop].
  - now intros [= _ <-].
  - rewrite !nested_never_matches.
    destruct (Re.bullet _).
    { intros H Hall. eapply IH; [exact H|].
      apply Forall_app. split; [assumption|now repeat constructor]. }
    destruct (Re.numbered _).
    { intros H Hall. eapply IH; [exact H|].
      apply Forall_app. split; [assumption|now repeat constructor]. }
    destruct (eqb _ EmptyString); [apply IH|].
    now intros [= _ <-].
Qed.

(** Every list item [process_list] emits has nesting level 0. *)
Lemma process_list_levels (self self' : Converter) (lines : list string)
    (start_idx : nat) (i : Z) :
  process_list self lines start_idx = Ok (i, self') ->
  exists items,
    doc self' = doc self ++ map list_block items /\
    Forall (fun it : list_item => snd it = 0%Z) items.
Proof.
  intros H. apply process_list_ok in H as (j & items & E & _ & ->).
  exists items. split.
  - generalize (map list_block items). intros bs. revert self.
    induction bs as [|b bs IH]; intros self; cbn; [now rewrite app_nil_r|].
    unfold add_blocks in IH. rewrite IH. cbn. now rewrite <- app_assoc.
  - eapply list_loop_levels; [exact E|constructor].
Qed.

(** C4.  The code on a list with lines that start with two spaces: the
    pattern for a nested item matches the line as written, but
    [process_list] tags every item with level 0 (blank lines are skipped
    and the list goes on).  A level 1 would be indented more than a
    level 0. *)
Theorem nested_item_gets_level_zero :
  let self := new_converter default_settings in
  let lines := ["- a"; "  - b"; EmptyString; "  1. c"; "- d"] in
  Re.nested Re.bullet "  - b" = Some "b" /\
  list_loop lines 0 [] =
    (5, [(bullet, "a", 0%Z); (bullet, "b", 0%Z); (number, "c", 0%Z);
         (bullet, "d", 0%Z)]) /\
  exists self',
    convert_lines self lines = Ok self' /\
    doc self' =
      [ListItem bullet 0 "a"; ListItem bullet 0 "b"; ListItem number 0 "c";
       ListItem bullet 0 "d"] /\
    (list_left_indent 0 < list_left_indent 1)%Z.
Proof.
  split; [reflexivity|]. split; [reflexivity|].
  eexists. split; [vm_compute; reflexivity|]. split; reflexivity.
Qed.

(** A line with a pipe that does not start a table of two lines leaves
    nothing in the document: [process_table] hands the cursor back and
    [convert] moves on to the next line. *)
Lemma abandoned_table_step (lines : list string) (i : nat) (self : Converter)
    (defs : Py.dict) :
  let stripped_line := strip (nth i lines EmptyString) in
  eqb stripped_line EmptyString = false ->
  Re.footnote_def stripped_line = None ->
  startswith stripped_line "#" = false ->
  startswith stripped_line "```" = false ->
  contains "|" stripped_line = true ->
  List.length (snd (table_loop (skipn i lines) i [])) < 2 ->
  step lines i self defs = Ok (i + 1, self, defs).
Proof.
  intros s H1 H2 H3 H4 H5 H6. unfold step. fold s.
  rewrite H1, H2, H3, H4, H5. unfold process_table.
  destruct (table_loop _ _ _) as [j tl]. cbn [snd] in H6.
  replace (List.length tl <? 2) with true by (symmetry; apply Nat.ltb_lt; lia).
  cbn [bind]. do 3 f_equal. lia.
Qed.

(** C2.  The code on the line "a | b" followed by "text": the table is
    abandoned, [process_table] returns the index it was given and an
    unchanged converter, the iteration of [convert] ends on the next line
    with nothing emitted, and the document holds the paragraph "text"
    only.  The line with the pipe is in no block. *)
Theorem abandoned_table_line_is_dropped :
  let self := new_converter default_settings in
  let lines := ["a | b"; "text"] in
  process_table self lines 0 = (0, self) /\
  step lines 0 self [] = Ok (1, self, []) /\
  exists self',
    convert_lines self lines = Ok self' /\
    doc self' = [Paragraph "text"].
Proof.
  split; [reflexivity|]. split; [reflexivity|].
  eexists. split; [vm_compute; reflexivity|reflexivity].
Qed.

(** No conversion emits a bibliography block. *)
Lemma no_bibliography_blocks (s : DocumentSettings) (lines : list string)
    (self' : Converter) :
  convert_lines (new_converter s) lines = Ok self' ->
  forallb (fun b => negb (is_bibliography_block b)) (doc self') = true.
Proof.
  intros Hrun. apply convert_lines_evolves in Hrun; [|now right].
  destruct Hrun as (_ & _ & _ & _ & bs & Hdoc & Hbib & _).
  now rewrite Hdoc.
Qed.

(** C3.  The code on a "References" heading followed by two numbered
    lines: the bibliography pattern matches the heading and
    [process_bibliography] would emit the two entries, but [convert]
    emits the heading and two items of a numbered list. *)
Theorem bibliography_lines_become_a_list :
  let self := new_converter default_settings in
  let lines := ["# References"; "1. Foo"; "2. Bar"] in
  Re.bibliography "# References" = true /\
  doc (snd (process_bibliography self lines 1)) =
    [BibHeading; BibEntry 1 "Foo"; BibEntry 2 "Bar"] /\
  exists self',
    convert_lines self lines = Ok self' /\
    doc self' =
      [Heading 1 "References"; ListItem number 0 "Foo"; ListItem number 0 "Bar"].
Proof.
  split; [reflexivity|]. split; [reflexivity|].
  eexists. split; [vm_compute; reflexivity|reflexivity].
Qed.

End LineKinds.

(* ================================================================= *)
(** * Reading the source, and converting twice *)

Section Reading.
Import PyStr.
Open Scope nat_scope.

(** C6, as the claim states it, fails: a source that latin1 and cp1251
    decode, but UTF-8 does not, is rejected with the read error. *)
Lemma latin1_source_is_rejected :
  Codec.decodes Codec.latin1 cafe_latin1 = true /\
  Codec.decodes Codec.cp1251 cafe_latin1 = true /\
  existsb (fun e => Codec.decodes e cafe_latin1) Codec.encodings_priority = true /\
  convert (notes_env cafe_latin1) (new_converter default_settings)
    "notes.md" (Some "notes.docx") = Raise ReadError.
Proof. repeat split. Qed.

(** C6, amended.  [convert] with an output path fails with the read error
    exactly when the source cannot be opened or is not valid UTF-8, no
    other encoding being tried; when it returns, it returns the output
    path; and for a source that is read it returns exactly when the pass
    over the lines returns and the document can be saved. *)
Theorem convert_reads_utf8_only (env : Env) (self : Converter)
    (md_file_path output_path : string) :
  output_path <> EmptyString ->
  auto_numbering_headings (settings self) = false \/
  List.length (heading_counters self) = 6 ->
  (convert env self md_file_path (Some output_path) = Raise ReadError <->
   match read_bytes env md_file_path with
   | Some raw => Codec.utf8_valid raw = false
   | None => True
   end) /\
  (forall p self',
     convert env self md_file_path (Some output_path) = Ok (p, self') ->
     p = output_path) /\
  (forall raw self',
     read_bytes env md_file_path = Some raw ->
     Codec.utf8_valid raw = true ->
     (convert env self md_file_path (Some output_path) = Ok (output_path, self') <->
      convert_lines self (split LF (Codec.universal_newlines raw)) = Ok self' /\
      can_save env output_path = true)).
Proof.
  intros Hout Hinv. unfold convert, parse_markdown_file.
  destruct (String.eqb_spec output_path EmptyString) as [|_]; [contradiction|].
  unfold eqb. destruct (String.eqb_spec output_path EmptyString) as [|_]; [contradiction|].
  cbn [bind].
  destruct (read_bytes env md_file_path) as [raw|].
  2: { cbn [bind]. repeat split; intros; try discriminate; auto. }
  destruct (Codec.utf8_valid raw) eqn:Hvalid; cbn [bind].
  2: { repeat split; intros; try discriminate; try congruence; auto. }
  split; [|split].
  - split; [|discriminate].
    destruct (convert_lines_cases self
                (split LF (Codec.universal_newlines raw)) Hinv)
      as [(s & -> & _)|[-> | ->]]; cbn [bind]; try discriminate.
    destruct (can_save env output_path); discriminate.
  - intros p self'.
    destruct (convert_lines _ _); cbn [bind]; try discriminate.
    destruct (can_save env output_path); [|discriminate]. congruence.
  - intros raw' self' [= <-] _.
    destruct (convert_lines _ _) as [s|e|]; cbn [bind].
    + destruct (can_save env output_path); split.
      * intros [= <-]. now split.
      * intros [[= <-] _]. reflexivity.
      * discriminate.
      * intros [_ H]. discriminate H.
    + split; [discriminate|]. intros [H _]. discriminate H.
    + split; [discriminate|]. intros [H _]. discriminate H.
Qed.

Lemma convert_reads_utf8_only_witness :
  (convert (notes_env "# A") (new_converter default_settings) "notes.md"
     (Some "notes.docx") = Raise ReadError <->
   match read_bytes (notes_env "# A") "notes.md" with
   | Some raw => Codec.utf8_valid raw = false
   | None => True
   end) /\
  (forall p self',
     convert (notes_env "# A") (new_converter default_settings) "notes.md"
       (Some "notes.docx") = Ok (p, self') ->
     p = "notes.docx") /\
  (forall raw self',
     read_bytes (notes_env "# A") "notes.md" = Some raw ->
     Codec.utf8_valid raw = true ->
     (convert (notes_env "# A") (new_converter default_settings) "notes.md"
        (Some "notes.docx") = Ok ("notes.docx", self') <->
      convert_lines (new_converter default_settings)
        (split LF (Codec.universal_newlines raw)) = Ok self' /\
      can_save (notes_env "# A") "notes.docx" = true)).
Proof.
  apply (convert_reads_utf8_only (notes_env "# A")
           (new_converter default_settings) "notes.md" "notes.docx").
  - discriminate.
  - left. reflexivity.
Defined.

(** A source in UTF-8 that is read and converted. *)
Example utf8_source_is_converted :
  exists self',
    convert (notes_env "# A") (new_converter default_settings) "notes.md"
      (Some "notes.docx") = Ok ("notes.docx", self') /\
    doc self' = [Heading 1 "A"].
Proof. eexists. split; [vm_compute; reflexivity|reflexivity]. Qed.





End Reading.

(* ================================================================= *)
(** * The directory tree *)

Section Tree.
Import PyStr Reporter.
Open Scope nat_scope.

Lemma string_compare_trans (a : string) :
  forall b c,
    String.compare a b <> Gt -> String.compare b c <> Gt ->
    String.compare a c <> Gt.
Proof.
  induction a as [|x a IH]; intros [|y b] [|z c]; cbn; try congruence.
  unfold Ascii.compare.
  destruct (N.compare_spec (N_of_ascii x) (N_of_ascii y)) as [Hxy|Hxy|Hxy],
           (N.compare_spec (N_of_ascii y) (N_of_ascii z)) as [Hyz|Hyz|Hyz],
           (N.compare_spec (N_of_ascii x) (N_of_ascii z)) as [Hxz|Hxz|Hxz];
    try congruence; try lia.
  apply IH.
Qed.

Lemma leb_trans (a b c : string) :
  leb a b = true -> leb b c = true -> leb a c = true.
Proof.
  unfold leb, String.leb. intros Hab Hbc.
  assert (H := string_compare_trans a b c).
  destruct (String.compare a b), (String.compare b c), (String.compare a c);
    try discriminate; try reflexivity; exfalso; apply H; congruence.
Qed.

Lemma name_leb_total (a b : entry) :
  name_leb a b = true \/ name_leb b a = true.
Proof. apply String.leb_total. Qed.

Lemma name_le_trans : Relations_1.Transitive name_le.
Proof. intros a b c. apply leb_trans. Qed.

Lemma entries_sorted (l : list entry) : StronglySorted name_le (entries l).
Proof.
  apply Sorted_StronglySorted; [exact name_le_trans|].
  apply (sorted_sorted name_leb name_leb_total).
Qed.

Lemma filter_sorted (p : entry -> bool) (l : list entry) :
  StronglySorted name_le l -> StronglySorted name_le (filter p l).
Proof.
  induction 1 as [|e l Hl IH Hall]; cbn; [constructor|].
  destruct (p e); [|exact IH].
  constructor; [exact IH|].
  apply Forall_forall. intros x Hx. apply filter_In in Hx as [Hx _].
  exact (proj1 (Forall_forall _ _) Hall x Hx).
Qed.

Lemma In_entries (l : list entry) (e : entry) : In e (entries l) <-> In e l.
Proof.
  split; apply Permutation_in;
    [|apply Permutation_sym]; apply sorted_perm.
Qed.

Lemma In_all_items (l : list entry) (e : entry) :
  In e (all_items l) <->
  In e l /\ (isdir e || isfile e) = true /\ ignored (name e) = false.
Proof.
  unfold all_items, dirs, files. rewrite in_app_iff, !filter_In, !In_entries.
  destruct e as [n|n|n sub]; cbn [isdir isfile name orb andb];
    destruct (ignored n); cbn [negb andb]; intuition (try discriminate).
Qed.

Lemma append_assoc (a b c : string) : ((a ++ b) ++ c = a ++ (b ++ c))%string.
Proof. induction a as [|x a IH]; cbn; [reflexivity|now rewrite IH]. Qed.

Lemma depth_entry_dir (nm : string) (sub : option (list entry)) :
  depth_entry (Dir nm sub) = depth sub.
Proof. now destruct sub. Qed.

Lemma depth_child (l : list entry) (nm : string) (sub : option (list entry)) :
  In (Dir nm sub) (all_items l) -> S (depth sub) <= depth (Some l).
Proof.
  intros Hin. apply In_all_items in Hin as [Hin _].
  cbn [depth]. apply le_n_S. rewrite <- depth_entry_dir with (nm := nm).
  assert (H : Forall (fun k => k <= list_max (map depth_entry l)) (map depth_entry l))
    by now apply list_max_le.
  apply (proj1 (Forall_forall _ _) H). now apply in_map.
Qed.

(** The loop over the entries: one block of lines per entry, the entry's
    own line first, then the lines of its subtree. *)
Lemma scan_loop_blocks
    (scan : option (list entry) -> string -> outcome (list string))
    (n : nat) (prefix : string) (rest : list entry) :
  forall (i : nat) (items : list string),
    (forall nm sub p, In (Dir nm sub) rest -> exists r, scan sub p = Ok r) ->
    exists blocks : list (list string),
      scan_loop scan n rest i prefix items = Ok (items ++ List.concat blocks) /\
      List.length blocks = List.length rest /\
      forall k, k < List.length rest ->
        let item := nth k rest (File EmptyString) in
        let is_last_item := (i + k =? n - 1) in
        exists sub,
          nth k blocks [] =
            (current_prefix prefix is_last_item ++ name item)%string :: sub /\
          match item with
          | Dir _ listing =>
              scan listing (next_prefix prefix is_last_item) = Ok sub
          | _ => sub = []
          end.
Proof.
  induction rest as [|item rest IH]; intros i items Hscan.
  - exists []. cbn. rewrite app_nil_r. repeat split. intros k Hk. lia.
  - assert (Hrest : forall nm sub p, In (Dir nm sub) rest ->
                      exists r, scan sub p = Ok r).
    { intros nm sub p Hin. apply (Hscan nm sub p). now right. }
    set (line := (current_prefix prefix (i =? n - 1)%nat ++ name item)%string).
    assert (Hsub : exists sub,
               match item with
               | Dir _ listing =>
                   scan listing (next_prefix prefix (i =? n - 1)) = Ok sub
               | _ => sub = []
               end).
    { destruct item as [nm|nm|nm listing]; [now exists []|now exists []|].
      apply (Hscan nm listing). now left. }
    destruct Hsub as [sub Hsub].
    destruct (IH (S i) ((items ++ [line]) ++ sub) Hrest)
      as (blocks & Hrun & Hlen & Hblocks).
    exists ((line :: sub) :: blocks). split; [|split].
    + cbn [scan_loop]. fold line.
      replace (items ++ List.concat ((line :: sub) :: blocks))
        with (((items ++ [line]) ++ sub) ++ List.concat blocks)
        by (cbn [List.concat]; rewrite <- !app_assoc; reflexivity).
      destruct item as [nm|nm|nm listing].
      * subst sub. rewrite app_nil_r in Hrun. rewrite app_nil_r. exact Hrun.
      * subst sub. rewrite app_nil_r in Hrun. rewrite app_nil_r. exact Hrun.
      * rewrite Hsub. cbn [bind]. exact Hrun.
    + cbn [List.length]. now rewrite Hlen.
    + intros [|k] Hk.
      * cbn [nth]. rewrite Nat.add_0_r. exists sub. split; [reflexivity|exact Hsub].
      * cbn [nth]. replace (i + S k) with (S i + k) by lia.
        apply Hblocks. cbn [List.length] in Hk. lia.
Qed.

(** A tree of depth [d] is scanned within [d] levels of recursion. *)
Lemma scan_directory_total (fuel : nat) :
  forall (listing : option (list entry)) (prefix : string),
    depth listing <= fuel ->
    exists items, scan_directory fuel listing prefix = Ok items.
Proof.
  induction fuel as [|fuel IH]; intros listing prefix Hd.
  - destruct listing; cbn in Hd; lia.
  - destruct listing as [l|]; cbn [scan_directory]; [|now eexists].
    destruct (scan_loop_blocks (scan_directory fuel)
                (List.length (all_items l)) prefix (all_items l) 0 [])
      as (blocks & Hrun & _).
    + intros nm sub p Hin. apply IH. apply depth_child in Hin. lia.
    + rewrite Hrun. now eexists.
Qed.

(** C9.  At every directory that can be listed, the entries rendered are
    the directories followed by the files, each group sorted by name,
    the entries being those of the listing that are a directory or a file
    and not in the ignore set.  The output is one block of lines per
    entry, in that order: the line of the entry, which is the prefix,
    then "└── " for the last entry and "├── " for the others, then the
    name; and for a directory the rendering of its own listing with the
    prefix extended by four spaces when it is the last entry and by
    "│   " otherwise. *)
Theorem tree_rendering (fuel : nat) (l : list entry) (prefix : string) :
  depth (Some l) <= fuel ->
  let items := all_items l in
  let n := List.length items in
  items = dirs l ++ files l /\
  Forall (fun e => isdir e = true) (dirs l) /\
  Forall (fun e => isfile e = true) (files l) /\
  StronglySorted name_le (dirs l) /\
  StronglySorted name_le (files l) /\
  (forall e, In e items <->
     In e l /\ (isdir e || isfile e) = true /\ ignored (name e) = false) /\
  exists blocks : list (list string),
    scan_directory fuel (Some l) prefix = Ok (List.concat blocks) /\
    List.length blocks = n /\
    forall i, i < n ->
      let item := nth i items (File EmptyString) in
      let is_last_item := (i =? n - 1) in
      exists sub,
        nth i blocks [] =
          (prefix ++ (if is_last_item then "└── " else "├── ") ++ name item)%string
          :: sub /\
        match item with
        | Dir _ listing =>
            scan_directory (fuel - 1) listing
              (prefix ++ (if is_last_item then "    " else "│   "))%string = Ok sub
        | _ => sub = []
        end.
Proof.
  intros Hd items n.
  split; [reflexivity|].
  split; [apply Forall_forall; intros e He; apply filter_In in He as [_ He];
          now apply andb_true_iff in He|].
  split; [apply Forall_forall; intros e He; apply filter_In in He as [_ He];
          now apply andb_true_iff in He|].
  split; [apply filter_sorted, entries_sorted|].
  split; [apply filter_sorted, entries_sorted|].
  split; [apply In_all_items|].
  destruct fuel as [|fuel]; [cbn in Hd; lia|].
  cbn [scan_directory]. replace (S fuel - 1) with fuel by lia.
  destruct (scan_loop_blocks (scan_directory fuel) n prefix items 0 [])
    as (blocks & Hrun & Hlen & Hblocks).
  { intros nm sub p Hin. apply scan_directory_total.
    apply depth_child in Hin. lia. }
  exists blocks. split; [exact Hrun|]. split; [exact Hlen|].
  intros i Hi. destruct (Hblocks i Hi) as (sub & Hnth & Hsub).
  exists sub. cbn [Nat.add] in Hnth, Hsub. split.
  - rewrite Hnth. unfold current_prefix.
    destruct (i =? n - 1); now rewrite append_assoc.
  - unfold next_prefix in Hsub. destruct (nth i items (File EmptyString)); auto.
    destruct (i =? n - 1); exact Hsub.
Qed.

Lemma tree_rendering_witness :
  let items := all_items sample_tree in
  let n := List.length items in
  items = dirs sample_tree ++ files sample_tree /\
  Forall (fun e => isdir e = true) (dirs sample_tree) /\
  Forall (fun e => isfile e = true) (files sample_tree) /\
  StronglySorted name_le (dirs sample_tree) /\
  StronglySorted name_le (files sample_tree) /\
  (forall e, In e items <->
     In e sample_tree /\ (isdir e || isfile e) = true /\ ignored (name e) = false) /\
  exists blocks : list (list string),
    scan_directory 3 (Some sample_tree) EmptyString = Ok (List.concat blocks) /\
    List.length blocks = n /\
    forall i, i < n ->
      let item := nth i items (File EmptyString) in
      let is_last_item := (i =? n - 1) in
      exists sub,
        nth i blocks [] =
          (EmptyString ++ (if is_last_item then "└── " else "├── ") ++ name item)%string
          :: sub /\
        match item with
        | Dir _ listing =>
            scan_directory (3 - 1) listing
              (EmptyString ++ (if is_last_item then "    " else "│   "))%string = Ok sub
        | _ => sub = []
        end.
Proof.
  apply (tree_rendering 3 sample_tree EmptyString).
  vm_compute. lia.
Defined.

Example sample_tree_rendering :
  scan_directory 3 (Some sample_tree) EmptyString =
  Ok ["├── src"; "│   ├── lib"; "│   │   └── [Access Denied]"; "│   ├── a";
      "│   └── z"; "├── README"; "└── b.txt"].
Proof. reflexivity. Qed.

End Tree.

(* ================================================================= *)
(** * More on heading numbers *)

Section HeadingFormats.
Import PyStr PyListFacts.
Open Scope Z_scope.

(** The counters after a heading of level 1 to 6, whatever the format. *)
Lemma counters_after_heading (self : Converter) (level : Z) :
  auto_numbering_headings (settings self) = true ->
  List.length (heading_counters self) = 6%nat ->
  1 <= level <= 6 ->
  exists hc',
    List.length hc' = 6%nat /\
    nth (Z.to_nat (level - 1)) hc' 0 =
      nth (Z.to_nat (level - 1)) (heading_counters self) 0 + 1 /\
    (forall j, level <= j < 6 -> nth (Z.to_nat j) hc' 0 = 0) /\
    (forall j, 0 <= j < level - 1 ->
       nth (Z.to_nat j) hc' 0 = nth (Z.to_nat j) (heading_counters self) 0) /\
    generate_heading_number self level =
      if eqb (numbering_format (settings self)) "simple"
      then Ok ((str (nth (Z.to_nat (level - 1)) hc' 0) ++ ". ")%string,
               set_heading_counters self hc')
      else Ok (match map str (filter (fun v => (0 <? v)%Z)
                                (firstn (Z.to_nat level) hc')) with
               | [] => EmptyString
               | numbers => (join "." numbers ++ ". ")%string
               end, set_heading_counters self hc').
Proof.
  intros Hauto Hlen Hlevel. unfold generate_heading_number. rewrite Hauto.
  cbn [negb]. set (hc := heading_counters self) in *.
  rewrite (get_in_range hc _ 0) by lia. cbn [indexed bind].
  rewrite set_in_range by lia. cbn [indexed bind].
  set (k := Z.to_nat (level - 1)).
  set (hc1 := PyList.update hc k (nth k hc 0 + 1)).
  destruct (reset_counters_range level (Z.to_nat (6 - level)) 0 hc1)
    as (hc2 & Hrun & Hlen2 & Hnth & _); [lia| |].
  { unfold hc1. rewrite update_length. lia. }
  unfold PyList.range at 1. rewrite Hrun. cbn [indexed bind].
  unfold hc1 in Hlen2. rewrite update_length in Hlen2.
  exists hc2. split; [lia|]. split; [|split; [|split]].
  - rewrite Hnth. unfold hc1. rewrite nth_update by lia.
    rewrite Nat.eqb_refl.
    replace (Z.to_nat level + 0 <=? k)%nat with false
      by (symmetry; apply Nat.leb_gt; lia).
    reflexivity.
  - intros j Hj. rewrite Hnth.
    replace (Z.to_nat level + 0 <=? Z.to_nat j)%nat with true
      by (symmetry; apply Nat.leb_le; lia).
    replace (Z.to_nat j <? Z.to_nat level + 0 + Z.to_nat (6 - level))%nat with true
      by (symmetry; apply Nat.ltb_lt; lia).
    reflexivity.
  - intros j Hj. rewrite Hnth.
    replace (Z.to_nat level + 0 <=? Z.to_nat j)%nat with false
      by (symmetry; apply Nat.leb_gt; lia).
    cbn [andb]. unfold hc1. rewrite nth_update by lia.
    replace (Z.to_nat j =? k)%nat with false
      by (symmetry; apply Nat.eqb_neq; lia).
    reflexivity.
  - destruct (eqb _ "simple").
    + rewrite (get_in_range hc2 _ 0) by lia. reflexivity.
    + unfold PyList.range. replace (level - 0) with level by lia.
      rewrite collect_numbers_range by lia. cbn [indexed bind app skipn].
      destruct (map str _); reflexivity.
Qed.

(** X1.  With the "simple" format the number of a heading of level 1 to 6
    is the counter of that level after it has been incremented, followed
    by a dot and a space; the counters of the levels below do not show,
    and the counters are updated as for the decimal format. *)
Theorem simple_numbering (self : Converter) (level : Z) :
  auto_numbering_headings (settings self) = true ->
  numbering_format (settings self) = "simple" ->
  List.length (heading_counters self) = 6%nat ->
  1 <= level <= 6 ->
  exists self',
    generate_heading_number self level =
      Ok ((str (nth (Z.to_nat (level - 1)) (heading_counters self) 0 + 1) ++ ". ")%string,
          self') /\
    nth (Z.to_nat (level - 1)) (heading_counters self') 0 =
      nth (Z.to_nat (level - 1)) (heading_counters self) 0 + 1 /\
    (forall j, level <= j < 6 -> nth (Z.to_nat j) (heading_counters self') 0 = 0) /\
    (forall j, 0 <= j < level - 1 ->
       nth (Z.to_nat j) (heading_counters self') 0 =
       nth (Z.to_nat j) (heading_counters self) 0) /\
    doc self' = doc self.
Proof.
  intros Hauto Hfmt Hlen Hlevel.
  destruct (counters_after_heading self level Hauto Hlen Hlevel)
    as (hc' & _ & Hk & Habove & Hbelow & Hgen).
  rewrite Hfmt in Hgen. cbn [eqb] in Hgen.
  change (String.eqb "simple" "simple") with true in Hgen. cbv iota in Hgen.
  exists (set_heading_counters self hc'). rewrite Hgen, Hk. repeat split; auto.
Qed.

Lemma simple_numbering_witness :
  let self := new_converter {| auto_numbering_headings := true;
                               numbering_format := "simple";
                               table_caption_position := "above" |} in
  exists self',
    generate_heading_number self 3 =
      Ok ((str (nth (Z.to_nat (3 - 1)) (heading_counters self) 0 + 1) ++ ". ")%string,
          self') /\
    nth (Z.to_nat (3 - 1)) (heading_counters self') 0 =
      nth (Z.to_nat (3 - 1)) (heading_counters self) 0 + 1 /\
    (forall j, 3 <= j < 6 -> nth (Z.to_nat j) (heading_counters self') 0 = 0) /\
    (forall j, 0 <= j < 3 - 1 ->
       nth (Z.to_nat j) (heading_counters self') 0 =
       nth (Z.to_nat j) (heading_counters self) 0) /\
    doc self' = doc self.
Proof.
  apply (simple_numbering
           (new_converter {| auto_numbering_headings := true;
                             numbering_format := "simple";
                             table_caption_position := "above" |}) 3).
  - reflexivity.
  - reflexivity.
  - reflexivity.
  - lia.
Defined.

(** X2.  Only the format "simple" is told apart: with any other value of
    [numbering_format], known or not, a heading gets the number, the
    counters and the exception it gets with "decimal". *)
Theorem other_formats_number_as_decimal (self : Converter) (f : string) (level : Z) :
  f <> "simple" ->
  match generate_heading_number (with_format self "decimal") level with
  | Ok (num, self') =>
      generate_heading_number (with_format self f) level =
      Ok (num, with_format self' f)
  | Raise e => generate_heading_number (with_format self f) level = Raise e
  | OutOfFuel => False
  end.
Proof.
  intros Hf. unfold generate_heading_number. cbn [with_format settings
    auto_numbering_headings numbering_format heading_counters].
  destruct (auto_numbering_headings (settings self)); cbn [negb].
  2: { destruct self as [[a nf tc] d hc fc tbc fgc]. reflexivity. }
  unfold eqb. destruct (String.eqb_spec f "simple") as [|_]; [contradiction|].
  change (String.eqb "decimal" "simple") with false. cbv iota.
  destruct (PyList.get _ _) as [v|]; cbn [indexed bind]; [|reflexivity].
  destruct (PyList.set _ _ _) as [hc1|]; cbn [indexed bind]; [|reflexivity].
  destruct (reset_counters _ _) as [hc2|]; cbn [indexed bind]; [|reflexivity].
  destruct (collect_numbers _ _ _) as [numbers|]; cbn [indexed bind];
    reflexivity.
Qed.

Lemma other_formats_number_as_decimal_witness :
  match generate_heading_number
          (with_format (new_converter numbered_settings) "decimal") 1 with
  | Ok (num, self') =>
      generate_heading_number
        (with_format (new_converter numbered_settings) "roman") 1 =
      Ok (num, with_format self' "roman")
  | Raise e =>
      generate_heading_number
        (with_format (new_converter numbered_settings) "roman") 1 = Raise e
  | OutOfFuel => False
  end.
Proof.
  apply (other_formats_number_as_decimal (new_converter numbered_settings) "roman" 1).
  discriminate.
Defined.

(** X3.  With numbering on and six counters, a level above 6 or below -5
    is an index out of range: the call raises [IndexError].  (The levels
    [convert] passes are 1 to 6.) *)
Theorem heading_level_out_of_range (self : Converter) (level : Z) :
  auto_numbering_headings (settings self) = true ->
  List.length (heading_counters self) = 6%nat ->
  6 < level \/ level < -5 ->
  generate_heading_number self level = Raise IndexError.
Proof.
  intros Hauto Hlen Hlevel. unfold generate_heading_number. rewrite Hauto.
  cbn [negb]. unfold PyList.get, PyList.index. rewrite Hlen.
  replace ((0 <=? level - 1) && (level - 1 <? Z.of_nat 6))%bool with false
    by (symmetry; apply andb_false_iff; destruct Hlevel;
        [right; apply Z.ltb_ge|left; apply Z.leb_gt]; lia).
  replace ((- Z.of_nat 6 <=? level - 1) && (level - 1 <? 0))%bool with false
    by (symmetry; apply andb_false_iff; destruct Hlevel;
        [right; apply Z.ltb_ge|left; apply Z.leb_gt]; lia).
  reflexivity.
Qed.

Lemma heading_level_out_of_range_witness :
  generate_heading_number (new_converter numbered_settings) 7 = Raise IndexError.
Proof.
  apply (heading_level_out_of_range (new_converter numbered_settings) 7).
  - reflexivity.
  - reflexivity.
  - left. lia.
Defined.

End HeadingFormats.

(* ================================================================= *)
(** * The shape of a converted document *)

Section DocumentShape.
Import PyStr.
Open Scope nat_scope.

Lemma doc_add_blocks (bs : list Block) :
  forall self, doc (add_blocks self bs) = doc self ++ bs.
Proof.
  induction bs as [|b bs IH]; intros self; cbn; [now rewrite app_nil_r|].
  unfold add_blocks in IH. rewrite IH. cbn. now rewrite <- app_assoc.
Qed.

Lemma generate_heading_number_doc self level num self' :
  generate_heading_number self level = Ok (num, self') -> doc self' = doc self.
Proof.
  unfold generate_heading_number.
  destruct (negb _); [now intros [= _ <-]|].
  destruct (PyList.get _ _) as [v|]; cbn [indexed bind]; [|discriminate].
  destruct (PyList.set _ _ _) as [hc1|]; cbn [indexed bind]; [|discriminate].
  destruct (reset_counters _ _) as [hc2|]; cbn [indexed bind]; [|discriminate].
  destruct (eqb _ "simple").
  - destruct (PyList.get _ _); cbn [indexed bind]; [|discriminate].
    now intros [= _ <-].
  - destruct (collect_numbers _ _ _); cbn [indexed bind]; [|discriminate].
    now intros [= _ <-].
Qed.

Lemma process_table_chunk self lines i j self' :
  process_table self lines i = (j, self') ->
  exists bs, doc self' = doc self ++ bs /\ chunk bs.
Proof.
  unfold process_table. destruct (table_loop _ _ _) as [k table_lines].
  destruct (_ <? 2); intros [= _ <-].
  { exists []. split; [now rewrite app_nil_r|constructor]. }
  set (T := table_block table_lines).
  assert (HT : exists h r, T = Table h r) by (unfold T, table_block; eauto).
  destruct HT as (h & r & HT).
  unfold eqb.
  destruct (String.eqb_spec (table_caption_position (settings self)) "above")
    as [Ha|Ha].
  - cbn. rewrite Ha. cbn. exists [Caption (table_counter self + 1); T].
    split; [now rewrite <- app_assoc|]. rewrite HT. constructor.
  - cbn.
    destruct (String.eqb_spec (table_caption_position (settings self)) "below")
      as [Hb|Hb]; cbn.
    + exists [T; Caption (table_counter self + 1)].
      split; [now rewrite <- app_assoc|]. rewrite HT. constructor.
    + exists [T]. split; [reflexivity|]. rewrite HT. constructor.
Qed.

Lemma step_chunk lines i self defs i' self' defs' :
  step lines i self defs = Ok (i', self', defs') ->
  exists bs, doc self' = doc self ++ bs /\ chunk bs.
Proof.
  assert (Hnone : exists bs, doc self = doc self ++ bs /\ chunk bs).
  { exists []. split; [now rewrite app_nil_r|constructor]. }
  assert (Hone : forall b, chunk [b] ->
            exists bs, doc (add_block self b) = doc self ++ bs /\ chunk bs).
  { intros b Hb. now exists [b]. }
  unfold step.
  destruct (eqb _ EmptyString); [now intros [= _ <- _]|].
  destruct (Re.footnote_def _) as [[num text]|]; [now intros [= _ <- _]|].
  destruct (startswith _ "#") eqn:Hhash.
  { destruct (Re.heading _) as [[level title]|] eqn:Hhead; cbn [bind];
      [|now intros [= _ <- _]].
    apply heading_level in Hhead.
    destruct (generate_heading_number _ level) as [[num self2]| |] eqn:Hgen;
      cbn [bind]; try discriminate.
    destruct (formatted _); cbn [bind]; try discriminate.
    intros [= _ <- _]. apply generate_heading_number_doc in Hgen.
    cbn [add_block doc]. rewrite Hgen.
    destruct (Z.eqb_spec level 2) as [->|Hne]; cbn [add_block doc].
    - eexists [PageBreak; Heading 2 _]. split; [now rewrite <- app_assoc|].
      constructor.
    - eexists [Heading level _]. split; [reflexivity|]. now constructor. }
  destruct (startswith _ "```").
  { unfold process_code_block. destruct (code_loop _ _ _) as [j cl].
    cbn [bind]. intros [= _ <- _]. apply Hone. constructor. }
  destruct (contains "|" _).
  { destruct (process_table self lines i) as [j c] eqn:E. cbn [bind].
    intros [= _ <- _]. eapply process_table_chunk. exact E. }
  destruct (_ || _).
  { destruct (process_list self lines i) as [[j c]| |] eqn:E; cbn [bind];
      try discriminate.
    apply process_list_ok in E as (k & items & _ & _ & ->).
    intros [= _ <- _]. rewrite doc_add_blocks.
    eexists. split; [reflexivity|]. constructor. }
  destruct (Re.bibliography _) eqn:Hbib.
  { apply bibliography_is_heading_line in Hbib. congruence. }
  destruct (startswith _ ">").
  { destruct (formatted _); cbn [bind]; try discriminate.
    intros [= _ <- _]. apply Hone. constructor. }
  destruct (existsb _ _).
  { cbn [bind]. intros [= _ <- _]. apply Hone. constructor. }
  destruct (formatted _); cbn [bind]; try discriminate.
  intros [= _ <- _]. apply Hone. constructor.
Qed.

Lemma chunks_snoc (a c : list Block) : chunks a -> chunk c -> chunks (a ++ c).
Proof.
  induction 1 as [|c0 rest Hc0 Hrest IH]; intros Hc.
  - cbn. rewrite <- (app_nil_r c). constructor; [assumption|constructor].
  - rewrite <- app_assoc. constructor; auto.
Qed.

Lemma main_loop_chunks (lines : list string) (fuel : nat) :
  forall i self defs self' defs',
    main_loop fuel lines i self defs = Ok (self', defs') ->
    forall pre, doc self = pre -> chunks pre -> chunks (doc self').
Proof.
  induction fuel as [|fuel IH]; intros i self defs self' defs'; cbn [main_loop];
    destruct (i <? List.length lines); try discriminate;
    try (intros [= <- _] pre <- Hpre; exact Hpre).
  destruct (step lines i self defs) as [[[j c] d]| |] eqn:E; cbn [bind];
    try discriminate.
  intros Hrun pre Hdoc Hpre. apply step_chunk in E as (bs & Hbs & Hchunk).
  eapply IH; [exact Hrun|reflexivity|].
  rewrite Hbs, Hdoc. now apply chunks_snoc.
Qed.

(** The document a new converter ends with: the chunks of the main pass,
    then the footnotes. *)
Lemma convert_lines_shape (s : DocumentSettings) (lines : list string)
    (self' : Converter) :
  convert_lines (new_converter s) lines = Ok self' ->
  exists (body : Converter) (defs : Py.dict),
    main_loop (List.length lines) lines 0 (new_converter s) [] = Ok (body, defs) /\
    chunks (doc body) /\
    self' =
      add_blocks body
        match Py.sorted item_leb defs with
        | [] => []
        | _ => Separator :: map (fun kv => Footnote (fst kv) (snd kv))
                             (Py.sorted item_leb defs)
        end.
Proof.
  unfold convert_lines.
  destruct (main_loop _ _ _ _ _) as [[body defs]| |] eqn:Hrun; cbn [bind];
    try discriminate.
  intros Hfoot. exists body, defs. split; [reflexivity|]. split.
  - eapply main_loop_chunks; [exact Hrun|reflexivity|constructor].
  - assert (Hnd : NoDup (Py.keys defs)).
    { eapply main_loop_defs_nodup; [exact Hrun|constructor]. }
    destruct (read_dec (Py.keys defs)) as [Hread|Hread].
    + rewrite add_footnotes_sorted in Hfoot by assumption. congruence.
    + rewrite add_footnotes_unread in Hfoot by assumption. discriminate.
Qed.

Lemma page_breaks_app (n : nat) :
  forall a b,
    List.length a <= n ->
    page_breaks_ok a = true -> page_breaks_ok (a ++ b) = page_breaks_ok b.
Proof.
  induction n as [|n IH]; intros a b Hlen Ha.
  - destruct a; [reflexivity|cbn in Hlen; lia].
  - destruct a as [|x a]; [reflexivity|]. cbn [List.length] in Hlen.
    destruct x; cbn [page_breaks_ok app] in *;
      try (apply IH; [lia|assumption]).
    + destruct a as [|y a]; [discriminate|].
      destruct y; try discriminate. cbn [app].
      apply andb_true_iff in Ha as [-> Ha]. cbn [andb].
      apply IH; [cbn [List.length] in Hlen; lia|assumption].
    + apply andb_true_iff in Ha as [-> Ha]. cbn [andb].
      apply IH; [lia|assumption].
Qed.

Lemma list_blocks_no_heading (items : list list_item) (rest : list Block) :
  page_breaks_ok (map list_block items ++ rest) = page_breaks_ok rest.
Proof.
  induction items as [|[[k t] l] items IH]; [reflexivity|exact IH].
Qed.

Lemma chunk_page_breaks (c : list Block) :
  chunk c -> page_breaks_ok c = true.
Proof.
  intros H. destruct H; try reflexivity.
  - cbn. destruct (Z.eqb_spec level 2); [contradiction|reflexivity].
  - rewrite <- (app_nil_r (map _ _)). apply list_blocks_no_heading.
Qed.

Lemma chunks_page_breaks (bs : list Block) :
  chunks bs -> page_breaks_ok bs = true.
Proof.
  induction 1 as [|c rest Hc Hrest IH]; [reflexivity|].
  rewrite (page_breaks_app (List.length c)); auto using chunk_page_breaks.
Qed.

Lemma footnotes_no_heading (fs : list (string * string)) :
  page_breaks_ok (map (fun kv => Footnote (fst kv) (snd kv)) fs) = true.
Proof. induction fs as [|f fs IH]; [reflexivity|exact IH]. Qed.

(** X4.  In every document the conversion returns, each page break is
    followed at once by a heading of level 2 and each heading of level 2
    follows a page break: the break comes before the headings of level 2
    and before nothing else. *)
Theorem page_break_before_level_two_only (s : DocumentSettings)
    (lines : list string) (self' : Converter) :
  convert_lines (new_converter s) lines = Ok self' ->
  page_breaks_ok (doc self') = true.
Proof.
  intros H.
  destruct (convert_lines_shape s lines self' H) as (body & defs & _ & Hbody & ->).
  rewrite doc_add_blocks.
  rewrite (page_breaks_app (List.length (doc body)));
    auto using chunks_page_breaks.
  destruct (Py.sorted item_leb defs); [reflexivity|].
  cbn [page_breaks_ok]. apply footnotes_no_heading.
Qed.

Lemma page_break_before_level_two_only_witness :
  exists self',
    convert_lines (new_converter numbered_settings)
      ["# A"; "## B"; "text"; "### C"; "## D"] = Ok self' /\
    page_breaks_ok (doc self') = true.
Proof.
  eexists. split; [vm_compute; reflexivity|].
  apply (page_break_before_level_two_only numbered_settings
           ["# A"; "## B"; "text"; "### C"; "## D"]).
  vm_compute. reflexivity.
Defined.

Lemma chunk_no_footnote (c : list Block) :
  chunk c -> forallb (fun b => negb (is_footnote_block b)) c = true.
Proof.
  intros H. destruct H; try reflexivity.
  induction list_items as [|[[k t] l] items IH]; [reflexivity|exact IH].
Qed.

Lemma chunks_no_footnote (bs : list Block) :
  chunks bs -> forallb (fun b => negb (is_footnote_block b)) bs = true.
Proof.
  induction 1 as [|c rest Hc Hrest IH]; [reflexivity|].
  rewrite forallb_app, IH, chunk_no_footnote by assumption. reflexivity.
Qed.

(** X5.  The footnotes come last.  A document the conversion returns is
    the blocks of the main pass, none of which is a separator or a
    footnote, followed by nothing when no definition was collected, and
    otherwise by one separator and one footnote for each collected
    definition: a footnote definition leaves nothing at its place in the
    text. *)
Theorem footnotes_come_last (s : DocumentSettings) (lines : list string)
    (self' : Converter) :
  convert_lines (new_converter s) lines = Ok self' ->
  exists (body : list Block) (defs fs : list (string * string)),
    (exists c, main_loop (List.length lines) lines 0 (new_converter s) [] =
               Ok (c, defs)) /\
    Permutation fs defs /\
    doc self' =
      body ++ match fs with
              | [] => []
              | _ => Separator :: map (fun kv => Footnote (fst kv) (snd kv)) fs
              end /\
    forallb (fun b => negb (is_footnote_block b)) body = true.
Proof.
  intros H.
  destruct (convert_lines_shape s lines self' H) as (c & defs & Hloop & Hbody & ->).
  exists (doc c), defs, (Py.sorted item_leb defs).
  split; [now exists c|].
  split; [apply sorted_perm|]. split; [apply doc_add_blocks|].
  now apply chunks_no_footnote.
Qed.

Lemma footnotes_come_last_witness :
  exists self',
    convert_lines (new_converter numbered_settings)
      ["[^2]: two"; "text[^1] and[^2]"; "[^1]: one"] = Ok self' /\
    exists (body : list Block) (defs fs : list (string * string)),
      (exists c, main_loop (List.length ["[^2]: two"; "text[^1] and[^2]"; "[^1]: one"])
                   ["[^2]: two"; "text[^1] and[^2]"; "[^1]: one"] 0
                   (new_converter numbered_settings) [] = Ok (c, defs)) /\
      Permutation fs defs /\
      doc self' =
        body ++ match fs with
                | [] => []
                | _ => Separator :: map (fun kv => Footnote (fst kv) (snd kv)) fs
                end /\
      forallb (fun b => negb (is_footnote_block b)) body = true.
Proof.
  eexists. split; [vm_compute; reflexivity|].
  apply (footnotes_come_last numbered_settings
           ["[^2]: two"; "text[^1] and[^2]"; "[^1]: one"]).
  vm_compute. reflexivity.
Defined.

(** X6.  A document the conversion returns is a sequence of chunks, each
    one the output of one line or run of lines: a heading of level 1 to 6
    (after a page break when the level is 2, and only then), a code block,
    a table with its caption before or after it or without one, the items
    of a list, a quote, a rule or a paragraph; then the separator and the
    footnotes.  So a caption never stands without its table, and no
    bibliography block is ever emitted. *)
Theorem document_shape (s : DocumentSettings) (lines : list string)
    (self' : Converter) :
  convert_lines (new_converter s) lines = Ok self' ->
  exists (body tail : list Block),
    doc self' = body ++ tail /\
    chunks body /\
    forallb is_footnote_block tail = true.
Proof.
  intros H.
  destruct (convert_lines_shape s lines self' H) as (c & defs & _ & Hbody & ->).
  exists (doc c). eexists.
  split; [apply doc_add_blocks|]. split; [exact Hbody|].
  destruct (Py.sorted item_leb defs) as [|f fs]; [reflexivity|].
  cbn [forallb is_footnote_block andb].
  generalize (f :: fs). intros l. induction l; [reflexivity|exact IHl].
Qed.

Lemma document_shape_witness :
  exists self',
    convert_lines (new_converter numbered_settings)
      ["# A"; "| a | b |"; "|---|---|"; "| 1 | 2 |"; "- item"; "> quote";
       "# References"; "1. Book"; "[^1]: note"] = Ok self' /\
    exists (body tail : list Block),
      doc self' = body ++ tail /\
      chunks body /\
      forallb is_footnote_block tail = true.
Proof.
  eexists. split; [vm_compute; reflexivity|].
  apply (document_shape numbered_settings
           ["# A"; "| a | b |"; "|---|---|"; "| 1 | 2 |"; "- item"; "> quote";
            "# References"; "1. Book"; "[^1]: note"]).
  vm_compute. reflexivity.
Defined.

End DocumentShape.

(* ================================================================= *)
(** * Code blocks *)

Section CodeBlocks.
Import PyStr.
Open Scope nat_scope.

Lemma skipn_app_cons {A} (pre : list A) (x : A) (rest : list A) :
  skipn (List.length pre + 1) (pre ++ x :: rest) = rest.
Proof.
  induction pre as [|p pre IH]; [reflexivity|exact IH].
Qed.

Lemma nth_app_cons (pre : list string) (x : string) (rest : list string) :
  nth (List.length pre) (pre ++ x :: rest) EmptyString = x.
Proof.
  induction pre as [|p pre IH]; [reflexivity|exact IH].
Qed.

Lemma code_loop_closed (body : list string) :
  forall (closing : string) (post : list string) (i : nat) (acc : list string),
    Forall (fun l => is_fence l = false) body ->
    is_fence closing = true ->
    code_loop (body ++ closing :: post) i acc = (i + List.length body, acc ++ body).
Proof.
  induction body as [|l body IH]; intros closing post i acc Hbody Hclose.
  - cbn [app code_loop List.length]. unfold is_fence in Hclose. rewrite Hclose.
    now rewrite Nat.add_0_r, app_nil_r.
  - inversion Hbody as [|? ? Hl Hrest]; subst.
    cbn [app code_loop List.length]. unfold is_fence in Hl. rewrite Hl.
    rewrite IH by assumption. rewrite <- app_assoc. f_equal. lia.
Qed.

Lemma code_loop_open (body : list string) :
  forall (i : nat) (acc : list string),
    Forall (fun l => is_fence l = false) body ->
    code_loop body i acc = (i + List.length body, acc ++ body).
Proof.
  induction body as [|l body IH]; intros i acc Hbody.
  - cbn. now rewrite Nat.add_0_r, app_nil_r.
  - inversion Hbody as [|? ? Hl Hrest]; subst.
    cbn [code_loop List.length]. unfold is_fence in Hl. rewrite Hl.
    rewrite IH by assumption. rewrite <- app_assoc. f_equal. lia.
Qed.

(** A line that opens a code block is not blank, not a footnote
    definition and not a heading. *)
Lemma fence_line (s : string) :
  startswith s "```" = true ->
  eqb s EmptyString = false /\ Re.footnote_def s = None /\
  startswith s "#" = false.
Proof.
  destruct s as [|c s]; [discriminate|]. cbn [startswith].
  destruct (Ascii.eqb_spec "`"%char c) as [<-|]; [|discriminate].
  intros _. repeat split.
Qed.

(** X7.  A fenced code block that is closed.  When the line at the cursor
    opens a block, the lines up to the next fence are taken as they are
    written, white space included, joined by line feeds into one code
    block; nothing in them is read as a heading, a list or a footnote,
    and the pass goes on after the closing fence. *)
Theorem closed_code_block (self : Converter) (defs : Py.dict)
    (pre : list string) (opening : string) (body : list string)
    (closing : string) (post : list string) :
  is_fence opening = true ->
  Forall (fun l => is_fence l = false) body ->
  is_fence closing = true ->
  step (pre ++ opening :: body ++ closing :: post) (List.length pre) self defs =
  Ok (List.length pre + List.length body + 2,
      add_block self (CodeBlock (join (String LF EmptyString) body)),
      defs).
Proof.
  intros Hopen Hbody Hclose. unfold step. rewrite nth_app_cons.
  unfold is_fence in Hopen. destruct (fence_line _ Hopen) as (H1 & H2 & H3).
  rewrite H1, H2, H3, Hopen. unfold process_code_block.
  rewrite skipn_app_cons, code_loop_closed by assumption.
  cbn [bind app].
  match goal with
  | |- Ok (?a, _, _) = Ok (?b, _, _) => replace a with b by lia
  end. reflexivity.
Qed.

Lemma closed_code_block_witness :
  step ([] ++ "```python" :: ["# not a heading"; "  x = 1  "] ++ "```" :: ["after"])
    (List.length (@nil string)) (new_converter numbered_settings) [] =
  Ok (List.length (@nil string) + List.length ["# not a heading"; "  x = 1  "] + 2,
      add_block (new_converter numbered_settings)
        (CodeBlock (join (String LF EmptyString) ["# not a heading"; "  x = 1  "])),
      []).
Proof.
  apply (closed_code_block (new_converter numbered_settings) [] []
           "```python" ["# not a heading"; "  x = 1  "] "```" ["after"]).
  - reflexivity.
  - repeat constructor.
  - reflexivity.
Defined.

(** X8.  A fenced code block that is never closed takes every line to the
    end of the source, and the pass ends there: whatever follows the
    opening fence, footnote definitions included, is code. *)
Theorem unclosed_code_block (self : Converter) (defs : Py.dict)
    (pre : list string) (opening : string) (body : list string) :
  is_fence opening = true ->
  Forall (fun l => is_fence l = false) body ->
  let lines := pre ++ opening :: body in
  step lines (List.length pre) self defs =
    Ok (List.length lines + 1,
        add_block self (CodeBlock (join (String LF EmptyString) body)),
        defs) /\
  forall fuel,
    main_loop fuel lines (List.length lines + 1)
      (add_block self (CodeBlock (join (String LF EmptyString) body))) defs =
    Ok (add_block self (CodeBlock (join (String LF EmptyString) body)), defs).
Proof.
  intros Hopen Hbody lines. split.
  - unfold step, lines. rewrite nth_app_cons.
    unfold is_fence in Hopen. destruct (fence_line _ Hopen) as (H1 & H2 & H3).
    rewrite H1, H2, H3, Hopen. unfold process_code_block.
    rewrite skipn_app_cons, code_loop_open by assumption.
    cbn [bind app].
    match goal with
    | |- Ok (?a, _, _) = Ok (?b, _, _) =>
        replace a with b by (rewrite length_app; cbn [List.length]; lia)
    end. reflexivity.
  - intros fuel.
    destruct fuel; cbn [main_loop];
      replace (List.length lines + 1 <? List.length lines) with false
        by (symmetry; apply Nat.ltb_ge; lia); reflexivity.
Qed.

Lemma unclosed_code_block_witness :
  let lines := ["intro"] ++ "```" :: ["[^1]: note"; "# title"] in
  step lines (List.length ["intro"]) (new_converter numbered_settings) [] =
    Ok (List.length lines + 1,
        add_block (new_converter numbered_settings)
          (CodeBlock (join (String LF EmptyString) ["[^1]: note"; "# title"])),
        []) /\
  forall fuel,
    main_loop fuel lines (List.length lines + 1)
      (add_block (new_converter numbered_settings)
         (CodeBlock (join (String LF EmptyString) ["[^1]: note"; "# title"]))) [] =
    Ok (add_block (new_converter numbered_settings)
          (CodeBlock (join (String LF EmptyString) ["[^1]: note"; "# title"])), []).
Proof.
  apply (unclosed_code_block (new_converter numbered_settings) []
           ["intro"] "```" ["[^1]: note"; "# title"]).
  - reflexivity.
  - repeat constructor.
Defined.

End CodeBlocks.

(* ================================================================= *)
(** * Tables *)

Section Tables.
Import PyStr.
Open Scope nat_scope.

Lemma nth_map_seq {A} (f : nat -> A) (n j : nat) (d : A) :
  j < n -> nth j (map f (seq 0 n)) d = f j.
Proof.
  intros Hj. rewrite (nth_indep _ d (f 0)) by (now rewrite length_map, length_seq).
  now rewrite map_nth, seq_nth.
Qed.

(** X9.  The table built from the collected lines is rectangular.  Its
    header cells come from the first line; the second line is dropped
    whatever it holds; every later line gives one row, in order, with as
    many cells as the header: the cells of the line beyond the last
    column are dropped and the missing ones are empty. *)
Theorem table_is_rectangular (table_lines : list string) :
  exists (headers : list string) (rows : list (list string)),
    table_block table_lines = Table headers rows /\
    headers = cells (hd EmptyString table_lines) /\
    List.length rows = List.length table_lines - 2 /\
    Forall (fun row => List.length row = List.length headers) rows /\
    forall k row,
      nth_error rows k = Some row ->
      exists line,
        nth_error table_lines (k + 2) = Some line /\
        forall j, j < List.length headers ->
          nth j row EmptyString = nth j (cells line) EmptyString.
Proof.
  set (headers := cells (hd EmptyString table_lines)).
  set (data_lines := skipn 2 table_lines).
  assert (Hblock : table_block table_lines =
                   Table headers
                     (map (fun line => table_row (List.length headers) (cells line))
                        data_lines)).
  { unfold table_block. fold headers.
    destruct (Nat.ltb_spec 2 (List.length table_lines)) as [H|H]; [reflexivity|].
    unfold data_lines.
    destruct table_lines as [|a [|b [|c t]]]; try reflexivity.
    cbn [List.length] in H. lia. }
  exists headers, (map (fun line => table_row (List.length headers) (cells line))
                     data_lines).
  split; [exact Hblock|]. split; [reflexivity|]. split; [|split].
  - rewrite length_map. unfold data_lines. apply length_skipn.
  - apply Forall_forall. intros row Hin. apply in_map_iff in Hin as (line & <- & _).
    unfold table_row. now rewrite length_map, length_seq.
  - intros k row Hrow.
    rewrite nth_error_map in Hrow.
    destruct (nth_error data_lines k) as [l|] eqn:Hl; [|discriminate].
    cbn in Hrow. injection Hrow as <-.
    exists l. split.
    + unfold data_lines in Hl. rewrite nth_error_skipn in Hl.
      now rewrite Nat.add_comm.
    + intros j Hj. unfold table_row. now rewrite nth_map_seq.
Qed.

End Tables.

(* ================================================================= *)
(** * Lines that start with a hash sign *)

Section HashLines.
Import PyStr.
Open Scope nat_scope.

Lemma span_hashes (n : nat) (rest : string) :
  startswith rest "#" = false ->
  span (Ascii.eqb "#") (repeat_char "#" n ++ rest) = (repeat_char "#" n, rest).
Proof.
  intros Hrest. induction n as [|n IH].
  - cbn [repeat_char append]. destruct rest as [|c r]; [reflexivity|].
    cbn [startswith] in Hrest. cbn [span].
    destruct (Ascii.eqb "#" c); [discriminate|reflexivity].
  - cbn [repeat_char append span]. rewrite Ascii.eqb_refl. now rewrite IH.
Qed.

Lemma length_repeat_char (c : ascii) (n : nat) :
  String.length (repeat_char c n) = n.
Proof. induction n as [|n IH]; cbn; [reflexivity|now rewrite IH]. Qed.

(** X10.  A line that starts with a hash sign but is not a heading leaves
    nothing in the document: seven or more hash signs, or hash signs
    followed by no white-space character (a "#tag", or hash signs alone),
    are taken by the heading branch of [convert], which emits nothing
    when its pattern does not match, and the line is in no block.  White
    space is that of [\s]: after a no-break space the line is a
    heading. *)
Theorem malformed_heading_is_dropped (lines : list string) (i : nat)
    (self : Converter) (defs : Py.dict) (n : nat) (rest : string) :
  strip (nth i lines EmptyString) = (repeat_char "#" n ++ rest)%string ->
  1 <= n ->
  startswith rest "#" = false ->
  6 < n \/ space_len rest = 0 ->
  step lines i self defs = Ok (i + 1, self, defs).
Proof.
  intros Hline Hn Hrest Hbad. unfold step. rewrite Hline.
  destruct n as [|n]; [lia|].
  assert (Hhead : Re.heading (repeat_char "#" (S n) ++ rest) = None).
  { unfold Re.heading. rewrite span_hashes by assumption.
    rewrite length_repeat_char.
    destruct (Nat.leb_spec (S n) 6) as [Hle|Hgt].
    - destruct Hbad as [Hbad|Hbad]; [lia|].
      replace (1 <=? S n) with true by (symmetry; apply Nat.leb_le; lia).
      cbn [andb]. unfold Re.ws_plus_dot_plus.
      destruct rest as [|c r]; [reflexivity|]. now rewrite Hbad.
    - now rewrite andb_false_r. }
  rewrite Hhead. cbn [repeat_char append Re.footnote_def startswith].
  rewrite Ascii.eqb_refl. cbn [andb bind].
  replace (Z.to_nat (Z.of_nat i + 1)) with (i + 1) by lia. reflexivity.
Qed.

Lemma malformed_heading_is_dropped_witness :
  step ["#hashtag"; "####### seven"] 0 (new_converter numbered_settings) [] =
  Ok (0 + 1, new_converter numbered_settings, []).
Proof.
  apply (malformed_heading_is_dropped ["#hashtag"; "####### seven"] 0
           (new_converter numbered_settings) [] 1 "hashtag").
  - reflexivity.
  - lia.
  - reflexivity.
  - right. reflexivity.
Defined.

End HashLines.

(* ================================================================= *)
(** * Footnote definitions *)

Section FootnoteDefinitions.
Import PyStr.
Open Scope nat_scope.

Lemma span_every (p : ascii -> bool) (a rest : string) :
  every p a = true ->
  match rest with EmptyString => True | String c _ => p c = false end ->
  span p (a ++ rest) = (a, rest).
Proof.
  intros Ha Hrest. induction a as [|x a IH].
  - cbn [append]. destruct rest as [|c r]; [reflexivity|].
    cbn [span]. now rewrite Hrest.
  - cbn [every] in Ha. apply andb_true_iff in Ha as [Hx Ha].
    cbn [append span]. rewrite Hx, IH by assumption. reflexivity.
Qed.

Lemma append_empty_r (s : string) : (s ++ EmptyString)%string = s.
Proof. induction s as [|c s IH]; cbn; [reflexivity|now rewrite IH]. Qed.

Lemma dot_run_line (text : string) :
  every not_LF text = true -> Re.dot_run text = text.
Proof.
  intros H. unfold Re.dot_run.
  change (fun c => negb (Ascii.eqb c LF)) with not_LF.
  rewrite <- (append_empty_r text) at 1.
  now rewrite span_every.
Qed.

(** [\s*] passes the white space, [(.+)] takes the text. *)
Lemma ws_star_from_text (text : string) :
  text <> EmptyString ->
  space_len text = 0 ->
  every not_LF text = true ->
  forall (ws : string) (skip : nat),
    skip <= String.length ws ->
    snd (span_chars_from space_len skip ws) = EmptyString ->
    Re.ws_star_dot_plus_from skip (ws ++ text) = Some text.
Proof.
  intros Hne Htext Hline. induction ws as [|w ws IH]; intros skip Hskip Hall.
  - cbn in Hskip. replace skip with 0 by lia. cbn [append].
    destruct text as [|c t]; [contradiction|].
    cbn [Re.ws_star_dot_plus_from]. rewrite Htext. now rewrite dot_run_line.
  - cbn [append Re.ws_star_dot_plus_from span_chars_from] in *.
    destruct skip as [|k].
    + destruct (space_len (String w ws)) as [|k] eqn:E; [discriminate Hall|].
      change (String w (ws ++ text)) with (String w ws ++ text)%string.
      rewrite (space_len_app _ text _ E).
      assert (Hk : k <= String.length ws).
      { pose proof (space_len_length (String w ws)) as L. rewrite E in L.
        cbn in L. lia. }
      destruct (span_chars_from space_len k ws) as [a1 b1] eqn:Es.
      cbn [snd] in Hall.
      rewrite (IH k Hk); [reflexivity|]. now rewrite Es.
    + cbn in Hskip.
      destruct (span_chars_from space_len k ws) as [a1 b1] eqn:Es.
      cbn [snd] in Hall.
      apply IH; [lia|]. now rewrite Es.
Qed.

Lemma ws_star_then_text (ws text : string) :
  made_of space_len ws = true ->
  text <> EmptyString ->
  space_len text = 0 ->
  every not_LF text = true ->
  Re.ws_star_dot_plus (ws ++ text) = Some text.
Proof.
  intros Hws Hne Htext Hline. unfold Re.ws_star_dot_plus.
  apply ws_star_from_text; try assumption; [lia|].
  now apply made_of_snd.
Qed.

(** The pattern of a footnote definition on a line of that form. *)
Lemma footnote_def_matches (num ws text : string) :
  num <> EmptyString ->
  made_of digit_len num = true ->
  made_of space_len ws = true ->
  text <> EmptyString ->
  space_len text = 0 ->
  every not_LF text = true ->
  Re.footnote_def ("[^" ++ num ++ "]:" ++ ws ++ text) = Some (num, text).
Proof.
  intros Hnum Hdigits Hws Hne Htext Hline.
  cbn [append Re.footnote_def].
  rewrite span_digits; [|assumption|reflexivity].
  destruct num as [|d num]; [contradiction|].
  now rewrite ws_star_then_text.
Qed.

Lemma dict_get_set_same (d : Py.dict) (k v : string) :
  Py.dict_get (Py.dict_set d k v) k = Some v.
Proof.
  induction d as [|[k' v'] d IH]; cbn [Py.dict_set Py.dict_get].
  - unfold eqb. now rewrite String.eqb_refl.
  - destruct (eqb k' k) eqn:E; cbn [Py.dict_get]; rewrite E; [reflexivity|exact IH].
Qed.

Lemma dict_get_set_other (d : Py.dict) (k v k0 : string) :
  k0 <> k -> Py.dict_get (Py.dict_set d k v) k0 = Py.dict_get d k0.
Proof.
  intros Hne. induction d as [|[k' v'] d IH]; cbn [Py.dict_set Py.dict_get].
  - unfold eqb. destruct (String.eqb_spec k k0); [congruence|reflexivity].
  - unfold eqb in *. destruct (String.eqb_spec k' k) as [->|Hk];
      cbn [Py.dict_get]; unfold eqb.
    + destruct (String.eqb_spec k k0); [congruence|reflexivity].
    + destruct (String.eqb_spec k' k0); [reflexivity|exact IH].
Qed.

Lemma dict_set_known_key (d : Py.dict) (k v : string) :
  Py.dict_get d k <> None -> Py.keys (Py.dict_set d k v) = Py.keys d.
Proof.
  induction d as [|[k' v'] d IH]; cbn [Py.dict_set Py.dict_get Py.keys map fst].
  - congruence.
  - destruct (eqb k' k); [reflexivity|]. intros H.
    cbn [map fst]. f_equal. now apply IH.
Qed.

(** X11.  A line [[^N]: text] is recorded, not emitted: the iteration
    appends no block and stores the text under the key N.  Looking N up
    afterwards gives this text, so a later definition of the same number
    replaces an earlier one, which keeps its place among the keys; the
    other definitions are as before.  Here N is one or more decimal
    digits ([\d], of any script), the colon is followed by any white
    space ([\s], also a no-break space) and the text is not empty and
    starts with no white-space character. *)
Theorem footnote_definition_is_recorded (lines : list string) (i : nat)
    (self : Converter) (defs : Py.dict) (num ws text : string) :
  strip (nth i lines EmptyString) = ("[^" ++ num ++ "]:" ++ ws ++ text)%string ->
  num <> EmptyString ->
  made_of digit_len num = true ->
  made_of space_len ws = true ->
  text <> EmptyString ->
  space_len text = 0 ->
  every not_LF text = true ->
  exists defs',
    step lines i self defs = Ok (i + 1, self, defs') /\
    Py.dict_get defs' num = Some text /\
    (forall k, k <> num -> Py.dict_get defs' k = Py.dict_get defs k) /\
    (Py.dict_get defs num <> None -> Py.keys defs' = Py.keys defs).
Proof.
  intros Hline Hnum Hdigits Hws Hne Htext Hnolf.
  exists (Py.dict_set defs num text). split; [|split; [|split]].
  - unfold step. rewrite Hline.
    rewrite footnote_def_matches by assumption. reflexivity.
  - apply dict_get_set_same.
  - intros k Hk. now apply dict_get_set_other.
  - apply dict_set_known_key.
Qed.

Lemma footnote_definition_is_recorded_witness :
  exists defs',
    step ["  [^7]:   second text"] 0 (new_converter numbered_settings)
      [("7", "first text"); ("2", "other")] =
      Ok (0 + 1, new_converter numbered_settings, defs') /\
    Py.dict_get defs' "7" = Some "second text" /\
    (forall k, k <> "7" ->
       Py.dict_get defs' k = Py.dict_get [("7", "first text"); ("2", "other")] k) /\
    (Py.dict_get [("7", "first text"); ("2", "other")] "7" <> None ->
     Py.keys defs' = Py.keys [("7", "first text"); ("2", "other")]).
Proof.
  apply (footnote_definition_is_recorded ["  [^7]:   second text"] 0
           (new_converter numbered_settings)
           [("7", "first text"); ("2", "other")] "7" "   " "second text").
  - reflexivity.
  - discriminate.
  - reflexivity.
  - reflexivity.
  - discriminate.
  - reflexivity.
  - reflexivity.
Defined.

End FootnoteDefinitions.

(* ================================================================= *)
(** * List runs *)

Section ListRuns.
Import PyStr.
Open Scope nat_scope.

Lemma list_loop_run (run : list string) :
  forall (post : list string) (i : nat) (acc : list list_item),
    Forall (fun l => list_item_of l <> None \/ is_blank l = true) run ->
    match post with
    | [] => True
    | l :: _ => list_item_of l = None /\ is_blank l = false
    end ->
    list_loop (run ++ post) i acc = (i + List.length run, acc ++ items_of run).
Proof.
  induction run as [|l run IH]; intros post i acc Hrun Hpost.
  - cbn [app List.length items_of]. rewrite Nat.add_0_r, app_nil_r.
    destruct post as [|p post]; [reflexivity|]. destruct Hpost as [Hitem Hblank].
    cbn [list_loop]. unfold list_item_of in Hitem. unfold is_blank in Hblank.
    rewrite !nested_never_matches.
    destruct (Re.bullet _); [discriminate|].
    destruct (Re.numbered _); [discriminate|].
    now rewrite Hblank.
  - inversion Hrun as [|? ? Hl Hrest]; subst.
    cbn [app list_loop List.length items_of]. unfold list_item_of in *.
    unfold is_blank in Hl. rewrite !nested_never_matches.
    destruct (Re.bullet _) as [t|].
    { rewrite IH by assumption. rewrite <- app_assoc. f_equal. lia. }
    destruct (Re.numbered _) as [t|].
    { rewrite IH by assumption. rewrite <- app_assoc. f_equal. lia. }
    destruct Hl as [Hl|Hl]; [congruence|]. rewrite Hl.
    rewrite IH by assumption. f_equal. lia.
Qed.

Lemma skipn_app_length {A} (pre rest : list A) :
  skipn (List.length pre) (pre ++ rest) = rest.
Proof. induction pre as [|p pre IH]; [reflexivity|exact IH]. Qed.

(** The items are emitted one after the other as long as their texts
    format. *)
Lemma add_list_items_formats (items : list list_item) :
  forall self,
    Forall formats (map list_block items) ->
    add_list_items self items = Ok (add_blocks self (map list_block items)).
Proof.
  induction items as [|[[k t] l] items IH]; intros self Hf; [reflexivity|].
  cbn [map] in Hf. inversion Hf as [|? ? Hit Hrest]; subst.
  cbn [add_list_items fst snd]. unfold formatted.
  unfold formats in Hit. cbn [list_block formatted_text] in Hit.
  destruct (Inline.process_text_formatting t); [|congruence].
  cbn [bind]. now rewrite IH.
Qed.

(** X12.  A list takes the whole run of bullet lines, numbered lines and
    blank lines that starts at the cursor, up to the first line that is
    none of these or to the end of the source, and returns the index of
    the last line of the run: one less than the start when the run is
    empty, so -1 at the start of the source.  Each bullet or numbered
    line gives one item, in the order of the source, with the marker (and
    the number of a numbered line) removed; a blank line (empty once
    stripped of the white space of [str.strip]) gives nothing and does
    not end the list, and blank lines at the end of the run are consumed
    with it.  This is for items whose formatting returns: the function
    formats the text of each item. *)
Theorem list_takes_the_whole_run (self : Converter)
    (pre run post : list string) :
  Forall (fun l => list_item_of l <> None \/ is_blank l = true) run ->
  match post with
  | [] => True
  | l :: _ => list_item_of l = None /\ is_blank l = false
  end ->
  Forall formats (map list_block (items_of run)) ->
  process_list self (pre ++ run ++ post) (List.length pre) =
  Ok ((Z.of_nat (List.length pre + List.length run) - 1)%Z,
      add_blocks self (map list_block (items_of run))).
Proof.
  intros Hrun Hpost Hformats. unfold process_list.
  rewrite skipn_app_length, list_loop_run by assumption. cbn [app].
  now rewrite add_list_items_formats.
Qed.

Lemma list_takes_the_whole_run_witness :
  process_list (new_converter numbered_settings)
    (["intro"] ++ ["- a"; EmptyString; "12. b"; "  * c"; EmptyString] ++ ["text"; "- later"])
    (List.length ["intro"]) =
  Ok ((Z.of_nat (List.length ["intro"]
                 + List.length ["- a"; EmptyString; "12. b"; "  * c"; EmptyString]) - 1)%Z,
      add_blocks (new_converter numbered_settings)
        (map list_block (items_of ["- a"; EmptyString; "12. b"; "  * c"; EmptyString]))).
Proof.
  apply (list_takes_the_whole_run (new_converter numbered_settings)
           ["intro"] ["- a"; EmptyString; "12. b"; "  * c"; EmptyString] ["text"; "- later"]).
  - repeat (apply Forall_cons;
            [first [right; reflexivity
                   |left; intros H; vm_compute in H; discriminate H]|]).
    apply Forall_nil.
  - split; reflexivity.
  - repeat (apply Forall_cons; [intros H; vm_compute in H; discriminate H|]).
    apply Forall_nil.
Defined.

End ListRuns.

(* ================================================================= *)
(** * Inline formatting *)

Section InlineFormatting.
Import PyStr Inline.
Open Scope nat_scope.

Lemma every_app (p : ascii -> bool) (a b : string) :
  every p (a ++ b) = every p a && every p b.
Proof.
  induction a as [|c a IH]; cbn [append every]; [reflexivity|].
  now rewrite IH, andb_assoc.
Qed.

Lemma every_weaken (p q : ascii -> bool) (s : string) :
  (forall c, p c = true -> q c = true) -> every p s = true -> every q s = true.
Proof.
  intros Hpq. induction s as [|c s IH]; cbn [every]; [reflexivity|].
  intros H. apply andb_true_iff in H as [Hc Hs]. now rewrite (Hpq c Hc), IH.
Qed.

Lemma length_append (a b : string) :
  String.length (a ++ b) = String.length a + String.length b.
Proof. induction a as [|c a IH]; cbn; [reflexivity|now rewrite IH]. Qed.

Lemma substring_all (s : string) : String.substring 0 (String.length s) s = s.
Proof. induction s as [|c s IH]; cbn; [reflexivity|now rewrite IH]. Qed.

Lemma substring_prefix (x y : string) :
  String.substring 0 (String.length x) (x ++ y) = x.
Proof.
  induction x as [|c x IH]; cbn [append String.length String.substring].
  - now destruct y.
  - now rewrite IH.
Qed.

Lemma substring_skip (x y : string) (n : nat) :
  String.substring (String.length x) n (x ++ y) = String.substring 0 n y.
Proof. induction x as [|c x IH]; cbn; [reflexivity|exact IH]. Qed.

Lemma drop_app (x y : string) : Re.drop (String.length x) (x ++ y) = y.
Proof.
  unfold Re.drop. rewrite substring_skip, length_append.
  replace (String.length x + String.length y - String.length x)
    with (String.length y) by lia.
  apply substring_all.
Qed.

Lemma startswith_app (p s : string) : startswith (p ++ s) p = true.
Proof.
  induction p as [|c p IH]; cbn [append startswith]; [reflexivity|].
  now rewrite Ascii.eqb_refl, IH.
Qed.

Lemma endswith_app (x p : string) : endswith (x ++ p) p = true.
Proof.
  unfold endswith. rewrite length_append.
  replace (String.length p <=? String.length x + String.length p) with true
    by (symmetry; apply Nat.leb_le; lia).
  replace (String.length x + String.length p - String.length p)
    with (String.length x) by lia.
  rewrite substring_skip, substring_all. unfold eqb. now rewrite String.eqb_refl.
Qed.

Lemma slice_app (a x b : string) :
  slice (String.length a) (String.length b) (a ++ x ++ b) = x.
Proof.
  unfold slice. rewrite substring_skip, !length_append.
  replace (String.length a + (String.length x + String.length b)
           - String.length b - String.length a) with (String.length x) by lia.
  apply substring_prefix.
Qed.

(** ** The footnote references *)

Lemma ordinary_no_bracket (c : ascii) : ordinary c = true -> no_bracket c = true.
Proof.
  unfold ordinary, no_bracket.
  destruct (Ascii.eqb c "["); [|reflexivity].
  now rewrite !orb_true_r.
Qed.

Lemma ordinary_no_star_tick_brace (c : ascii) :
  ordinary c = true -> no_star_tick_brace c = true.
Proof.
  unfold ordinary, no_star_tick_brace.
  destruct (Ascii.eqb c "*" || Ascii.eqb c "`" || Ascii.eqb c "{");
    [discriminate|reflexivity].
Qed.

Lemma footnote_ref_at_other (c : ascii) (s : string) :
  no_bracket c = true -> footnote_ref_at (String c s) = None.
Proof.
  unfold no_bracket. destruct (Ascii.eqb_spec c "["); [discriminate|].
  intros _. destruct c as [[] [] [] [] [] [] [] []]; try reflexivity.
  contradiction.
Qed.

Lemma findall_none (s : string) :
  every no_bracket s = true -> findall_loop 0 s = [].
Proof.
  induction s as [|c s IH]; cbn [every findall_loop]; [reflexivity|].
  intros H. apply andb_true_iff in H as [Hc Hs].
  now rewrite footnote_ref_at_other, IH.
Qed.

Lemma findall_prefix (a s : string) :
  every no_bracket a = true -> findall_loop 0 (a ++ s) = findall_loop 0 s.
Proof.
  induction a as [|c a IH]; cbn [every append]; [reflexivity|].
  intros H. apply andb_true_iff in H as [Hc Ha].
  cbn [findall_loop]. now rewrite footnote_ref_at_other, IH.
Qed.

Lemma findall_skip (x s : string) (n : nat) :
  findall_loop (String.length x + n) (x ++ s) = findall_loop n s.
Proof. induction x as [|c x IH]; [reflexivity|exact IH]. Qed.

Lemma footnote_ref_at_ref (num rest : string) :
  num <> EmptyString -> every is_digit num = true ->
  footnote_ref_at ("[^" ++ num ++ "]" ++ rest) = Some num.
Proof.
  intros Hnum Hd. cbn [append footnote_ref_at].
  rewrite span_digits; [|now apply made_of_digits|reflexivity].
  destruct num; [contradiction|reflexivity].
Qed.

Lemma findall_one (a num b : string) :
  every no_bracket a = true -> num <> EmptyString -> every is_digit num = true ->
  every no_bracket b = true ->
  findall (a ++ "[^" ++ num ++ "]" ++ b) = [num].
Proof.
  intros Ha Hnum Hd Hb. unfold findall. rewrite findall_prefix by assumption.
  assert (Href := footnote_ref_at_ref num b Hnum Hd).
  cbn [append] in *. cbn [findall_loop]. rewrite Href.
  replace (String.length num + 2) with (S (String.length num + 1)) by lia.
  cbn [findall_loop]. rewrite findall_skip. cbn [findall_loop].
  now rewrite findall_none.
Qed.

Lemma startswith_other (c h : ascii) (s pt : string) :
  Ascii.eqb h c = false -> startswith (String c s) (String h pt) = false.
Proof. intros H. cbn [startswith]. now rewrite H. Qed.

Lemma replace_prefix (h : ascii) (pt rep a s : string) :
  every (fun c => negb (Ascii.eqb h c)) a = true ->
  replace_loop (String h pt) rep 0 (a ++ s) =
  (a ++ replace_loop (String h pt) rep 0 s)%string.
Proof.
  induction a as [|c a IH]; cbn [every append]; [reflexivity|].
  intros H. apply andb_true_iff in H as [Hc Ha].
  cbn [replace_loop]. rewrite startswith_other
    by (now destruct (Ascii.eqb h c)).
  now rewrite IH.
Qed.

Lemma replace_skip (pat rep x s : string) (n : nat) :
  replace_loop pat rep (String.length x + n) (x ++ s) = replace_loop pat rep n s.
Proof. induction x as [|c x IH]; [reflexivity|exact IH]. Qed.

Lemma replace_none (h : ascii) (pt rep s : string) :
  every (fun c => negb (Ascii.eqb h c)) s = true ->
  replace_loop (String h pt) rep 0 s = s.
Proof.
  intros H. rewrite <- (append_empty_r s) at 1.
  rewrite replace_prefix by assumption. cbn. apply append_empty_r.
Qed.

Lemma no_bracket_flip (s : string) :
  every no_bracket s = true ->
  every (fun c => negb (Ascii.eqb "[" c)) s = true.
Proof.
  apply every_weaken. intros c. unfold no_bracket.
  now rewrite Ascii.eqb_sym.
Qed.

(** The text with the reference replaced by its marker. *)
Lemma mark_one (a num b : string) :
  every no_bracket a = true -> num <> EmptyString -> every is_digit num = true ->
  every no_bracket b = true ->
  mark_footnotes (a ++ "[^" ++ num ++ "]" ++ b) =
  (a ++ "{FOOTNOTE_" ++ num ++ "}" ++ b)%string.
Proof.
  intros Ha Hnum Hd Hb. unfold mark_footnotes.
  rewrite findall_one by assumption. cbn [fold_left]. unfold replace_all.
  assert (Hstart := startswith_app ("[^" ++ num ++ "]") b).
  rewrite !append_assoc in Hstart.
  cbn [append] in *.
  rewrite replace_prefix by now apply no_bracket_flip.
  f_equal. cbn [replace_loop]. rewrite Hstart.
  cbn [String.length Nat.sub append]. do 10 f_equal.
  change (num ++ String "]" b)%string with (num ++ ("]" ++ b))%string.
  rewrite <- (append_assoc num "]" b).
  rewrite <- (Nat.add_0_r (String.length (num ++ "]"))).
  rewrite replace_skip, replace_none by now apply no_bracket_flip.
  now rewrite append_assoc.
Qed.

Lemma mark_none (s : string) :
  every no_bracket s = true -> mark_footnotes s = s.
Proof.
  intros H. unfold mark_footnotes, findall. now rewrite findall_none.
Qed.

(** ** The split into parts *)

Ltac ascii_cases c :=
  destruct c as [[] [] [] [] [] [] [] []];
  try reflexivity; try discriminate.

Lemma match_at_other (c : ascii) (s : string) :
  no_star_tick_brace c = true -> match_at (String c s) = None.
Proof. intros H. ascii_cases c. Qed.

Lemma split_prefix (a : string) :
  forall (acc s : string),
    every no_star_tick_brace a = true ->
    split_loop 0 acc (a ++ s) = split_loop 0 (acc ++ a) s.
Proof.
  induction a as [|c a IH]; intros acc s; cbn [every append].
  - now rewrite append_empty_r.
  - intros H. apply andb_true_iff in H as [Hc Ha].
    cbn [split_loop]. rewrite match_at_other, IH by assumption.
    now rewrite append_assoc.
Qed.

Lemma split_skip (x : string) :
  forall (acc s : string) (n : nat),
    split_loop (String.length x + n) acc (x ++ s) = split_loop n acc s.
Proof. induction x as [|c x IH]; intros acc s n; [reflexivity|apply IH]. Qed.

Lemma split_plain (acc s : string) :
  every no_star_tick_brace s = true -> split_loop 0 acc s = [(acc ++ s)%string].
Proof.
  intros H. rewrite <- (append_empty_r s) at 1.
  now rewrite split_prefix.
Qed.

(** At a match that is the whole of [m]: the text so far, the match, and
    the split of what follows. *)
Lemma split_match (m b acc : string) :
  m <> EmptyString ->
  match_at (m ++ b) = Some (String.length m) ->
  split_loop 0 acc (m ++ b) = acc :: m :: split_loop 0 EmptyString b.
Proof.
  intros Hne Hm. destruct m as [|c m]; [contradiction|].
  cbn [append] in *. cbn [split_loop]. rewrite Hm. f_equal. f_equal.
  - change (String c (m ++ b)) with (String c m ++ b)%string.
    apply substring_prefix.
  - cbn [String.length Nat.sub].
    rewrite <- (Nat.add_0_r (String.length m - 0)), Nat.sub_0_r.
    apply split_skip.
Qed.

Lemma lazy_until_app (h : ascii) (ct x b : string) :
  every (fun c => negb (Ascii.eqb h c) && not_LF c) x = true ->
  lazy_until (String h ct) (x ++ String h ct ++ b) = Some (String.length x).
Proof.
  induction x as [|c x IH]; cbn [every append].
  - intros _. change (String h (ct ++ b)) with (String h ct ++ b)%string.
    destruct ct; cbn [lazy_until append startswith];
      rewrite Ascii.eqb_refl; cbn [andb]; [reflexivity|].
    rewrite Ascii.eqb_refl. cbn [andb].
    change (startswith (ct ++ b) ct) with (startswith (ct ++ b) ct).
    now rewrite startswith_app.
  - intros H. apply andb_true_iff in H as [Hc Hx].
    apply andb_true_iff in Hc as [Hh Hlf].
    cbn [lazy_until]. rewrite startswith_other by (now destruct (Ascii.eqb h c)).
    unfold not_LF in Hlf. destruct (Ascii.eqb c LF); [discriminate|].
    cbn [append] in IH. now rewrite IH.
Qed.

(** ** The matches *)

Lemma ordinary_no_star (c : ascii) : ordinary c = true -> no_star c = true.
Proof. intros H. ascii_cases c. Qed.

Lemma ordinary_no_tick (c : ascii) : ordinary c = true -> no_tick c = true.
Proof. intros H. ascii_cases c. Qed.

Lemma digit_no_star (c : ascii) : is_digit c = true -> no_star c = true.
Proof. intros H. ascii_cases c. Qed.

Lemma match_at_bold (x b : string) :
  every no_star x = true ->
  match_at ("**" ++ x ++ "**" ++ b) = Some (String.length ("**" ++ x ++ "**")).
Proof.
  intros Hx. cbn [append match_at].
  assert (H := lazy_until_app "*" "*" x b Hx). cbn [append] in H.
  rewrite H. cbn [String.length]. rewrite length_append. cbn [String.length].
  f_equal; lia.
Qed.

Lemma match_at_italic (c : ascii) (x b : string) :
  every no_star (String c x) = true ->
  match_at ("*" ++ String c x ++ "*" ++ b) =
  Some (String.length ("*" ++ String c x ++ "*")).
Proof.
  intros Hx.
  assert (H := lazy_until_app "*" EmptyString (String c x) b Hx).
  cbn [append] in *. cbn [match_at].
  cbn [every] in Hx. apply andb_true_iff in Hx as [Hc _].
  replace (match c with
           | "*"%char =>
               match lazy_until "**" (x ++ String "*" b) with
               | Some j => Some (4 + j)
               | None => None
               end
           | _ => None
           end) with (@None nat) by (clear H; ascii_cases c).
  rewrite H. cbn [String.length]. rewrite length_append. cbn [String.length].
  f_equal; lia.
Qed.

Lemma match_at_code (x b : string) :
  every no_tick x = true ->
  match_at ("`" ++ x ++ "`" ++ b) = Some (String.length ("`" ++ x ++ "`")).
Proof.
  intros Hx.
  assert (H := lazy_until_app "`" EmptyString x b Hx).
  cbn [append] in *. cbn [match_at]. rewrite H.
  cbn [String.length]. rewrite length_append. cbn [String.length].
  f_equal; lia.
Qed.

Lemma match_at_marker (num b : string) :
  num <> EmptyString -> every is_digit num = true ->
  match_at ("{FOOTNOTE_" ++ num ++ "}" ++ b) =
  Some (String.length ("{FOOTNOTE_" ++ num ++ "}")).
Proof.
  intros Hnum Hd.
  assert (Hdrop := drop_app "{FOOTNOTE_" (num ++ "}" ++ b)).
  assert (Hstart := startswith_app "{FOOTNOTE_" (num ++ "}" ++ b)).
  change (String.length "{FOOTNOTE_") with 10 in Hdrop.
  cbn [append] in *. unfold match_at. rewrite Hstart, Hdrop.
  rewrite span_digits; [|now apply made_of_digits|reflexivity].
  destruct num as [|d num]; [contradiction|].
  cbn [String.length]. rewrite length_append. cbn [String.length].
  f_equal; lia.
Qed.

(** ** The runs *)

Lemma format_part_plain (c : ascii) (s : string) :
  no_star_tick_brace c = true ->
  format_part (String c s) = Some (plain_run (String c s)).
Proof. intros H. ascii_cases c. Qed.

Lemma format_parts_plain (a : string) (rest : list string) :
  every no_star_tick_brace a = true ->
  format_parts (a :: rest) =
  match format_parts rest with
  | Some rs => Some (plain_runs a ++ rs)
  | None => None
  end.
Proof.
  intros Ha. destruct a as [|c a].
  - cbn. now destruct (format_parts rest).
  - cbn [every] in Ha. apply andb_true_iff in Ha as [Hc _].
    cbn [format_parts eqb String.eqb]. now rewrite format_part_plain.
Qed.

Lemma format_part_bold (x : string) :
  format_part ("**" ++ x ++ "**") = Some (bold_run x).
Proof.
  unfold format_part.
  rewrite startswith_app.
  rewrite <- (append_assoc "**" x "**"), endswith_app. cbn [andb].
  rewrite (append_assoc "**" x "**").
  change 2 with (String.length "**") at 1 2.
  now rewrite slice_app.
Qed.

Lemma format_part_italic (c : ascii) (x : string) :
  no_star c = true ->
  format_part ("*" ++ String c x ++ "*") = Some (italic_run (String c x)).
Proof.
  intros Hc. unfold format_part.
  replace (startswith ("*" ++ String c x ++ "*") "**") with false
    by (ascii_cases c).
  rewrite startswith_app.
  rewrite <- (append_assoc "*" (String c x) "*"), endswith_app. cbn [andb].
  rewrite (append_assoc "*" (String c x) "*").
  change 1 with (String.length "*") at 1 2.
  now rewrite slice_app.
Qed.

Lemma format_part_code (x : string) :
  format_part ("`" ++ x ++ "`") = Some (code_run x).
Proof.
  unfold format_part.
  change (startswith ("`" ++ x ++ "`") "**") with false.
  change (startswith ("`" ++ x ++ "`") "*") with false.
  rewrite startswith_app.
  rewrite <- (append_assoc "`" x "`"), endswith_app. cbn [andb].
  rewrite (append_assoc "`" x "`").
  change 1 with (String.length "`") at 1 2.
  now rewrite slice_app.
Qed.

Lemma search_marker_cons (c : ascii) (s : string) :
  search_marker (String c s) =
  if startswith (String c s) "FOOTNOTE_" then
    match span_chars digit_len (Re.drop 9 (String c s)) with
    | (EmptyString, _) => search_marker s
    | (digits, _) => Some digits
    end
  else search_marker s.
Proof. reflexivity. Qed.

Lemma search_marker_found (num rest : string) :
  num <> EmptyString -> every is_digit num = true ->
  digit_len rest = 0 ->
  search_marker ("{FOOTNOTE_" ++ num ++ rest) = Some num.
Proof.
  intros Hnum Hd Hrest.
  change (search_marker ("{FOOTNOTE_" ++ num ++ rest))
    with (search_marker (String "F" ("OOTNOTE_" ++ num ++ rest))).
  rewrite search_marker_cons.
  change (String "F" ("OOTNOTE_" ++ num ++ rest))
    with ("FOOTNOTE_" ++ (num ++ rest))%string.
  rewrite startswith_app.
  change 9 with (String.length "FOOTNOTE_"). rewrite drop_app.
  rewrite span_digits by (try assumption; now apply made_of_digits).
  destruct num; [contradiction|reflexivity].
Qed.

Lemma format_part_marker (num : string) :
  num <> EmptyString -> every is_digit num = true ->
  format_part ("{FOOTNOTE_" ++ num ++ "}") = Some (superscript_run num).
Proof.
  intros Hnum Hd. unfold format_part.
  change (startswith ("{FOOTNOTE_" ++ num ++ "}") "**") with false.
  change (startswith ("{FOOTNOTE_" ++ num ++ "}") "*") with false.
  change (startswith ("{FOOTNOTE_" ++ num ++ "}") "`") with false.
  rewrite startswith_app.
  rewrite <- (append_assoc "{FOOTNOTE_" num "}"), endswith_app. cbn [andb].
  rewrite (append_assoc "{FOOTNOTE_" num "}").
  now rewrite search_marker_found.
Qed.

Lemma startswith_split (p : string) :
  forall s, startswith s p = true -> exists r, s = (p ++ r)%string.
Proof.
  induction p as [|c p IH]; intros s; cbn [startswith].
  - intros _. now exists s.
  - destruct s as [|d s]; [discriminate|].
    intros H. apply andb_true_iff in H as [Hc Hp].
    apply Ascii.eqb_eq in Hc. subst d.
    destruct (IH s Hp) as [r ->]. now exists r.
Qed.

Lemma search_marker_none (s : string) :
  digit_free s = true -> search_marker s = None.
Proof.
  induction s as [|c s IH]; [reflexivity|].
  intros H. assert (Hs : digit_free s = true)
    by (cbn [digit_free] in H; now apply andb_true_iff in H).
  cbn [search_marker].
  destruct (startswith (String c s) "FOOTNOTE_") eqn:E; [|now apply IH].
  apply startswith_split in E as [r E]. rewrite E in *.
  change 9 with (String.length "FOOTNOTE_"). rewrite drop_app.
  rewrite span_chars_none; [now apply IH|].
  eapply digit_free_head, digit_free_app, H.
Qed.

(** ** What the function returns *)

Lemma format_parts_cons (part : string) (r : Run) (rest : list string) :
  part <> EmptyString ->
  format_part part = Some r ->
  format_parts (part :: rest) =
  match format_parts rest with
  | Some rs => Some (r :: rs)
  | None => None
  end.
Proof.
  intros Hne Hr. cbn [format_parts]. unfold eqb.
  destruct (String.eqb_spec part EmptyString); [contradiction|].
  now rewrite Hr.
Qed.

Lemma ordinary_plain (s : string) :
  every ordinary s = true -> every no_star_tick_brace s = true.
Proof. apply every_weaken, ordinary_no_star_tick_brace. Qed.

(** One match [m] between two stretches of ordinary text. *)
Lemma parts_one_span (a m b : string) (r : Run) :
  every ordinary a = true -> every ordinary b = true ->
  m <> EmptyString ->
  match_at (m ++ b) = Some (String.length m) ->
  format_part m = Some r ->
  format_parts (split_parts (a ++ m ++ b)) =
  Some (plain_runs a ++ [r] ++ plain_runs b).
Proof.
  intros Ha Hb Hne Hm Hr. unfold split_parts.
  rewrite split_prefix by now apply ordinary_plain.
  rewrite split_match by assumption.
  rewrite split_plain by now apply ordinary_plain.
  cbn [append].
  rewrite format_parts_plain by now apply ordinary_plain.
  rewrite (format_parts_cons m r) by assumption.
  rewrite format_parts_plain by now apply ordinary_plain.
  cbn [format_parts]. now rewrite app_nil_r.
Qed.

Lemma ordinary_text_unmarked (s : string) :
  every ordinary s = true -> every no_bracket s = true.
Proof. apply every_weaken, ordinary_no_bracket. Qed.

(** X13.  Text without an asterisk, a backtick, an opening brace or an
    opening bracket is rendered as it is: one plain run carrying the whole
    text, and no run at all for the empty text. *)
Theorem ordinary_text_is_one_plain_run (text : string) :
  every ordinary text = true ->
  process_text_formatting text = Some (plain_runs text).
Proof.
  intros H. unfold process_text_formatting.
  rewrite mark_none by now apply ordinary_text_unmarked.
  unfold split_parts. rewrite split_plain by now apply ordinary_plain.
  cbn [append]. rewrite format_parts_plain by now apply ordinary_plain.
  cbn [format_parts]. now rewrite app_nil_r.
Qed.

Lemma ordinary_text_is_one_plain_run_witness :
  process_text_formatting "Plain text, with (parentheses) and a_b." =
  Some (plain_runs "Plain text, with (parentheses) and a_b.").
Proof.
  apply (ordinary_text_is_one_plain_run "Plain text, with (parentheses) and a_b.").
  reflexivity.
Defined.

(** X14.  A footnote reference [[^N]] between two stretches of ordinary
    text becomes a superscript run that carries the number N, with the
    text before it and the text after it in plain runs of their own. *)
Theorem footnote_reference_is_superscript (a num b : string) :
  every ordinary a = true ->
  num <> EmptyString -> every is_digit num = true ->
  every ordinary b = true ->
  process_text_formatting (a ++ "[^" ++ num ++ "]" ++ b) =
  Some (plain_runs a ++ [superscript_run num] ++ plain_runs b).
Proof.
  intros Ha Hnum Hd Hb. unfold process_text_formatting.
  rewrite mark_one by (auto using ordinary_text_unmarked).
  rewrite <- (append_assoc num "}" b), <- (append_assoc "{FOOTNOTE_" (num ++ "}") b).
  apply parts_one_span; auto.
  - discriminate.
  - rewrite (append_assoc "{FOOTNOTE_" (num ++ "}") b), (append_assoc num "}" b).
    now rewrite match_at_marker.
  - now apply format_part_marker.
Qed.

Lemma footnote_reference_is_superscript_witness :
  process_text_formatting ("See Knuth" ++ "[^" ++ "12" ++ "]" ++ " for more.") =
  Some (plain_runs "See Knuth" ++ [superscript_run "12"] ++ plain_runs " for more.").
Proof.
  apply (footnote_reference_is_superscript "See Knuth" "12" " for more.").
  - reflexivity.
  - discriminate.
  - reflexivity.
  - reflexivity.
Defined.

Lemma ordinary_stars (s : string) :
  every ordinary s = true -> every no_star s = true.
Proof. apply every_weaken, ordinary_no_star. Qed.

Lemma ordinary_ticks (s : string) :
  every ordinary s = true -> every no_tick s = true.
Proof. apply every_weaken, ordinary_no_tick. Qed.

(** X15.  One span of emphasis between two stretches of ordinary text:
    [**x**] gives a bold run, [*x*] an italic run (for [x] not empty) and
    a span between backticks a run in the code style, each carrying [x]
    without its markers, with the text before and after in plain runs. *)
Theorem emphasis_is_one_run (a x b : string) :
  every ordinary a = true -> every ordinary x = true -> every ordinary b = true ->
  process_text_formatting (a ++ ("**" ++ x ++ "**") ++ b) =
    Some (plain_runs a ++ [bold_run x] ++ plain_runs b) /\
  (x <> EmptyString ->
   process_text_formatting (a ++ ("*" ++ x ++ "*") ++ b) =
     Some (plain_runs a ++ [italic_run x] ++ plain_runs b)) /\
  process_text_formatting (a ++ ("`" ++ x ++ "`") ++ b) =
    Some (plain_runs a ++ [code_run x] ++ plain_runs b).
Proof.
  intros Ha Hx Hb.
  assert (Hmark : forall m,
            every no_bracket m = true ->
            mark_footnotes (a ++ m ++ b) = (a ++ m ++ b)%string).
  { intros m Hm. apply mark_none. rewrite !every_app, Hm.
    now rewrite !ordinary_text_unmarked. }
  assert (Hxb : every no_bracket x = true) by now apply ordinary_text_unmarked.
  unfold process_text_formatting. split; [|split].
  - rewrite Hmark by (rewrite !every_app, Hxb; reflexivity).
    apply parts_one_span; auto; [discriminate| |apply format_part_bold].
    rewrite !append_assoc. apply match_at_bold. now apply ordinary_stars.
  - intros Hne. destruct x as [|c x]; [contradiction|].
    rewrite Hmark by (rewrite !every_app, Hxb; reflexivity).
    apply parts_one_span; auto; [discriminate| |].
    + rewrite !append_assoc. apply match_at_italic. now apply ordinary_stars.
    + apply format_part_italic. apply ordinary_no_star.
      cbn [every] in Hx. now apply andb_true_iff in Hx.
  - rewrite Hmark by (rewrite !every_app, Hxb; reflexivity).
    apply parts_one_span; auto; [discriminate| |apply format_part_code].
    rewrite !append_assoc. apply match_at_code. now apply ordinary_ticks.
Qed.

Lemma emphasis_is_one_run_witness :
  process_text_formatting ("a " ++ ("**" ++ "strong" ++ "**") ++ " b") =
    Some (plain_runs "a " ++ [bold_run "strong"] ++ plain_runs " b") /\
  ("strong" <> EmptyString ->
   process_text_formatting ("a " ++ ("*" ++ "strong" ++ "*") ++ " b") =
     Some (plain_runs "a " ++ [italic_run "strong"] ++ plain_runs " b")) /\
  process_text_formatting ("a " ++ ("`" ++ "strong" ++ "`") ++ " b") =
    Some (plain_runs "a " ++ [code_run "strong"] ++ plain_runs " b").
Proof.
  apply (emphasis_is_one_run "a " "strong" " b"); reflexivity.
Defined.

(** X16.  The internal marker without a number makes the function fail.
    A text that reads [{FOOTNOTE_], then ordinary characters none of which
    is a decimal digit ([\d], of any script), then a closing brace is
    taken for a footnote marker by its first and last characters, the
    search for its number finds nothing, and [.group(1)] is called on
    [None]: [AttributeError]. *)
Theorem marker_without_number_raises (x : string) :
  every ordinary x = true ->
  digit_free x = true ->
  process_text_formatting ("{FOOTNOTE_" ++ x ++ "}") = None.
Proof.
  intros Hord Hnd.
  assert (Hfree : digit_free (x ++ "}") = true) by now apply digit_free_brace.
  unfold process_text_formatting.
  rewrite mark_none
    by (rewrite !every_app, (ordinary_text_unmarked x Hord); reflexivity).
  assert (Hsplit : split_parts ("{FOOTNOTE_" ++ x ++ "}") =
                   [("{FOOTNOTE_" ++ x ++ "}")%string]).
  { unfold split_parts.
    change ("{FOOTNOTE_" ++ x ++ "}")%string
      with (String "{" ("FOOTNOTE_" ++ x ++ "}"))%string at 1.
    cbn [split_loop].
    replace (match_at (String "{" ("FOOTNOTE_" ++ x ++ "}"))) with (@None nat).
    - rewrite split_plain; [reflexivity|].
      rewrite !every_app, (ordinary_plain x Hord). reflexivity.
    - change (String "{" ("FOOTNOTE_" ++ x ++ "}"))%string
        with ("{FOOTNOTE_" ++ (x ++ "}"))%string.
      assert (Hdrop := drop_app "{FOOTNOTE_" (x ++ "}")).
      assert (Hstart := startswith_app "{FOOTNOTE_" (x ++ "}")).
      change (String.length "{FOOTNOTE_") with 10 in Hdrop.
      cbn [append] in Hdrop, Hstart |- *. unfold match_at.
      rewrite Hstart, Hdrop.
      rewrite span_chars_none; [reflexivity|].
      now apply digit_free_head. }
  rewrite Hsplit. cbn [format_parts].
  change (eqb ("{FOOTNOTE_" ++ x ++ "}") EmptyString) with false. cbv iota.
  unfold format_part.
  change (startswith ("{FOOTNOTE_" ++ x ++ "}") "**") with false.
  change (startswith ("{FOOTNOTE_" ++ x ++ "}") "*") with false.
  change (startswith ("{FOOTNOTE_" ++ x ++ "}") "`") with false.
  rewrite startswith_app.
  rewrite <- (append_assoc "{FOOTNOTE_" x "}"), endswith_app. cbn [andb].
  rewrite search_marker_none; [reflexivity|].
  rewrite append_assoc.
  change ("{FOOTNOTE_" ++ x ++ "}")%string
    with (String "{" (String "F" (String "O" (String "O" (String "T"
           (String "N" (String "O" (String "T" (String "E" (String "_"
           (x ++ "}"))))))))))).
  cbn [digit_free]. rewrite Hfree. reflexivity.
Qed.

Lemma marker_without_number_raises_witness :
  process_text_formatting ("{FOOTNOTE_" ++ "first" ++ "}") = None.
Proof.
  apply (marker_without_number_raises "first"); reflexivity.
Defined.

(** X17.  Emphasis is not nested, and a footnote reference inside a bold
    span is not rendered: the reference is replaced by the internal
    marker before the text is split, the whole span is then one bold run,
    and its text holds the marker [{FOOTNOTE_N}] as it is. *)
Theorem reference_inside_bold_shows_the_marker (x num y : string) :
  every ordinary x = true ->
  num <> EmptyString -> every is_digit num = true ->
  every ordinary y = true ->
  process_text_formatting ("**" ++ x ++ "[^" ++ num ++ "]" ++ y ++ "**") =
  Some [bold_run (x ++ "{FOOTNOTE_" ++ num ++ "}" ++ y)].
Proof.
  intros Hx Hnum Hd Hy. unfold process_text_formatting.
  assert (Hmark := mark_one ("**" ++ x) num (y ++ "**")).
  rewrite !append_assoc in Hmark.
  rewrite Hmark;
    [|rewrite every_app, (ordinary_text_unmarked x Hx); reflexivity
     |assumption|assumption
     |rewrite every_app, (ordinary_text_unmarked y Hy); reflexivity].
  clear Hmark.
  set (inner := (x ++ "{FOOTNOTE_" ++ num ++ "}" ++ y)%string).
  assert (Hinner : every no_star inner = true).
  { unfold inner. rewrite !every_app.
    rewrite (ordinary_stars x Hx), (ordinary_stars y Hy).
    rewrite (every_weaken is_digit no_star num digit_no_star Hd). reflexivity. }
  replace ("**" ++ x ++ "{FOOTNOTE_" ++ num ++ "}" ++ y ++ "**")%string
    with (EmptyString ++ ("**" ++ inner ++ "**") ++ EmptyString)%string.
  - rewrite (parts_one_span EmptyString ("**" ++ inner ++ "**") EmptyString
               (bold_run inner)); try reflexivity.
    + discriminate.
    + rewrite !append_assoc. now apply match_at_bold.
    + apply format_part_bold.
  - unfold inner. rewrite !append_assoc. reflexivity.
Qed.

Lemma reference_inside_bold_shows_the_marker_witness :
  process_text_formatting ("**" ++ "see " ++ "[^" ++ "3" ++ "]" ++ " here" ++ "**") =
  Some [bold_run ("see " ++ "{FOOTNOTE_" ++ "3" ++ "}" ++ " here")].
Proof.
  apply (reference_inside_bold_shows_the_marker "see " "3" " here").
  - reflexivity.
  - discriminate.
  - reflexivity.
  - reflexivity.
Defined.

End InlineFormatting.

(* ================================================================= *)
(** * White space and digits outside ASCII *)

Section OtherScripts.
Import PyStr.

(** The no-break space is white space for [str.strip] and for [\s]: it
    is stripped from a line, a line made of it is blank, a fence after
    it closes a code block, and a hash sign followed by it starts a
    heading. *)
Example no_break_space_is_white_space :
  strip (NBSP ++ "```" ++ NBSP) = "```" /\
  is_fence (NBSP ++ "```") = true /\
  is_blank NBSP = true /\
  Re.heading ("#" ++ NBSP ++ "A") = Some (1%Z, "A") /\
  step [("#" ++ NBSP ++ "A")%string] 0 (new_converter default_settings) [] =
    Ok (1%nat, add_block (new_converter default_settings) (Heading 1 "A"), []).
Proof. vm_compute. repeat split. Qed.

(** The digits of another script are digits for [\d] and for [int]: a
    footnote can be numbered with them, and the internal marker with
    such a number is a footnote reference. *)
Example digits_of_other_scripts :
  Re.footnote_def "[^١٢]: note" = Some ("١٢", "note") /\
  int "١٢" = Some 12%Z /\
  Inline.process_text_formatting "{FOOTNOTE_١}" =
    Some [Inline.superscript_run "١"].
Proof. vm_compute. repeat split. Qed.

(** A paragraph that reads as a marker without a number ends the
    conversion with [AttributeError]. *)
Example marker_in_a_paragraph_raises :
  convert_lines (new_converter default_settings) ["{FOOTNOTE_x}"] =
  Raise AttributeError.
Proof. vm_compute. reflexivity. Qed.

(** [process_list] on a line that is no item returns the index before
    it. *)
Example empty_list_run_at_the_start :
  process_list (new_converter default_settings) ["text"] 0 =
  Ok ((-1)%Z, new_converter default_settings).
Proof. vm_compute. reflexivity. Qed.

End OtherScripts.

(* ================================================================= *)
(** * The dump of the file contents *)

Section BinaryFiles.
Import PyStr Contents.
Open Scope nat_scope.

(** X18. [is_likely_binary] answers True for a readable file exactly when
    one of its first 8192 bytes (8 * 1024, [chunk_size]) is the NUL byte;
    a NUL further on does not count. *)
Theorem binary_means_nul_in_first_chunk (raw : string) :
  is_likely_binary (Readable raw) = true <->
  exists k, k < chunk_size /\ String.get k raw = Some NUL.
Proof.
  unfold is_likely_binary. generalize chunk_size as n. intros n.
  revert raw. induction n as [|n IH]; intros raw.
  - cbn. split; [discriminate|]. intros [k [H _]]. lia.
  - destruct raw as [|d r]; cbn [read contains].
    + split; [discriminate|]. intros [k [_ H]]. destruct k; discriminate.
    + rewrite orb_true_iff, IH. split.
      * intros [H|[k [Hk Hg]]].
        -- apply Ascii.eqb_eq in H. subst d. exists 0. split; [lia|reflexivity].
        -- exists (S k). split; [lia|exact Hg].
      * intros [[|k] [Hk Hg]]; cbn in Hg.
        -- left. injection Hg as ->. apply Ascii.eqb_refl.
        -- right. exists k. split; [lia|exact Hg].
Qed.

End BinaryFiles.

Section TextContent.
Import PyStr Contents.
Open Scope nat_scope.





Lemma number_lines_length (i : Z) (lines : list string) :
  List.length (number_lines i lines) = List.length lines.
Proof.
  revert i. induction lines as [|l r IH]; intros i; cbn; [reflexivity|].
  now rewrite IH.
Qed.

Lemma number_lines_nth (lines : list string) :
  forall (i : Z) (k : nat) (line : string),
    nth_error lines k = Some line ->
    nth_error (number_lines i lines) k
    = Some (width4 (i + Z.of_nat k) ++ " | " ++ rstrip_text line)%string.
Proof.
  induction lines as [|l r IH]; intros i k line H.
  - destruct k; discriminate.
  - destruct k as [|k]; cbn in *.
    + injection H as ->. now rewrite Z.add_0_r.
    + rewrite (IH _ _ _ H).
      replace (i + 1 + Z.of_nat k)%Z with (i + Z.of_nat (S k))%Z by lia.
      reflexivity.
Qed.

Lemma concat_cons (x : string) (l : list string) :
  String.concat EmptyString (x :: l) = (x ++ String.concat EmptyString l)%string.
Proof. destruct l; cbn; [now rewrite append_empty_r|reflexivity]. Qed.

Lemma readlines_from_concat (text line : string) :
  String.concat EmptyString (readlines_from line text) = (line ++ text)%string.
Proof.
  revert line. induction text as [|c r IH]; intros line; cbn [readlines_from].
  - destruct line; cbn; [reflexivity|]. now rewrite append_empty_r.
  - destruct (Ascii.eqb_spec c LF) as [->|Hc].
    + rewrite concat_cons, IH, append_assoc. reflexivity.
    + rewrite IH, append_assoc. reflexivity.
Qed.

Lemma contains_app (c : ascii) (a b : string) :
  contains c (a ++ b) = contains c a || contains c b.
Proof.
  induction a as [|d a IH]; cbn; [reflexivity|].
  now rewrite IH, orb_assoc.
Qed.

Lemma readlines_from_shape (text : string) :
  forall line, contains LF line = false ->
  Forall (fun l => exists body,
            (l = body ++ String LF EmptyString \/ l = body)%string /\
            contains LF body = false) (readlines_from line text).
Proof.
  induction text as [|c r IH]; intros line Hl; cbn [readlines_from].
  - destruct line; constructor; [|constructor].
    eexists. split; [right; reflexivity|exact Hl].
  - destruct (Ascii.eqb_spec c LF) as [->|Hc].
    + constructor; [|now apply IH].
      exists line. split; [now left|exact Hl].
    + apply IH. rewrite contains_app, Hl. cbn [contains orb].
      rewrite orb_false_r. apply Ascii.eqb_neq. congruence.
Qed.

(** The lines the dump shows for the text [text] of a file. *)
Lemma extract_loop_decoded (raw text : string) (e : Codec.encoding)
    (before after : list Codec.encoding) :
  Forall (fun e' => decode e' raw = None) before ->
  decode e raw = Some text ->
  extract_loop (before ++ e :: after) (Readable raw)
  = number_lines 1 (readlines (Codec.universal_newlines text)).
Proof.
  intros Hb He. induction Hb as [|e' before H _ IH]; cbn.
  - now rewrite He.
  - now rewrite H.
Qed.


(** X20. Of a file in UTF-8 every line is shown, in order and numbered
    from 1: the number right-aligned in four columns, a bar, and the line
    without its white space at the end.  The lines are those of the text
    cut after each line feed, the last one included when no line feed
    ends it. *)
Theorem lines_are_numbered_in_order (raw : string) :
  Codec.utf8_valid raw = true ->
  let lines := readlines (Codec.universal_newlines raw) in
  String.concat EmptyString lines = Codec.universal_newlines raw /\
  Forall (fun line => exists body,
            (line = body ++ String LF EmptyString \/ line = body)%string /\
            contains LF body = false) lines /\
  List.length (extract_text_content (Readable raw)) = List.length lines /\
  forall (k : nat) (line : string),
    nth_error lines k = Some line ->
    nth_error (extract_text_content (Readable raw)) k
    = Some (width4 (Z.of_nat k + 1) ++ " | " ++ rstrip_text line)%string.
Proof.
  intros V lines.
  assert (E : extract_text_content (Readable raw) = number_lines 1 lines).
  { apply (extract_loop_decoded raw raw Codec.utf_8 []); [constructor|].
    cbn. now rewrite V. }
  split; [apply (readlines_from_concat _ EmptyString)|].
  split; [now apply readlines_from_shape|].
  rewrite E. split; [apply number_lines_length|].
  intros k line H. rewrite (number_lines_nth _ _ _ _ H).
  now rewrite Z.add_comm.
Qed.

Lemma lines_are_numbered_in_order_witness :
  let raw := ("a  " ++ String LF "b")%string in
  let lines := readlines (Codec.universal_newlines raw) in
  String.concat EmptyString lines = Codec.universal_newlines raw /\
  Forall (fun line => exists body,
            (line = body ++ String LF EmptyString \/ line = body)%string /\
            contains LF body = false) lines /\
  List.length (extract_text_content (Readable raw)) = List.length lines /\
  forall (k : nat) (line : string),
    nth_error lines k = Some line ->
    nth_error (extract_text_content (Readable raw)) k
    = Some (width4 (Z.of_nat k + 1) ++ " | " ++ rstrip_text line)%string.
Proof.
  apply (lines_are_numbered_in_order ("a  " ++ String LF "b")). reflexivity.
Defined.

End TextContent.

Section Extensions.
Import PyStr Contents.
Open Scope Z_scope.

Lemma rfind_bound (c : ascii) (s : string) :
  -1 <= rfind c s < Z.of_nat (String.length s).
Proof.
  induction s as [|d s IH]; cbn [rfind String.length]; [lia|].
  destruct (Z.leb_spec 0 (rfind c s)); [lia|].
  destruct (Ascii.eqb c d); lia.
Qed.

Lemma rfind_app (c : ascii) (a b : string) :
  rfind c (a ++ b) =
  if 0 <=? rfind c b then Z.of_nat (String.length a) + rfind c b
  else rfind c a.
Proof.
  induction a as [|d a IH]; cbn [append rfind String.length].
  - destruct (Z.leb_spec 0 (rfind c b)); [lia|].
    pose proof (rfind_bound c b). lia.
  - rewrite IH. pose proof (rfind_bound c a).
    destruct (Z.leb_spec 0 (rfind c b)).
    + destruct (Z.leb_spec 0 (Z.of_nat (String.length a) + rfind c b)); lia.
    + reflexivity.
Qed.

Lemma rfind_absent (c : ascii) (s : string) :
  contains c s = false -> rfind c s = -1.
Proof.
  induction s as [|d s IH]; cbn [contains rfind]; [reflexivity|].
  intros H. apply orb_false_iff in H as [H1 H2].
  rewrite (IH H2), H1. reflexivity.
Qed.

Lemma get_app_length (a : string) (c : ascii) (b : string) :
  String.get (String.length a) (a ++ String c b) = Some c.
Proof. induction a as [|d a IH]; cbn; [reflexivity|exact IH]. Qed.

Lemma get_some (s : string) (i : nat) :
  (i < String.length s)%nat -> exists c, String.get i s = Some c.
Proof.
  revert i. induction s as [|d s IH]; intros i H; cbn in H; [lia|].
  destruct i; cbn; [now eexists|]. apply IH. lia.
Qed.

Lemma splitext_loop_splits (p : string) (c : ascii) (dotIndex : nat) :
  String.get (dotIndex - 1) p = Some c -> c <> "."%char ->
  (dotIndex <= String.length p)%nat ->
  forall fuel filenameIndex,
    (0 < fuel)%nat -> (filenameIndex + fuel = dotIndex)%nat ->
    splitext_loop fuel p filenameIndex dotIndex
    = (upto dotIndex p, from dotIndex p).
Proof.
  intros Hc Hne Hlen. induction fuel as [|fuel IH]; intros i Hf Hi; [lia|].
  cbn [splitext_loop].
  destruct (get_some p i) as [d Hd]; [lia|]. rewrite Hd.
  destruct (Ascii.eqb_spec d "."%char) as [->|Hdot]; cbn [negb]; [|reflexivity].
  destruct fuel as [|fuel].
  - replace (dotIndex - 1)%nat with i in Hc by lia. congruence.
  - apply IH; lia.
Qed.

Lemma upto_app (a b : string) : upto (String.length a) (a ++ b) = a.
Proof. unfold upto. induction a as [|d a IH]; cbn; [now destruct b|now rewrite IH]. Qed.

Lemma from_app (a b : string) : from (String.length a) (a ++ b) = b.
Proof.
  unfold from. induction a as [|d a IH]; cbn [append String.length].
  - cbn. rewrite Nat.sub_0_r. apply substring_all.
  - cbn. exact IH.
Qed.

(** [os.path.splitext] cuts at the last dot when a name stands before it. *)
Lemma splitext_extension (base : string) (c : ascii) (e : string) :
  c <> "/"%char -> c <> "."%char ->
  contains "." e = false -> contains "/" e = false ->
  splitext (base ++ String c (String "." e))
  = ((base ++ String c EmptyString)%string, String "." e).
Proof.
  intros Hsep Hdot He1 He2.
  replace (base ++ String c (String "." e))%string
    with ((base ++ String c EmptyString) ++ String "." e)%string
    by (rewrite append_assoc; reflexivity).
  set (stem := (base ++ String c EmptyString)%string).
  assert (Ls : String.length stem = S (String.length base)).
  { unfold stem. rewrite length_append. cbn. lia. }
  unfold splitext.
  assert (Rdot : rfind "." (stem ++ String "." e) = Z.of_nat (String.length stem)).
  { rewrite rfind_app. cbn [rfind]. rewrite (rfind_absent _ _ He1). cbn. lia. }
  assert (Rsep : rfind "/" (stem ++ String "." e) < Z.of_nat (String.length base)).
  { rewrite rfind_app. cbn [rfind]. rewrite (rfind_absent _ _ He2).
    replace (Ascii.eqb "/" ".") with false by reflexivity. cbn [Z.leb Z.compare].
    unfold stem. rewrite rfind_app. cbn [rfind].
    replace (Ascii.eqb "/" c) with false
      by (symmetry; apply Ascii.eqb_neq; congruence).
    cbn [Z.leb Z.compare]. apply rfind_bound. }
  pose proof (rfind_bound "/" (stem ++ String "." e)) as Bsep.
  rewrite Rdot. destruct (Z.ltb_spec (rfind "/" (stem ++ String "." e))
                            (Z.of_nat (String.length stem))); [|lia].
  rewrite Nat2Z.id.
  rewrite (splitext_loop_splits _ c (String.length stem)).
  - now rewrite upto_app, from_app.
  - rewrite Ls. replace (S (String.length base) - 1)%nat with (String.length base) by lia.
    unfold stem. rewrite append_assoc. apply get_app_length.
  - exact Hdot.
  - rewrite length_append. lia.
  - lia.
  - lia.
Qed.

(** X21. A file whose name ends in one of the binary extensions, in
    whatever letter case, is never opened for its text: after the three
    header lines comes one line, the raw URL for the six image extensions
    and the note on binary files for the others, and then an empty line,
    whatever the file holds.  The extension is what follows the last dot
    of the path, provided a character other than a dot or a slash stands
    right before that dot. *)
Theorem listed_extension_hides_content (base : string) (c : ascii)
    (e : string) (f : file_read) :
  c <> "/"%char -> c <> "."%char ->
  contains "." e = false -> contains "/" e = false ->
  member (lower (String "." e)) BINARY_EXTENSIONS = true ->
  let path := (base ++ String c (String "." e))%string in
  process_single_file path f =
    header path
    ++ [if member (lower (String "." e)) image_extensions
        then ("https://raw.githubusercontent.com/.../" ++ path)%string
        else "[Binary file - content not displayed]"]
    ++ [EmptyString].
Proof.
  intros Hsep Hdot He1 He2 Hb path. unfold process_single_file, path.
  rewrite (splitext_extension base c e Hsep Hdot He1 He2). cbn [snd].
  rewrite Hb. cbn [orb].
  destruct (member (lower (String "." e)) image_extensions); reflexivity.
Qed.

Lemma listed_extension_hides_content_witness :
  let path := ("img/logo.v2" ++ String "a" (String "." "PnG"))%string in
  process_single_file path (Readable "plain text") =
    header path
    ++ [if member (lower (String "." "PnG")) image_extensions
        then ("https://raw.githubusercontent.com/.../" ++ path)%string
        else "[Binary file - content not displayed]"]
    ++ [EmptyString].
Proof.
  apply (listed_extension_hides_content "img/logo.v2" "a" "PnG"
           (Readable "plain text"));
    first [discriminate | reflexivity].
Defined.

End Extensions.

Section Walk.
Import PyStr Contents.
Open Scope nat_scope.

Lemma node_rect_list (P : node -> Prop) :
  (forall file regular f, P (Leaf file regular f)) ->
  (forall d, P (Folder d None)) ->
  (forall d l, Forall P l -> P (Folder d (Some l))) ->
  forall n, P n.
Proof.
  intros Hleaf Hnone Hsome. fix IH 1. intros [file regular f|d [l|]].
  - apply Hleaf.
  - apply Hsome. induction l as [|n l IHl]; constructor; [apply IH|exact IHl].
  - apply Hnone.
Qed.

Lemma files_of_spec (top : list string) (l : list node) (q : list string)
    (f : file_read) :
  In (q, f) (files_of top l) <->
  exists file regular, In (Leaf file regular f) l /\
    Reporter.ignored file = false /\ q = top ++ [file].
Proof.
  unfold files_of. rewrite in_flat_map. split.
  - intros [n [Hn Hq]].
    apply (Permutation_in _ (sorted_perm node_leb _)) in Hn.
    apply filter_In in Hn as [Hn _].
    destruct n as [file regular g|]; [|contradiction].
    destruct (Reporter.ignored file) eqn:E; [contradiction|].
    destruct Hq as [Hq|[]]. injection Hq as <- <-.
    now exists file, regular.
  - intros [file [regular [Hn [Hi ->]]]].
    exists (Leaf file regular f). split.
    + apply (Permutation_in _ (Permutation_sym (sorted_perm node_leb _))).
      apply filter_In. now split.
    + rewrite Hi. now left.
Qed.

Lemma walk_dir_sound (n : node) :
  forall top q f, In (q, f) (walk_dir top n) ->
    exists d sub p, n = Folder d sub /\ q = top ++ d :: p /\
      reaches sub p f /\ unignored (d :: p).
Proof.
  induction n as [file regular g|d|d l IH] using node_rect_list;
    intros top q f H; cbn [walk_dir walk_listing] in H.
  - contradiction.
  - destruct (Reporter.ignored d); contradiction.
  - destruct (Reporter.ignored d) eqn:E; [contradiction|].
    apply in_app_or in H as [H|H].
    + apply files_of_spec in H as [file [regular [Hn [Hi ->]]]].
      exists d, (Some l), [file]. rewrite <- app_assoc. repeat split.
      * econstructor. exact Hn.
      * repeat constructor; assumption.
    + apply in_flat_map in H as [m [Hm H]].
      rewrite Forall_forall in IH.
      destruct (IH m Hm _ _ _ H) as [d' [sub [p [-> [-> [Hr Hs]]]]]].
      exists d, (Some l), (d' :: p). rewrite <- app_assoc. repeat split.
      * eapply reaches_dir; eassumption.
      * constructor; assumption.
Qed.

Lemma walk_complete (root : option (list node)) (p : list string) (f : file_read) :
  reaches root p f -> unignored p ->
  forall top, In (top ++ p, f) (walk top root).
Proof.
  intros Hr. induction Hr as [l file regular f Hn|l d sub p f Hn Hr IH];
    intros Hs top; unfold walk; cbn [walk_listing]; apply in_or_app.
  - left. apply files_of_spec. exists file, regular.
    inversion Hs; subst. now repeat split.
  - right. apply in_flat_map. exists (Folder d sub). split; [exact Hn|].
    inversion Hs as [|? ? Hd Hp]; subst. cbn [walk_dir]. rewrite Hd.
    specialize (IH Hp (top ++ [d])). rewrite <- app_assoc in IH. exact IH.
Qed.

(** X22. The files whose contents are dumped are exactly the files of the
    tree, regular or not, that no ignored name leads to: neither the name
    of the file nor that of a directory above it is in [IGNORE_PATTERNS].
    Directories that cannot be listed contribute nothing. *)
Theorem dump_covers_the_files_not_ignored (root : option (list node))
    (p : list string) (f : file_read) :
  In (p, f) (walk [] root) <->
  reaches root p f /\ unignored p.
Proof.
  split.
  - unfold walk. destruct root as [l|]; cbn [walk_listing]; [|contradiction].
    intros H. apply in_app_or in H as [H|H].
    + apply files_of_spec in H as [file [regular [Hn [Hi ->]]]]. split.
      * econstructor. exact Hn.
      * repeat constructor; assumption.
    + apply in_flat_map in H as [m [Hm H]].
      apply walk_dir_sound in H as [d [sub [q [-> [-> [Hr Hs]]]]]]. split.
      * eapply reaches_dir; eassumption.
      * exact Hs.
  - intros [Hr Hs]. apply (walk_complete root p f Hr Hs []).
Qed.

Lemma reaches_nonempty (root : option (list node)) (p : list string)
    (f : file_read) : reaches root p f -> p <> [].
Proof. intros H. destruct H; discriminate. Qed.

Lemma node_leb_total (a b : node) :
  node_leb a b = true \/ node_leb b a = true.
Proof. apply String.leb_total. Qed.

Lemma files_of_sorted (top : list string) (l : list node) :
  StronglySorted (fun a b => node_leb a b = true) l ->
  StronglySorted
    (fun a b => leb (file_name (fst a)) (file_name (fst b)) = true)
    (flat_map (fun n =>
       match n with
       | Leaf file _ f =>
           if Reporter.ignored file then [] else [(top ++ [file], f)]
       | Folder _ _ => []
       end) l).
Proof.
  induction 1 as [|n l Hs IH Hn]; cbn [flat_map]; [constructor|].
  destruct n as [file regular f|]; [|exact IH].
  destruct (Reporter.ignored file); [exact IH|].
  cbn [app]. constructor; [exact IH|].
  apply Forall_forall. intros [q g] Hq.
  apply in_flat_map in Hq as [m [Hm Hq]].
  rewrite Forall_forall in Hn. specialize (Hn m Hm).
  destruct m as [file' regular' f'|]; [|contradiction].
  destruct (Reporter.ignored file'); [contradiction|].
  destruct Hq as [Hq|[]]. injection Hq as <- <-.
  unfold file_name. cbn [fst]. rewrite !last_last. exact Hn.
Qed.

(** X23. For each directory the dump takes its own files first, in the
    order of their names, and only then the files of its subdirectories:
    the walk of a listing is a list of files of the directory itself,
    sorted by name, followed by files that lie deeper. *)
Theorem own_files_first_and_sorted (top : list string) (l : list node) :
  exists own below,
    walk top (Some l) = own ++ below /\
    Forall (fun '(q, _) => exists file, q = top ++ [file]) own /\
    Sorted (fun a b => leb (file_name (fst a)) (file_name (fst b)) = true) own /\
    Forall (fun '(q, _) => exists d file rest, q = top ++ d :: rest ++ [file])
      below.
Proof.
  exists (files_of top l), (flat_map (walk_dir top) l).
  split; [reflexivity|]. split; [|split].
  - apply Forall_forall. intros [q f] H.
    apply files_of_spec in H as [file [_ [_ [_ ->]]]]. now exists file.
  - apply StronglySorted_Sorted. apply files_of_sorted.
    apply Sorted_StronglySorted.
    + intros a b c. apply leb_trans.
    + apply sorted_sorted. apply node_leb_total.
  - apply Forall_forall. intros [q f] H.
    apply in_flat_map in H as [m [_ H]].
    apply walk_dir_sound in H as [d [sub [p [_ [-> [Hr _]]]]]].
    destruct (exists_last (reaches_nonempty _ _ _ Hr)) as [rest [file ->]].
    now exists d, file, rest.
Qed.

(** X24. The two halves of the report disagree on special files.  An entry
    of a directory that is neither a directory nor a regular file, and
    whose name is not ignored, has no line in the tree, yet it is among
    the files whose contents are dumped. *)
Theorem special_file_is_dumped_but_not_drawn (l : list node) (file : string)
    (f : file_read) :
  In (Leaf file false f) l ->
  Reporter.ignored file = false ->
  In ([file], f) (walk [] (Some l)) /\
  ~ In (Reporter.Other file) (Reporter.all_items (map to_entry l)).
Proof.
  intros Hn Hi. split.
  - refine (walk_complete (Some l) [file] f _ _ []).
    + econstructor. exact Hn.
    + repeat constructor. exact Hi.
  - unfold Reporter.all_items, Reporter.dirs, Reporter.files. intros H.
    apply in_app_or in H as [H|H]; apply filter_In in H as [_ H];
      discriminate H.
Qed.

Lemma special_file_is_dumped_but_not_drawn_witness :
  In (["run.sock"], Unreadable "[Errno 6] No such device or address: 'run.sock'")
    (walk [] (Some [Leaf "a.txt" true (Readable "a");
                    Leaf "run.sock" false
                      (Unreadable "[Errno 6] No such device or address: 'run.sock'")])) /\
  ~ In (Reporter.Other "run.sock")
      (Reporter.all_items
         (map to_entry
            [Leaf "a.txt" true (Readable "a");
             Leaf "run.sock" false
               (Unreadable "[Errno 6] No such device or address: 'run.sock'")])).
Proof.
  apply (special_file_is_dumped_but_not_drawn
           [Leaf "a.txt" true (Readable "a");
            Leaf "run.sock" false
              (Unreadable "[Errno 6] No such device or address: 'run.sock'")]).
  - right. left. reflexivity.
  - reflexivity.
Defined.

End Walk.

(* ================================================================= *)
(** * Runs of table lines *)

Section TableRuns.
Import PyStr.
Open Scope nat_scope.

Lemma table_loop_run (run : list string) :
  forall (post : list string) (i : nat) (acc : list string),
    Forall (fun l => is_table_line l = true \/ is_blank l = true) run ->
    match post with
    | [] => True
    | l :: _ => is_table_line l = false /\ is_blank l = false
    end ->
    table_loop (run ++ post) i acc
    = (i + List.length run, acc ++ table_lines_of run).
Proof.
  induction run as [|l run IH]; intros post i acc Hrun Hpost.
  - cbn [app List.length table_lines_of filter map]. rewrite Nat.add_0_r, app_nil_r.
    destruct post as [|p post]; [reflexivity|]. destruct Hpost as [Hpipe Hblank].
    cbn [table_loop]. unfold is_table_line in Hpipe. unfold is_blank in Hblank.
    now rewrite Hpipe, Hblank.
  - inversion Hrun as [|? ? Hl Hrest]; subst.
    cbn [app table_loop List.length]. unfold table_lines_of. cbn [filter].
    unfold is_table_line at 1. unfold is_table_line, is_blank in Hl.
    destruct (contains "|" (strip l)) eqn:E.
    + rewrite IH by assumption. cbn [map]. unfold table_lines_of.
      rewrite <- app_assoc. f_equal. lia.
    + destruct Hl as [Hl|Hl]; [discriminate|]. rewrite Hl.
      rewrite IH by assumption. f_equal. lia.
Qed.

(** X25.  A table takes the whole run of lines that hold a pipe and of
    blank lines, up to the first line that is neither or to the end of
    the source.  Blank lines do not end it: when the run holds at least
    two lines with a pipe, all of them, stripped and in order, make one
    table, so two tables with nothing but blank lines between them are
    merged, and the caption numbers this one table. *)
Theorem table_takes_the_whole_run (self : Converter)
    (pre run post : list string) :
  Forall (fun l => is_table_line l = true \/ is_blank l = true) run ->
  match post with
  | [] => True
  | l :: _ => is_table_line l = false /\ is_blank l = false
  end ->
  2 <= List.length (table_lines_of run) ->
  exists self',
    process_table self (pre ++ run ++ post) (List.length pre)
    = (List.length pre + List.length run - 1, self') /\
    doc self' =
      doc self ++ captioned (table_caption_position (settings self))
                    (table_counter self + 1)
                    (table_block (table_lines_of run)) /\
    settings self' = settings self /\
    heading_counters self' = heading_counters self.
Proof.
  intros Hrun Hpost Hlen. unfold process_table.
  rewrite skipn_app_length, table_loop_run by assumption.
  cbn [app].
  destruct (Nat.ltb_spec (List.length (table_lines_of run)) 2) as [H|_]; [lia|].
  eexists. split; [reflexivity|].
  unfold captioned, eqb.
  destruct (String.eqb_spec (table_caption_position (settings self)) "above")
    as [Ha|Ha].
  - cbn. rewrite Ha. cbn. rewrite <- app_assoc. repeat split; auto.
  - cbn.
    destruct (String.eqb_spec (table_caption_position (settings self)) "below")
      as [Hb|Hb]; cbn.
    + rewrite <- app_assoc. repeat split.
    + repeat split.
Qed.

Lemma table_takes_the_whole_run_witness :
  exists self',
    process_table (new_converter numbered_settings)
      (["intro"]
       ++ ["| a | b |"; "|---|---|"; "| 1 | 2 |"; EmptyString;
           "| c | d |"; "|---|---|"; "| 3 | 4 |"; EmptyString]
       ++ ["text"])
      (List.length ["intro"])
    = (List.length ["intro"]
       + List.length ["| a | b |"; "|---|---|"; "| 1 | 2 |"; EmptyString;
                      "| c | d |"; "|---|---|"; "| 3 | 4 |"; EmptyString] - 1,
       self') /\
    doc self' =
      doc (new_converter numbered_settings)
      ++ captioned (table_caption_position (settings (new_converter numbered_settings)))
           (table_counter (new_converter numbered_settings) + 1)
           (table_block
              (table_lines_of
                 ["| a | b |"; "|---|---|"; "| 1 | 2 |"; EmptyString;
                  "| c | d |"; "|---|---|"; "| 3 | 4 |"; EmptyString])) /\
    settings self' = settings (new_converter numbered_settings) /\
    heading_counters self' = heading_counters (new_converter numbered_settings).
Proof.
  apply (table_takes_the_whole_run (new_converter numbered_settings)
           ["intro"]
           ["| a | b |"; "|---|---|"; "| 1 | 2 |"; EmptyString;
            "| c | d |"; "|---|---|"; "| 3 | 4 |"; EmptyString]
           ["text"]).
  - repeat (apply Forall_cons; [first [left; reflexivity | right; reflexivity]|]).
    apply Forall_nil.
  - split; reflexivity.
  - vm_compute. lia.
Defined.

End TableRuns.
